(** * Cloud comparison engine: scoring, savings, TCO and migration heuristic

    A shallow embedding of [mcp_servers/comparison_server.py]
    (class [CloudComparisonEngine] and the migration tool) together with the
    properties its specification states about it.

    Conventions of the embedding.
    - Numbers.  Python evaluates the arithmetic below on [int] and binary64
      [float] values.  The embedding computes over the rationals [Q], that is,
      with the exact value of every expression; rounding, overflow and the
      special values of binary64 are outside this model, and an equality it
      proves holds of the program up to rounding.  Equality of numbers is
      [Qeq] (written [==]).  Where a statement turns on an exact value, module
      [Binary64] evaluates the same expressions on binary64 numbers, and
      thresholds are stated with a margin far wider than the rounding.
    - Exceptions.  A Python expression that can raise is a computation in the
      [result] monad; [/] raises [ZeroDivisionError] on a zero divisor.
    - Dictionaries parsed from JSON are finite maps from strings to [value]s;
      [d.get(k, default)] is a lookup with a default.
    - Strings are byte strings (UTF-8 for the accented Portuguese labels).
      White space is the ASCII white space; a statement that depends on which
      characters are white space is made for ASCII text, on which
      [str.split] and [str.strip] know no other. *)

From Stdlib Require Import QArith Qabs Lqa String Ascii List Sorted PrimFloat.
From stdpp Require Import gmap strings.

Local Open Scope Q_scope.
Local Open Scope string_scope.

(* Decimal binary64 literals stand for the nearest binary64 number, as in Python. *)
#[local] Set Warnings "-inexact-float".

(** ** Exceptions *)

Inductive exn : Type :=
| ZeroDivisionError
| TypeError.

Inductive result (A : Type) : Type :=
| Ok (a : A)
| Raise (e : exn).

Arguments Ok {A} a.
Arguments Raise {A} e.

#[global] Instance result_ret : MRet result := fun _ a => Ok a.
#[global] Instance result_bind : MBind result := fun _ _ f m =>
  match m with
  | Ok a => f a
  | Raise e => Raise e
  end.

Definition returns {A : Type} (m : result A) : Prop := exists a, m = Ok a.

(** ** Python numbers *)

(** [a < b] as a boolean. *)
Definition Qltb (a b : Q) : bool := negb (Qle_bool b a).

(** [max(a, b)]: the first argument unless the second is strictly greater. *)
Definition py_max (a b : Q) : Q := if Qltb a b then b else a.

(** [min(a, b)]: the first argument unless the second is strictly smaller. *)
Definition py_min (a b : Q) : Q := if Qltb b a then b else a.

(** [a / b]: true division, raising on a zero divisor. *)
Definition py_div (a b : Q) : result Q :=
  if Qeq_bool b 0 then Raise ZeroDivisionError else Ok (a / b).

(** ** JSON values and dictionaries *)

Inductive value : Type :=
| VNum (q : Q)
| VStr (s : string).

(** [d.get(k, 0)] for a key that is used as a number.  A string in its place
    makes the first arithmetic operation on it raise [TypeError]. *)
Definition get_num (d : gmap string value) (k : string) : result Q :=
  match d !! k with
  | None => Ok 0
  | Some (VNum q) => Ok q
  | Some (VStr _) => Raise TypeError
  end.

(** [d.get(k, default)] for a key that is only stored or compared. *)
Definition get_val (d : gmap string value) (k : string) (default : value) : value :=
  match d !! k with
  | None => default
  | Some v => v
  end.

(** [v == s] for a string literal [s]. *)
Definition value_is (v : value) (s : string) : bool :=
  match v with
  | VStr t => String.eqb t s
  | VNum _ => false
  end.

(** ** The two providers *)

Inductive provider : Type :=
| aws
| gcp.

(** The dictionary key of a provider. *)
Definition provider_key (p : provider) : string :=
  match p with
  | aws => "aws"
  | gcp => "gcp"
  end.

(** ['aws' if p == 'gcp' else 'gcp'] *)
Definition other_provider (p : provider) : provider :=
  match p with
  | gcp => aws
  | aws => gcp
  end.

(** A dictionary [{'aws': x, 'gcp': y}] of scores. *)
Record scores : Type := mk_scores {
  aws_score : Q;
  gcp_score : Q
}.

Definition score_at (s : scores) (p : provider) : Q :=
  match p with
  | aws => aws_score s
  | gcp => gcp_score s
  end.

Notation "s .[ p ]" := (score_at s p) (at level 1, format "s .[ p ]").

(** ** [CloudComparisonEngine.__init__]: the static tables *)

Inductive criterion : Type :=
| cost
| performance
| scalability
| reliability
| maintenance.

Definition criteria : list criterion :=
  [cost; performance; scalability; reliability; maintenance].

Definition weights (c : criterion) : Q :=
  match c with
  | cost => 0.35
  | performance => 0.25
  | scalability => 0.20
  | reliability => 0.15
  | maintenance => 0.05
  end.

Record characteristics : Type := mk_characteristics {
  performance_multiplier : Q;
  scalability_score : Q;
  reliability_score : Q;
  maintenance_score : Q;
  global_presence : Q;
  service_maturity : Q
}.

Definition provider_characteristics (p : provider) : characteristics :=
  match p with
  | aws => {| performance_multiplier := 1.0;
              scalability_score := 9.5;
              reliability_score := 9.8;
              maintenance_score := 8.5;
              global_presence := 9.9;
              service_maturity := 9.8 |}
  | gcp => {| performance_multiplier := 1.05;
              scalability_score := 9.3;
              reliability_score := 9.6;
              maintenance_score := 9.2;
              global_presence := 8.8;
              service_maturity := 8.9 |}
  end.

(** ** The per-criterion scores *)

Definition _calculate_cost_score (aws_cost gcp_cost : Q) : result scores :=
  if Qeq_bool aws_cost 0 && Qeq_bool gcp_cost 0 then
    Ok {| aws_score := 5.0; gcp_score := 5.0 |}
  else
    let total_cost := aws_cost + gcp_cost in
    if Qeq_bool total_cost 0 then
      Ok {| aws_score := 5.0; gcp_score := 5.0 |}
    else
      q_aws ← py_div gcp_cost total_cost;
      q_gcp ← py_div aws_cost total_cost;
      Ok {| aws_score := q_aws * 10; gcp_score := q_gcp * 10 |}.

Definition _calculate_performance_score (provider1 provider2 : string)
    (workload_requirements : gmap string value) : scores :=
  let workload_type := get_val workload_requirements "type" (VStr "general") in
  if value_is workload_type "compute_intensive" then
    {| aws_score := 8.5; gcp_score := 9.0 |}
  else if value_is workload_type "data_intensive" then
    {| aws_score := 9.2; gcp_score := 8.8 |}
  else
    {| aws_score := 8.8; gcp_score := 8.9 |}.

Definition _calculate_scalability_score (provider1 provider2 : string) : scores :=
  {| aws_score := scalability_score (provider_characteristics aws);
     gcp_score := scalability_score (provider_characteristics gcp) |}.

Definition _calculate_reliability_score (provider1 provider2 : string) : scores :=
  {| aws_score := reliability_score (provider_characteristics aws);
     gcp_score := reliability_score (provider_characteristics gcp) |}.

Definition _calculate_maintenance_score (provider1 provider2 : string) : scores :=
  {| aws_score := maintenance_score (provider_characteristics aws);
     gcp_score := maintenance_score (provider_characteristics gcp) |}.

(** ** Reasons for a recommendation *)

Definition _get_primary_reasons (winner : provider)
    (cost_score performance_score scalability_score : scores) : list string :=
  let reasons : list string := [] in
  let reasons :=
    if Qltb cost_score.[other_provider winner] cost_score.[winner]
    then (reasons ++ ["Melhor custo-benefício"])%list else reasons in
  let reasons :=
    if Qltb performance_score.[other_provider winner] performance_score.[winner]
    then (reasons ++ ["Superior performance"])%list else reasons in
  let reasons :=
    if Qltb scalability_score.[other_provider winner] scalability_score.[winner]
    then (reasons ++ ["Melhor escalabilidade"])%list else reasons in
  take 3 reasons.

(** ** [compare_compute_instances] *)

(** The entry [scores[p]] of the result. *)
Record score_card : Type := mk_score_card {
  sc_cost : Q;
  sc_performance : Q;
  sc_scalability : Q;
  sc_reliability : Q;
  sc_maintenance : Q;
  sc_final : Q
}.

Record recommendation : Type := mk_recommendation {
  winner : provider;
  confidence : Q;
  primary_reasons : list string
}.

Record compute_comparison : Type := mk_compute_comparison {
  cc_comparison_type : string;
  aws_instance : value;
  gcp_instance : value;
  aws_cost : Q;
  gcp_cost : Q;
  cc_cost_difference : Q;
  cc_cost_savings_provider : provider;
  cc_cost_savings_percentage : Q;
  cc_scores : provider -> score_card;
  cc_recommendation : recommendation
}.

Definition compare_compute_instances
    (aws_data gcp_data workload_requirements : gmap string value)
    : result compute_comparison :=
  aws_monthly_cost ← get_num aws_data "price_per_month";
  gcp_monthly_cost ← get_num gcp_data "price_per_month";
  cost_score ← _calculate_cost_score aws_monthly_cost gcp_monthly_cost;
  let performance_score := _calculate_performance_score "aws" "gcp" workload_requirements in
  let scalability_score := _calculate_scalability_score "aws" "gcp" in
  let reliability_score := _calculate_reliability_score "aws" "gcp" in
  let maintenance_score := _calculate_maintenance_score "aws" "gcp" in
  let aws_final_score :=
    cost_score.[aws] * weights cost +
    performance_score.[aws] * weights performance +
    scalability_score.[aws] * weights scalability +
    reliability_score.[aws] * weights reliability +
    maintenance_score.[aws] * weights maintenance in
  let gcp_final_score :=
    cost_score.[gcp] * weights cost +
    performance_score.[gcp] * weights performance +
    scalability_score.[gcp] * weights scalability +
    reliability_score.[gcp] * weights reliability +
    maintenance_score.[gcp] * weights maintenance in
  let winner := if Qltb gcp_final_score aws_final_score then aws else gcp in
  ratio ← py_div (aws_monthly_cost - gcp_monthly_cost)
                 (py_max aws_monthly_cost gcp_monthly_cost);
  Ok {| cc_comparison_type := "compute_instances";
        aws_instance := get_val aws_data "instance_type" (VStr "N/A");
        gcp_instance := get_val gcp_data "machine_type" (VStr "N/A");
        aws_cost := aws_monthly_cost;
        gcp_cost := gcp_monthly_cost;
        cc_cost_difference := Qabs (aws_monthly_cost - gcp_monthly_cost);
        cc_cost_savings_provider :=
          if Qltb aws_monthly_cost gcp_monthly_cost then aws else gcp;
        cc_cost_savings_percentage := Qabs ratio * 100;
        cc_scores := fun p =>
          match p with
          | aws => {| sc_cost := cost_score.[aws];
                      sc_performance := performance_score.[aws];
                      sc_scalability := scalability_score.[aws];
                      sc_reliability := reliability_score.[aws];
                      sc_maintenance := maintenance_score.[aws];
                      sc_final := aws_final_score |}
          | gcp => {| sc_cost := cost_score.[gcp];
                      sc_performance := performance_score.[gcp];
                      sc_scalability := scalability_score.[gcp];
                      sc_reliability := reliability_score.[gcp];
                      sc_maintenance := maintenance_score.[gcp];
                      sc_final := gcp_final_score |}
          end;
        cc_recommendation :=
          {| winner := winner;
             confidence := Qabs (aws_final_score - gcp_final_score) / 10;
             primary_reasons :=
               _get_primary_reasons winner cost_score performance_score scalability_score |}
     |}.

(** ** [compare_storage_options] *)

(** Python's [a > b] on strings: lexicographic on the character codes, a
    proper prefix being smaller. *)
Fixpoint str_gt (a b : string) : bool :=
  match a, b with
  | EmptyString, _ => false
  | String _ _, EmptyString => true
  | String x a', String y b' =>
      match N.compare (N_of_ascii x) (N_of_ascii y) with
      | Gt => true
      | Lt => false
      | Eq => str_gt a' b'
      end
  end.

(** A descriptor [{'durability': d, 'availability': a, 'use_case': u}]. *)
Definition descriptor (d a u : string) : gmap string string :=
  {[ "durability" := d; "availability" := a; "use_case" := u ]}.

Definition storage_characteristics : gmap string (gmap string string) :=
  {[ "s3_standard" := descriptor "99.999999999%" "99.99%" "Acesso frequente";
     "s3_ia" := descriptor "99.999999999%" "99.9%" "Acesso infrequente";
     "s3_glacier" := descriptor "99.999999999%" "N/A" "Arquivamento";
     "standard" := descriptor "99.999999999%" "99.95%" "Acesso frequente";
     "nearline" := descriptor "99.999999999%" "99.95%" "Backup mensal";
     "coldline" := descriptor "99.999999999%" "99.95%" "Arquivamento";
     "archive" := descriptor "99.999999999%" "99.95%" "Arquivamento longo prazo" ]}.

(** [storage_characteristics.get(t, {})]; a number is never a key of the table. *)
Definition lookup_characteristics (t : value) : gmap string string :=
  match t with
  | VStr s => default ∅ (storage_characteristics !! s)
  | VNum _ => ∅
  end.

Record storage_analysis : Type := mk_storage_analysis {
  aws_characteristics : gmap string string;
  gcp_characteristics : gmap string string;
  comparison_durability : string;
  comparison_availability : string
}.

Definition _analyze_storage_characteristics (aws_type gcp_type : value) : storage_analysis :=
  let aws_char := lookup_characteristics aws_type in
  let gcp_char := lookup_characteristics gcp_type in
  {| aws_characteristics := aws_char;
     gcp_characteristics := gcp_char;
     comparison_durability :=
       if bool_decide (aws_char !! "durability" = gcp_char !! "durability")
       then "Equivalente" else "Diferente";
     comparison_availability :=
       if str_gt (default "0%" (aws_char !! "availability"))
                 (default "0%" (gcp_char !! "availability"))
       then "AWS superior" else "GCP superior" |}.

(** The result of [compare_storage_options]; the [reasoning] sentence of the
    recommendation, a rendering of the winner and the percentage, is left out. *)
Record storage_comparison : Type := mk_storage_comparison {
  st_comparison_type : string;
  aws_storage : value;
  gcp_storage : value;
  aws_cost_per_gb : Q;
  gcp_cost_per_gb : Q;
  st_cost_difference : Q;
  st_cost_savings_provider : provider;
  st_cost_savings_percentage : Q;
  st_storage_analysis : storage_analysis;
  st_winner : provider;
  st_confidence : Q
}.

Definition compare_storage_options (aws_data gcp_data : gmap string value)
    : result storage_comparison :=
  aws_cost ← get_num aws_data "price_per_gb_month";
  gcp_cost ← get_num gcp_data "price_per_gb_month";
  let cost_difference := Qabs (aws_cost - gcp_cost) in
  let cost_savings_provider := if Qltb aws_cost gcp_cost then aws else gcp in
  ratio ← py_div cost_difference (py_max aws_cost gcp_cost);
  let cost_savings_percentage := ratio * 100 in
  let storage_analysis :=
    _analyze_storage_characteristics
      (get_val aws_data "storage_type" (VStr ""))
      (get_val gcp_data "storage_type" (VStr "")) in
  Ok {| st_comparison_type := "storage";
        aws_storage := get_val aws_data "storage_type" (VStr "N/A");
        gcp_storage := get_val gcp_data "storage_type" (VStr "N/A");
        aws_cost_per_gb := aws_cost;
        gcp_cost_per_gb := gcp_cost;
        st_cost_difference := cost_difference;
        st_cost_savings_provider := cost_savings_provider;
        st_cost_savings_percentage := cost_savings_percentage;
        st_storage_analysis := storage_analysis;
        st_winner := cost_savings_provider;
        st_confidence := py_min (cost_savings_percentage / 20) 1.0 |}.

(** ** [calculate_tco] *)

Record monthly_breakdown : Type := mk_monthly_breakdown {
  compute_monthly : Q;
  storage_monthly : Q;
  additional_monthly : Q;
  operational_monthly : Q;
  total_monthly : Q
}.

Record tco_analysis : Type := mk_tco_analysis {
  time_horizon_months : Z;
  aws_tco : Q;
  gcp_tco : Q;
  savings : Q;
  savings_provider : provider;
  savings_percentage : Q;
  breakdown : provider -> monthly_breakdown
}.

Definition calculate_tco
    (compute_costs storage_costs additional_services : gmap string value)
    (time_horizon_months : Z) : result tco_analysis :=
  aws_compute_monthly ← get_num compute_costs "aws";
  gcp_compute_monthly ← get_num compute_costs "gcp";
  aws_storage_monthly ← get_num storage_costs "aws";
  gcp_storage_monthly ← get_num storage_costs "gcp";
  aws_additional_monthly ← get_num additional_services "aws";
  gcp_additional_monthly ← get_num additional_services "gcp";
  let aws_operational_monthly := (aws_compute_monthly + aws_storage_monthly) * 0.15 in
  let gcp_operational_monthly := (gcp_compute_monthly + gcp_storage_monthly) * 0.12 in
  let aws_monthly_total :=
    aws_compute_monthly + aws_storage_monthly + aws_additional_monthly
    + aws_operational_monthly in
  let gcp_monthly_total :=
    gcp_compute_monthly + gcp_storage_monthly + gcp_additional_monthly
    + gcp_operational_monthly in
  let aws_tco := aws_monthly_total * inject_Z time_horizon_months in
  let gcp_tco := gcp_monthly_total * inject_Z time_horizon_months in
  let savings := Qabs (aws_tco - gcp_tco) in
  let savings_provider := if Qltb aws_tco gcp_tco then aws else gcp in
  ratio ← py_div savings (py_max aws_tco gcp_tco);
  let savings_percentage := ratio * 100 in
  Ok {| time_horizon_months := time_horizon_months;
        aws_tco := aws_tco;
        gcp_tco := gcp_tco;
        savings := savings;
        savings_provider := savings_provider;
        savings_percentage := savings_percentage;
        breakdown := fun p =>
          match p with
          | aws => {| compute_monthly := aws_compute_monthly;
                      storage_monthly := aws_storage_monthly;
                      additional_monthly := aws_additional_monthly;
                      operational_monthly := aws_operational_monthly;
                      total_monthly := aws_monthly_total |}
          | gcp => {| compute_monthly := gcp_compute_monthly;
                      storage_monthly := gcp_storage_monthly;
                      additional_monthly := gcp_additional_monthly;
                      operational_monthly := gcp_operational_monthly;
                      total_monthly := gcp_monthly_total |}
          end |}.

(** ** [generate_migration_recommendation] *)

(** [str.isspace] on the ASCII range: tab to carriage return, the four
    separators and the space.  White space beyond ASCII (U+0085, U+00A0,
    U+2003, ...) is not recognised: on a text that holds such a character
    [split] and [strip] below differ from [str.split] and [str.strip]. *)
Definition isspace (c : ascii) : bool :=
  let n := N_of_ascii c in
  ((9 <=? n) && (n <=? 13) || (28 <=? n) && (n <=? 32))%N.

(** [s.split()]: the maximal runs of characters that are not white space.
    [word] is the run read so far. *)
Fixpoint split_from (word s : string) : list string :=
  match s with
  | EmptyString =>
      match word with
      | EmptyString => []
      | _ => [word]
      end
  | String c s' =>
      if isspace c then
        match word with
        | EmptyString => split_from EmptyString s'
        | _ => word :: split_from EmptyString s'
        end
      else split_from (word ++ String c EmptyString) s'
  end.

Definition split (s : string) : list string := split_from EmptyString s.

Definition budget_multipliers : gmap string Q :=
  {[ "tight" := 0.7; "moderate" := 1.0; "flexible" := 1.3 ]}.

(** The figures the tool computes before it renders its report. *)
Record migration_estimate : Type := mk_migration_estimate {
  complexity_level : string;
  migration_time : string;
  effort_level : string;
  estimated_cost : Q
}.

Definition generate_migration_recommendation
    (current_provider target_provider workload_description budget_constraints : string)
    : migration_estimate :=
  let complexity_score := inject_Z (Z.of_nat (length (split workload_description))) / 10 in
  let complexity_level :=
    if Qltb complexity_score 2 then "Baixa"
    else if Qltb complexity_score 5 then "Média" else "Alta" in
  let '(migration_time, effort_level) :=
    if String.eqb complexity_level "Baixa" then ("2-4 semanas", "Baixo")
    else if String.eqb complexity_level "Média" then ("1-3 meses", "Médio")
    else ("3-6 meses", "Alto") in
  let base_cost : Q :=
    if String.eqb complexity_level "Baixa" then 5000
    else if String.eqb complexity_level "Média" then 15000 else 35000 in
  let estimated_cost := base_cost * default 1.0 (budget_multipliers !! budget_constraints) in
  {| complexity_level := complexity_level;
     migration_time := migration_time;
     effort_level := effort_level;
     estimated_cost := estimated_cost |}.

(** ** Reading the results *)

(** The score of criterion [c] on a score card: [scores[p][c]]. *)
Definition criterion_score (s : score_card) (c : criterion) : Q :=
  match c with
  | cost => sc_cost s
  | performance => sc_performance s
  | scalability => sc_scalability s
  | reliability => sc_reliability s
  | maintenance => sc_maintenance s
  end.

(** What a returned comparison [r] holds, for monthly costs [a] and [b] and
    workload [wl]. *)
Record compute_outcome (a b : Q) (wl : gmap string value) (r : compute_comparison) : Prop :=
  mk_compute_outcome {
  co_aws_cost : aws_cost r = a;
  co_gcp_cost : gcp_cost r = b;
  co_difference : cc_cost_difference r = Qabs (a - b);
  co_savings_provider :
    cc_cost_savings_provider r = if Qltb a b then aws else gcp;
  co_savings_percentage :
    cc_cost_savings_percentage r = Qabs ((a - b) / py_max a b) * 100;
  co_cost :
    _calculate_cost_score a b = Ok (mk_scores (sc_cost (cc_scores r aws))
                                              (sc_cost (cc_scores r gcp)));
  co_performance : forall p,
    sc_performance (cc_scores r p) = (_calculate_performance_score "aws" "gcp" wl).[p];
  co_scalability : forall p,
    sc_scalability (cc_scores r p) = scalability_score (provider_characteristics p);
  co_reliability : forall p,
    sc_reliability (cc_scores r p) = reliability_score (provider_characteristics p);
  co_maintenance : forall p,
    sc_maintenance (cc_scores r p) = maintenance_score (provider_characteristics p);
  co_final : forall p,
    sc_final (cc_scores r p) =
      sc_cost (cc_scores r p) * weights cost +
      sc_performance (cc_scores r p) * weights performance +
      sc_scalability (cc_scores r p) * weights scalability +
      sc_reliability (cc_scores r p) * weights reliability +
      sc_maintenance (cc_scores r p) * weights maintenance;
  co_winner :
    winner (cc_recommendation r) =
      if Qltb (sc_final (cc_scores r gcp)) (sc_final (cc_scores r aws)) then aws else gcp;
  co_confidence :
    confidence (cc_recommendation r) =
      Qabs (sc_final (cc_scores r aws) - sc_final (cc_scores r gcp)) / 10;
  co_reasons :
    primary_reasons (cc_recommendation r) =
      _get_primary_reasons (winner (cc_recommendation r))
        (mk_scores (sc_cost (cc_scores r aws)) (sc_cost (cc_scores r gcp)))
        (_calculate_performance_score "aws" "gcp" wl)
        (_calculate_scalability_score "aws" "gcp")
}.

(** What a returned storage comparison [r] holds, for per-GB costs [a] and
    [b] read from the quotes [aws_data] and [gcp_data]. *)
Record storage_outcome (aws_data gcp_data : gmap string value) (a b : Q)
    (r : storage_comparison) : Prop := mk_storage_outcome {
  so_aws_cost : aws_cost_per_gb r = a;
  so_gcp_cost : gcp_cost_per_gb r = b;
  so_difference : st_cost_difference r = Qabs (a - b);
  so_savings_provider :
    st_cost_savings_provider r = if Qltb a b then aws else gcp;
  so_savings_percentage :
    st_cost_savings_percentage r = Qabs (a - b) / py_max a b * 100;
  so_analysis :
    st_storage_analysis r =
      _analyze_storage_characteristics
        (get_val aws_data "storage_type" (VStr ""))
        (get_val gcp_data "storage_type" (VStr ""));
  so_winner : st_winner r = st_cost_savings_provider r;
  so_confidence :
    st_confidence r = py_min (st_cost_savings_percentage r / 20) 1.0
}.

(** The monthly costs [calculate_tco] reads for one provider. *)
Record monthly_costs : Type := mk_monthly_costs {
  mc_compute : Q;
  mc_storage : Q;
  mc_additional : Q
}.

(** The share of the infrastructure cost charged as operations. *)
Definition operational_rate (p : provider) : Q :=
  match p with
  | aws => 0.15
  | gcp => 0.12
  end.

(** The TCO attached to provider [p] in a result. *)
Definition tco_of (r : tco_analysis) (p : provider) : Q :=
  match p with
  | aws => aws_tco r
  | gcp => gcp_tco r
  end.

(** What a returned TCO analysis [r] holds, for the monthly costs [m p] of
    each provider and a horizon of [h] months. *)
Record tco_outcome (m : provider -> monthly_costs) (h : Z) (r : tco_analysis) : Prop :=
  mk_tco_outcome {
  to_horizon : time_horizon_months r = h;
  to_compute : forall p, compute_monthly (breakdown r p) = mc_compute (m p);
  to_storage : forall p, storage_monthly (breakdown r p) = mc_storage (m p);
  to_additional : forall p, additional_monthly (breakdown r p) = mc_additional (m p);
  to_operational : forall p,
    operational_monthly (breakdown r p) =
      (compute_monthly (breakdown r p) + storage_monthly (breakdown r p))
      * operational_rate p;
  to_total : forall p,
    total_monthly (breakdown r p) =
      compute_monthly (breakdown r p) + storage_monthly (breakdown r p)
      + additional_monthly (breakdown r p) + operational_monthly (breakdown r p);
  to_tco : forall p, tco_of r p = total_monthly (breakdown r p) * inject_Z h;
  to_savings : savings r = Qabs (aws_tco r - gcp_tco r);
  to_savings_provider :
    savings_provider r = if Qltb (aws_tco r) (gcp_tco r) then aws else gcp;
  to_savings_percentage :
    savings_percentage r = savings r / py_max (aws_tco r) (gcp_tco r) * 100
}.

(** The TCO that [calculate_tco] computes from monthly costs, before it
    divides: [monthly_total * time_horizon_months]. *)
Definition projected_tco (p : provider) (c : monthly_costs) (h : Z) : Q :=
  (mc_compute c + mc_storage c + mc_additional c
   + (mc_compute c + mc_storage c) * operational_rate p) * inject_Z h.

(** The sum over the five criteria of [score[criterion] * weight[criterion]]. *)
Definition weighted_sum (s : score_card) : Q :=
  fold_right (fun c acc => criterion_score s c * weights c + acc) 0 criteria.

Definition total_weight : Q :=
  fold_right (fun c acc => weights c + acc) 0 criteria.

(** ** Vocabulary of the specification *)

(** A reason that is listed when its condition holds. *)
Definition reason_if (b : bool) (reason : string) : list string :=
  if b then [reason] else [].

(** The code of a character. *)
Definition code (c : ascii) : N := N_of_ascii c.

(** Lexicographic order on strings, as a relation: [a] is greater than [b]
    when [b] is a proper prefix of [a], or at the first position where they
    differ [a] has the character with the greater code. *)
Inductive lex_gt : string -> string -> Prop :=
| lex_gt_prefix (x : ascii) (a : string) :
    lex_gt (String x a) EmptyString
| lex_gt_head (x y : ascii) (a b : string) :
    (code y < code x)%N -> lex_gt (String x a) (String y b)
| lex_gt_tail (x : ascii) (a b : string) :
    lex_gt a b -> lex_gt (String x a) (String x b).

(** The availability string of a descriptor: [char.get('availability', '0%')]. *)
Definition availability (char : gmap string string) : string :=
  default "0%" (char !! "availability").

(** The keys of the descriptor table. *)
Definition storage_types : list string :=
  ["s3_standard"; "s3_ia"; "s3_glacier"; "standard"; "nearline"; "coldline"; "archive"].

(** The number of words of a text: [len(text.split())]. *)
Definition word_count (text : string) : nat := length (split text).

(** Every character of [s] satisfies [P]. *)
Fixpoint all_chars (P : ascii -> bool) (s : string) : bool :=
  match s with
  | EmptyString => true
  | String c s' => P c && all_chars P s'
  end.

(** A character that is not white space. *)
Definition nonspace (c : ascii) : bool := negb (isspace c).

(** ** The pricing servers: fallback quotes

    [mcp_servers/aws_pricing_server.py] and [mcp_servers/gcp_pricing_server.py]
    answer with these quotes when no credentials are configured, when the
    provider's catalogue has no matching entry and when a call fails. *)

Definition AWS_REGIONS : list string :=
  ["us-east-1"; "us-east-2"; "us-west-1"; "us-west-2";
   "eu-west-1"; "eu-west-2"; "eu-central-1"; "ap-southeast-1";
   "ap-southeast-2"; "ap-northeast-1"; "sa-east-1"].

Definition GCP_REGIONS : list string :=
  ["us-central1"; "us-east1"; "us-east4"; "us-west1"; "us-west2"; "us-west3"; "us-west4";
   "europe-west1"; "europe-west2"; "europe-west3"; "europe-west4"; "europe-west6";
   "asia-east1"; "asia-east2"; "asia-northeast1"; "asia-southeast1"; "asia-south1";
   "southamerica-east1"].

(** [c.lower()] for an ASCII letter; other characters are kept. *)
Definition lower_char (c : ascii) : ascii :=
  let n := N_of_ascii c in
  if ((65 <=? n) && (n <=? 90))%N then ascii_of_N (n + 32) else c.

(** [s.lower()] on ASCII text.  Python also lower-cases letters beyond
    ASCII; this model keeps their bytes. *)
Fixpoint lower (s : string) : string :=
  match s with
  | EmptyString => EmptyString
  | String c s' => String (lower_char c) (lower s')
  end.

Module AWSPricingClient.

Definition mock_ec2_prices : gmap string Q :=
  {[ "t3.micro" := 0.0104;
     "t3.small" := 0.0208;
     "t3.medium" := 0.0416;
     "t3.large" := 0.0832;
     "m5.large" := 0.096;
     "m5.xlarge" := 0.192;
     "c5.large" := 0.085;
     "c5.xlarge" := 0.17 ]}.

(** The local [price_per_hour] of [_get_mock_ec2_pricing]. *)
Definition mock_ec2_price_per_hour (instance_type region : string) : Q :=
  let base_price := default 0.1 (mock_ec2_prices !! instance_type) in
  let region_multiplier := if String.prefix "eu-" region then 1.2 else 1.0 in
  base_price * region_multiplier.

Definition _get_mock_ec2_pricing (instance_type region : string) : gmap string value :=
  let price_per_hour := mock_ec2_price_per_hour instance_type region in
  {[ "instance_type" := VStr instance_type;
     "region" := VStr region;
     "price_per_hour" := VNum price_per_hour;
     "price_per_month" := VNum (price_per_hour * 24 * 30);
     "currency" := VStr "USD";
     "pricing_model" := VStr "On-Demand";
     "note" := VStr "Dados simulados - configure credenciais AWS para dados reais" ]}.

Definition mock_storage_prices : gmap string Q :=
  {[ "s3_standard" := 0.023;
     "s3_ia" := 0.0125;
     "s3_glacier" := 0.004;
     "gp2" := 0.10;
     "gp3" := 0.08;
     "io1" := 0.125 ]}.

(** The local [price_per_gb] of [_get_mock_storage_pricing]. *)
Definition mock_storage_price_per_gb (storage_type region : string) : Q :=
  let base_price := default 0.1 (mock_storage_prices !! storage_type) in
  let region_multiplier := if String.prefix "eu-" region then 1.1 else 1.0 in
  base_price * region_multiplier.

Definition _get_mock_storage_pricing (storage_type region : string) : gmap string value :=
  let price_per_gb := mock_storage_price_per_gb storage_type region in
  {[ "storage_type" := VStr storage_type;
     "region" := VStr region;
     "price_per_gb_month" := VNum price_per_gb;
     "currency" := VStr "USD";
     "note" := VStr "Dados simulados - configure credenciais AWS para dados reais" ]}.

End AWSPricingClient.

Module GCPPricingClient.

Definition mock_compute_prices : gmap string Q :=
  {[ "e2-micro" := 0.006;
     "e2-small" := 0.012;
     "e2-medium" := 0.024;
     "e2-standard-2" := 0.048;
     "e2-standard-4" := 0.096;
     "n1-standard-1" := 0.0475;
     "n1-standard-2" := 0.095;
     "n1-standard-4" := 0.19;
     "n2-standard-2" := 0.097;
     "n2-standard-4" := 0.194;
     "c2-standard-4" := 0.168;
     "c2-standard-8" := 0.336 ]}.

(** The local [price_per_hour] of [_get_mock_compute_pricing]. *)
Definition mock_compute_price_per_hour (machine_type region : string) : Q :=
  let base_price := default 0.05 (mock_compute_prices !! machine_type) in
  let region_multiplier := if String.prefix "europe-" region then 1.15 else 1.0 in
  base_price * region_multiplier.

Definition _get_mock_compute_pricing (machine_type region : string) : gmap string value :=
  let price_per_hour := mock_compute_price_per_hour machine_type region in
  {[ "machine_type" := VStr machine_type;
     "region" := VStr region;
     "price_per_hour" := VNum price_per_hour;
     "price_per_month" := VNum (price_per_hour * 24 * 30);
     "currency" := VStr "USD";
     "pricing_model" := VStr "On-Demand";
     "note" := VStr "Dados simulados - configure credenciais GCP para dados reais" ]}.

Definition mock_storage_prices : gmap string Q :=
  {[ "standard" := 0.020;
     "nearline" := 0.010;
     "coldline" := 0.004;
     "archive" := 0.0012;
     "regional" := 0.020;
     "multi-regional" := 0.026 ]}.

(** The local [price_per_gb] of [_get_mock_storage_pricing]. *)
Definition mock_storage_price_per_gb (storage_type region : string) : Q :=
  let base_price := default 0.02 (mock_storage_prices !! lower storage_type) in
  let region_multiplier := if String.prefix "europe-" region then 1.1 else 1.0 in
  base_price * region_multiplier.

Definition _get_mock_storage_pricing (storage_type region : string) : gmap string value :=
  let price_per_gb := mock_storage_price_per_gb storage_type region in
  {[ "storage_type" := VStr storage_type;
     "region" := VStr region;
     "price_per_gb_month" := VNum price_per_gb;
     "currency" := VStr "USD";
     "note" := VStr "Dados simulados - configure credenciais GCP para dados reais" ]}.

End GCPPricingClient.

(** ** [calculate_gcp_sustained_use_discount] *)

(** The figures of the discount report.  [below_threshold] tells whether the
    report ends with the advice to use the instance for more than a quarter
    of the month. *)
Record discount_report : Type := mk_discount_report {
  usage_percentage : Q;
  discount_rate : Q;
  original_cost : Q;
  discounted_cost : Q;
  monthly_savings : Q;
  annual_savings : Q;
  discount_savings_percentage : Q;
  below_threshold : bool
}.

(** [base_price_per_hour] is the hourly price of the quote that the client
    returns for the machine type and region.  A raised exception stands for
    the error message that the tool returns in its place. *)
Definition calculate_gcp_sustained_use_discount
    (base_price_per_hour : Q) (hours_per_month : Z) : result discount_report :=
  let usage_percentage := py_min (inject_Z hours_per_month / (24 * 30)) 1.0 in
  let discount_rate :=
    if Qle_bool 0.25 usage_percentage
    then py_min 0.30 (usage_percentage * 0.30)
    else 0 in
  let original_cost := base_price_per_hour * inject_Z hours_per_month in
  let discounted_cost := original_cost * (1 - discount_rate) in
  let savings := original_cost - discounted_cost in
  ratio ← py_div savings original_cost;
  Ok {| usage_percentage := usage_percentage;
        discount_rate := discount_rate;
        original_cost := original_cost;
        discounted_cost := discounted_cost;
        monthly_savings := savings;
        annual_savings := savings * 12;
        discount_savings_percentage := ratio * 100;
        below_threshold := Qltb usage_percentage 0.25 |}.

(** ** [compare_aws_instances] and [compare_gcp_instances] *)

(** [s.lstrip()], [s.rstrip()] and [s.strip()], on ASCII white space. *)
Fixpoint lstrip (s : string) : string :=
  match s with
  | EmptyString => EmptyString
  | String c s' => if isspace c then lstrip s' else s
  end.

Fixpoint rstrip (s : string) : string :=
  match s with
  | EmptyString => EmptyString
  | String c s' =>
      match rstrip s' with
      | EmptyString => if isspace c then EmptyString else String c EmptyString
      | r => String c r
      end
  end.

Definition strip (s : string) : string := rstrip (lstrip s).

(** [s.split(sep)] for a separator of one character: the pieces between the
    separators, empty pieces included; at least one piece. *)
Fixpoint split_on (sep : ascii) (s : string) : list string :=
  match s with
  | EmptyString => [EmptyString]
  | String c s' =>
      if Ascii.eqb c sep then EmptyString :: split_on sep s'
      else
        match split_on sep s' with
        | piece :: pieces => String c piece :: pieces
        | [] => [String c EmptyString]
        end
  end.

(** [sep.join(pieces)] *)
Fixpoint join_on (sep : ascii) (pieces : list string) : string :=
  match pieces with
  | [] => EmptyString
  | [piece] => piece
  | piece :: rest => (piece ++ String sep (join_on sep rest))%string
  end.

(** The number of occurrences of a character. *)
Fixpoint count_char (sep : ascii) (s : string) : nat :=
  match s with
  | EmptyString => 0
  | String c s' => (if Ascii.eqb c sep then 1 else 0) + count_char sep s'
  end.

(** What the comparison reads of a quote: the type it was asked for and its
    hourly price.  In every quote of the clients the monthly price is the
    hourly price times 24 times 30. *)
Record instance_quote : Type := mk_instance_quote {
  iq_type : string;
  iq_price_per_hour : Q
}.

(** [pricing_data.sort(key=lambda x: x['price_per_hour'])]: a stable sort,
    written as an insertion sort that puts a quote before the first quote
    that is not cheaper. *)
Fixpoint insert_quote (x : instance_quote) (l : list instance_quote)
    : list instance_quote :=
  match l with
  | [] => [x]
  | y :: l' =>
      if Qle_bool (iq_price_per_hour x) (iq_price_per_hour y)
      then x :: y :: l'
      else y :: insert_quote x l'
  end.

Definition sort_quotes (l : list instance_quote) : list instance_quote :=
  fold_right insert_quote [] l.

(** [max(data['price_per_hour'] for data in pricing_data)]: the first of the
    greatest prices.  The list of quotes is never empty here; [max] of an
    empty list, which raises in Python, is not modelled. *)
Definition max_price (l : list instance_quote) : Q :=
  match l with
  | [] => 0
  | x :: l' => fold_left (fun m y => py_max m (iq_price_per_hour y)) l' (iq_price_per_hour x)
  end.

(** A line of the table. *)
Record price_row : Type := mk_price_row {
  row_type : string;
  row_price_per_hour : Q;
  row_price_per_month : Q;
  row_savings : Q
}.

(** The table and the recommendations below it. *)
Record instance_comparison : Type := mk_instance_comparison {
  ic_rows : list price_row;
  ic_cheapest : option instance_quote;
  ic_most_expensive : option instance_quote;
  ic_max_savings : Q
}.

Section InstanceComparison.

(** The hourly price of the quote that the client returns for an instance
    type in the region of the comparison. *)
Variable price_per_hour : string -> Q.

Definition get_quote (instance_type : string) : instance_quote :=
  {| iq_type := instance_type; iq_price_per_hour := price_per_hour instance_type |}.

Definition table_row (highest : Q) (data : instance_quote) : result price_row :=
  ratio ← py_div (highest - iq_price_per_hour data) highest;
  Ok {| row_type := iq_type data;
        row_price_per_hour := iq_price_per_hour data;
        row_price_per_month := iq_price_per_hour data * 24 * 30;
        row_savings := ratio * 100 |}.

(** The body of both tools after the check of the region.  The list of
    pieces has at least one entry, so that [pricing_data[0]] and
    [pricing_data[-1]] exist; an exception of the body is caught by the tool
    and answered with its message. *)
Definition compare_instances (instance_types : string) : result instance_comparison :=
  let instance_list := map strip (split_on "," instance_types) in
  let pricing_data := sort_quotes (map get_quote instance_list) in
  let highest := max_price pricing_data in
  rows ← mapM (table_row highest) pricing_data;
  ratio ← py_div (highest - iq_price_per_hour (default (get_quote "") (head pricing_data)))
                 highest;
  Ok {| ic_rows := rows;
        ic_cheapest := head pricing_data;
        ic_most_expensive := last pricing_data;
        ic_max_savings := ratio * 100 |}.

End InstanceComparison.

(** The two tools: [None] stands for the answer that the region is not
    supported.  [client instance_type region] is the hourly price of the
    client's quote. *)
Definition compare_aws_instances (client : string -> string -> Q)
    (instance_types region : string) : option (result instance_comparison) :=
  if bool_decide (region ∈ AWS_REGIONS)
  then Some (compare_instances (fun t => client t region) instance_types)
  else None.

Definition compare_gcp_instances (client : string -> string -> Q)
    (machine_types region : string) : option (result instance_comparison) :=
  if bool_decide (region ∈ GCP_REGIONS)
  then Some (compare_instances (fun t => client t region) machine_types)
  else None.

(** ** Reading the table *)

(** The order of the table: [x] costs no more per hour than [y]. *)
Definition not_dearer (x y : instance_quote) : Prop :=
  iq_price_per_hour x <= iq_price_per_hour y.

(** The quotes of a list at the hourly price [v], in the order of the list. *)
Definition priced_at (v : Q) (l : list instance_quote) : list instance_quote :=
  List.filter (fun q => Qeq_bool (iq_price_per_hour q) v) l.

(** The quote that a line of the table shows. *)
Definition row_quote (row : price_row) : instance_quote :=
  {| iq_type := row_type row; iq_price_per_hour := row_price_per_hour row |}.

(** The quote [q'] is the quote [q] with its price multiplied by [k]. *)
Definition scaled (k : Q) (q q' : instance_quote) : Prop :=
  iq_type q' = iq_type q /\ iq_price_per_hour q' == k * iq_price_per_hour q.

(** ** The location names of the AWS catalogue

    [AWSPricingClient._get_location_name]: the filter value of a catalogue
    query for a region code. *)

Definition region_mapping : gmap string string :=
  {[ "us-east-1" := "US East (N. Virginia)";
     "us-east-2" := "US East (Ohio)";
     "us-west-1" := "US West (N. California)";
     "us-west-2" := "US West (Oregon)";
     "eu-west-1" := "Europe (Ireland)";
     "eu-west-2" := "Europe (London)";
     "eu-central-1" := "Europe (Frankfurt)";
     "ap-southeast-1" := "Asia Pacific (Singapore)";
     "ap-southeast-2" := "Asia Pacific (Sydney)";
     "ap-northeast-1" := "Asia Pacific (Tokyo)";
     "sa-east-1" := "South America (São Paulo)" ]}.

Definition _get_location_name (region : string) : string :=
  default "US East (N. Virginia)" (region_mapping !! region).

(** A character of the ASCII range. *)
Definition is_ascii (c : ascii) : bool := (N_of_ascii c <? 128)%N.

(** The availability column of the descriptor table, read by storage type:
    ['0%'] for a type that is not a key of the table. *)
Definition availability_of (t : value) : string :=
  match t with
  | VStr s =>
      if String.eqb s "s3_standard" then "99.99%"
      else if String.eqb s "s3_ia" then "99.9%"
      else if String.eqb s "s3_glacier" then "N/A"
      else if bool_decide (s ∈ ["standard"; "nearline"; "coldline"; "archive"])
           then "99.95%"
      else "0%"
  | VNum _ => "0%"
  end.

(** ** The arithmetic in binary64

    The scores, percentages and confidences above are the exact values of
    the source's expressions.  Python computes them on binary64 numbers and
    rounds after every operation.  This module evaluates the same
    expressions, in the order of the source, on the kernel's binary64
    numbers, for prices that are [float]s. *)

Module Binary64.

Local Open Scope float_scope.

(** [max(a, b)] and [min(a, b)] *)
Definition py_max (a b : float) : float := if a <? b then b else a.

Definition py_min (a b : float) : float := if b <? a then b else a.

Definition weights (c : criterion) : float :=
  match c with
  | cost => 0.35
  | performance => 0.25
  | scalability => 0.20
  | reliability => 0.15
  | maintenance => 0.05
  end.

(** The pair is [(scores['aws'], scores['gcp'])]. *)
Definition _calculate_cost_score (aws_cost gcp_cost : float) : float * float :=
  if (aws_cost =? 0) && (gcp_cost =? 0) then (5.0, 5.0)
  else
    let total_cost := aws_cost + gcp_cost in
    if total_cost =? 0 then (5.0, 5.0)
    else
      let aws_score := (gcp_cost / total_cost) * 10 in
      let gcp_score := (aws_cost / total_cost) * 10 in
      (aws_score, gcp_score).

Definition _calculate_performance_score (workload_requirements : gmap string value)
    : float * float :=
  let workload_type := get_val workload_requirements "type" (VStr "general") in
  if value_is workload_type "compute_intensive" then (8.5, 9.0)
  else if value_is workload_type "data_intensive" then (9.2, 8.8)
  else (8.8, 8.9).

(** [aws_final_score] and [gcp_final_score] of [compare_compute_instances]. *)
Definition final_scores (aws_monthly_cost gcp_monthly_cost : float)
    (workload_requirements : gmap string value) : float * float :=
  let cost_score := _calculate_cost_score aws_monthly_cost gcp_monthly_cost in
  let performance_score := _calculate_performance_score workload_requirements in
  let aws_final_score :=
    fst cost_score * weights cost +
    fst performance_score * weights performance +
    9.5 * weights scalability +
    9.8 * weights reliability +
    8.5 * weights maintenance in
  let gcp_final_score :=
    snd cost_score * weights cost +
    snd performance_score * weights performance +
    9.3 * weights scalability +
    9.6 * weights reliability +
    9.2 * weights maintenance in
  (aws_final_score, gcp_final_score).

(** [recommendation['winner']] and [recommendation['confidence']] of
    [compare_compute_instances]. *)
Definition compute_winner (aws_monthly_cost gcp_monthly_cost : float)
    (workload_requirements : gmap string value) : provider :=
  let '(aws_final_score, gcp_final_score) :=
    final_scores aws_monthly_cost gcp_monthly_cost workload_requirements in
  if gcp_final_score <? aws_final_score then aws else gcp.

Definition compute_confidence (aws_monthly_cost gcp_monthly_cost : float)
    (workload_requirements : gmap string value) : float :=
  let '(aws_final_score, gcp_final_score) :=
    final_scores aws_monthly_cost gcp_monthly_cost workload_requirements in
  abs (aws_final_score - gcp_final_score) / 10.

(** [cost_savings_percentage] and [recommendation['confidence']] of
    [compare_storage_options]; [None] stands for [ZeroDivisionError]. *)
Definition storage_savings_percentage (aws_cost gcp_cost : float) : option float :=
  let cost_difference := abs (aws_cost - gcp_cost) in
  if py_max aws_cost gcp_cost =? 0 then None
  else Some ((cost_difference / py_max aws_cost gcp_cost) * 100).

Definition storage_confidence (aws_cost gcp_cost : float) : option float :=
  match storage_savings_percentage aws_cost gcp_cost with
  | Some cost_savings_percentage => Some (py_min (cost_savings_percentage / 20) 1.0)
  | None => None
  end.

End Binary64.

(** * Properties *)

(** ** Booleans, exceptions and the Python operators *)

Lemma Qltb_lt (a b : Q) : Qltb a b = true <-> a < b.
Proof.
  unfold Qltb. rewrite negb_true_iff, <- not_true_iff_false, Qle_bool_iff.
  split; [apply Qnot_le_lt | apply Qlt_not_le].
Qed.

Lemma Qltb_ge (a b : Q) : Qltb a b = false <-> b <= a.
Proof.
  unfold Qltb. rewrite negb_false_iff. apply Qle_bool_iff.
Qed.

Lemma Qeq_bool_false (a b : Q) : Qeq_bool a b = false <-> ~ a == b.
Proof.
  rewrite <- not_true_iff_false, Qeq_bool_iff. reflexivity.
Qed.

(** Case analysis on a comparison of the program, with the fact it decides. *)
Ltac case_Qltb a b :=
  let H := fresh "Hlt" in
  destruct (Qltb a b) eqn:H; [apply Qltb_lt in H | apply Qltb_ge in H].

Ltac case_Qeq a b :=
  let H := fresh "Heq" in
  destruct (Qeq_bool a b) eqn:H; [apply Qeq_bool_iff in H | apply Qeq_bool_false in H].

Lemma bind_Ok {A B : Type} (a : A) (f : A -> result B) : mbind f (Ok a) = f a.
Proof. reflexivity. Qed.

Lemma bind_Raise {A B : Type} (e : exn) (f : A -> result B) : mbind f (Raise e) = Raise e.
Proof. reflexivity. Qed.

Lemma py_div_Ok (a b : Q) : ~ b == 0 -> py_div a b = Ok (a / b).
Proof.
  intros Hb. unfold py_div. case_Qeq b 0; [contradiction | reflexivity].
Qed.

Lemma py_div_Raise (a b : Q) : b == 0 -> py_div a b = Raise ZeroDivisionError.
Proof.
  intros Hb. unfold py_div. case_Qeq b 0; [reflexivity | contradiction].
Qed.

Lemma py_max_cases (a b : Q) :
  (a < b /\ py_max a b = b) \/ (b <= a /\ py_max a b = a).
Proof.
  unfold py_max. case_Qltb a b; [left | right]; split; trivial.
Qed.

Lemma py_max_nonneg_zero (a b : Q) :
  0 <= a -> 0 <= b -> (py_max a b == 0 <-> a == 0 /\ b == 0).
Proof.
  intros Ha Hb. destruct (py_max_cases a b) as [[Hlt ->] | [Hle ->]]; split.
  - intros Hz. lra.
  - intros [Hz1 Hz2]. exact Hz2.
  - intros Hz. split; lra.
  - intros [Hz1 Hz2]. exact Hz1.
Qed.

Lemma py_min_cases (a b : Q) :
  (b < a /\ py_min a b = b) \/ (a <= b /\ py_min a b = a).
Proof.
  unfold py_min. case_Qltb b a; [left | right]; split; trivial.
Qed.

(** ** The cost score *)

Lemma cost_score_zero (a b : Q) :
  a == 0 -> b == 0 ->
  _calculate_cost_score a b = Ok {| aws_score := 5.0; gcp_score := 5.0 |}.
Proof.
  intros Ha Hb. unfold _calculate_cost_score.
  apply Qeq_bool_iff in Ha, Hb. rewrite Ha, Hb. reflexivity.
Qed.

Lemma cost_score_share (a b : Q) :
  ~ a + b == 0 ->
  _calculate_cost_score a b =
    Ok {| aws_score := b / (a + b) * 10; gcp_score := a / (a + b) * 10 |}.
Proof.
  intros Hsum. unfold _calculate_cost_score.
  case_Qeq a 0; case_Qeq b 0; cbn [andb];
    try (exfalso; apply Hsum; lra);
    (case_Qeq (a + b) 0; [contradiction |]);
    rewrite !py_div_Ok by assumption; reflexivity.
Qed.

(** The cost score never raises: both divisions are guarded. *)
Lemma cost_score_returns (a b : Q) : returns (_calculate_cost_score a b).
Proof.
  unfold returns. destruct (Qeq_dec (a + b) 0) as [Hz | Hnz].
  - unfold _calculate_cost_score.
    destruct (Qeq_bool a 0 && Qeq_bool b 0); [eauto |].
    apply Qeq_bool_iff in Hz. rewrite Hz. eauto.
  - rewrite cost_score_share by assumption. eauto.
Qed.

Lemma share_bounds (x y : Q) : 0 <= x -> 0 <= y -> ~ x + y == 0 ->
  0 <= y / (x + y) * 10 <= 10.
Proof.
  intros Hx Hy Hs.
  assert (Hpos : 0 < x + y) by lra.
  assert (H0 : 0 <= y / (x + y)) by (apply Qle_shift_div_l; lra).
  assert (H1 : y / (x + y) <= 1) by (apply Qle_shift_div_r; lra).
  lra.
Qed.

Lemma cost_score_bounds (a b : Q) (s : scores) (p : provider) :
  0 <= a -> 0 <= b -> _calculate_cost_score a b = Ok s -> 0 <= s.[p] <= 10.
Proof.
  intros Ha Hb Hs. destruct (Qeq_dec (a + b) 0) as [Hz | Hnz].
  - rewrite cost_score_zero in Hs by lra. injection Hs as <-.
    destruct p; cbn; lra.
  - rewrite cost_score_share in Hs by assumption. injection Hs as <-.
    destruct p; cbn [score_at aws_score gcp_score].
    + apply share_bounds; assumption.
    + rewrite (Qplus_comm a b). apply share_bounds; trivial.
      rewrite Qplus_comm. assumption.
Qed.

(** C1. The cost score of two zero costs is 5.0 for both providers; for two
    non-negative costs that are not both zero each provider's score is the
    other provider's share of the total cost times 10.  In exact arithmetic
    the two scores add up to 10.  In binary64 the scores are the same
    expressions, rounded after the addition, the division and the
    multiplication, and their sum is 10 only up to rounding. *)
Theorem cost_score_spec (a b : Q) (Ha : 0 <= a) (Hb : 0 <= b) :
  (a == 0 /\ b == 0 ->
     _calculate_cost_score a b = Ok {| aws_score := 5.0; gcp_score := 5.0 |}) /\
  (~ (a == 0 /\ b == 0) ->
     exists s, _calculate_cost_score a b = Ok s /\
       s.[aws] = b / (a + b) * 10 /\
       s.[gcp] = a / (a + b) * 10 /\
       s.[aws] + s.[gcp] == 10) /\
  (forall x y : float,
     (x =? 0)%float = true -> (y =? 0)%float = true ->
     Binary64._calculate_cost_score x y = (5.0%float, 5.0%float)) /\
  (forall x y : float,
     (x =? 0)%float && (y =? 0)%float = false ->
     (x + y =? 0)%float = false ->
     Binary64._calculate_cost_score x y
     = ((y / (x + y)) * 10, (x / (x + y)) * 10)%float).
Proof.
  split; [| split; [| split]].
  - intros [Hza Hzb]. apply cost_score_zero; assumption.
  - intros Hnz.
    assert (Hsum : ~ a + b == 0).
    { intros Hz. apply Hnz. split; lra. }
    eexists. split; [apply cost_score_share; exact Hsum |].
    cbn [score_at aws_score gcp_score]. repeat split. field. exact Hsum.
  - intros x y Hx Hy. unfold Binary64._calculate_cost_score.
    rewrite Hx, Hy. reflexivity.
  - intros x y Hguard Hsum. unfold Binary64._calculate_cost_score.
    rewrite Hguard. cbv zeta. rewrite Hsum. reflexivity.
Qed.

Lemma cost_score_spec_witness :
  _calculate_cost_score 0 0 = Ok {| aws_score := 5.0; gcp_score := 5.0 |} /\
  (exists s, _calculate_cost_score 100 150 = Ok s /\
     s.[aws] = 150 / (100 + 150) * 10 /\
     s.[gcp] = 100 / (100 + 150) * 10 /\
     s.[aws] + s.[gcp] == 10) /\
  Binary64._calculate_cost_score 0 0 = (5.0%float, 5.0%float) /\
  Binary64._calculate_cost_score 100 150 = (6.0%float, 4.0%float).
Proof.
  destruct (cost_score_spec 0 0) as [Hzero [_ [Hzero64 _]]]; [lra | lra |].
  destruct (cost_score_spec 100 150) as [_ [Hshare [_ Hshare64]]]; [lra | lra |].
  split; [apply Hzero; split; reflexivity |].
  split; [apply Hshare; intros [H _]; discriminate H |].
  split; [apply Hzero64; reflexivity |].
  rewrite Hshare64 by reflexivity. reflexivity.
Defined.

(** The two scores do not always add up to exactly 10: in binary64 the costs
    0.3 and 0.6 score 6.666666666666668 and 3.333333333333334, and the sum of
    the two scores is 10.000000000000002. *)
Lemma cost_score_sum_binary64 :
  let s := Binary64._calculate_cost_score 0.3 0.6 in
  fst s = 0x1.aaaaaaaaaaaacp+2%float /\
  snd s = 0x1.aaaaaaaaaaaacp+1%float /\
  (fst s + snd s)%float = 0x1.4000000000001p+3%float /\
  (fst s + snd s =? 10)%float = false.
Proof. vm_compute. repeat split. Qed.

(** ** The compute comparator as a whole *)

Section ComputeComparator.

Variables aws_data gcp_data wl : gmap string value.
Variables a b : Q.
Hypothesis Haws : get_num aws_data "price_per_month" = Ok a.
Hypothesis Hgcp : get_num gcp_data "price_per_month" = Ok b.

(** With costs whose maximum is zero the division of the savings
    percentage raises. *)
Lemma compare_compute_raises :
  py_max a b == 0 ->
  compare_compute_instances aws_data gcp_data wl = Raise ZeroDivisionError.
Proof using Haws Hgcp.
  intros Hz. unfold compare_compute_instances.
  rewrite Haws, bind_Ok, Hgcp, bind_Ok.
  destruct (cost_score_returns a b) as [s ->]. rewrite bind_Ok.
  rewrite py_div_Raise by exact Hz. reflexivity.
Qed.

(** Otherwise the comparison returns. *)
Lemma compare_compute_Ok :
  ~ py_max a b == 0 ->
  exists r, compare_compute_instances aws_data gcp_data wl = Ok r /\
            compute_outcome a b wl r.
Proof using Haws Hgcp.
  intros Hnz. unfold compare_compute_instances.
  rewrite Haws, bind_Ok, Hgcp, bind_Ok.
  destruct (cost_score_returns a b) as [s Hs]. rewrite Hs, bind_Ok.
  rewrite py_div_Ok by exact Hnz. rewrite bind_Ok.
  eexists. split; [reflexivity |].
  destruct s as [sa sg].
  constructor; cbn; try reflexivity; try (intros []; reflexivity).
  exact Hs.
Qed.

End ComputeComparator.

(** ** The storage comparator as a whole *)

Section StorageComparator.

Variables aws_data gcp_data : gmap string value.
Variables a b : Q.
Hypothesis Haws : get_num aws_data "price_per_gb_month" = Ok a.
Hypothesis Hgcp : get_num gcp_data "price_per_gb_month" = Ok b.

Lemma compare_storage_raises :
  py_max a b == 0 ->
  compare_storage_options aws_data gcp_data = Raise ZeroDivisionError.
Proof using Haws Hgcp.
  intros Hz. unfold compare_storage_options.
  rewrite Haws, bind_Ok, Hgcp, bind_Ok.
  rewrite py_div_Raise by exact Hz. reflexivity.
Qed.

Lemma compare_storage_Ok :
  ~ py_max a b == 0 ->
  exists r, compare_storage_options aws_data gcp_data = Ok r /\
            storage_outcome aws_data gcp_data a b r.
Proof using Haws Hgcp.
  intros Hnz. unfold compare_storage_options.
  rewrite Haws, bind_Ok, Hgcp, bind_Ok.
  rewrite py_div_Ok by exact Hnz. rewrite bind_Ok.
  eexists. split; [reflexivity |].
  constructor; reflexivity.
Qed.

End StorageComparator.

(** ** The TCO calculator as a whole *)

Section TcoCalculator.

Variables compute_costs storage_costs additional_services : gmap string value.
Variable m : provider -> monthly_costs.
Variable h : Z.
Hypothesis Hcompute : forall p,
  get_num compute_costs (provider_key p) = Ok (mc_compute (m p)).
Hypothesis Hstorage : forall p,
  get_num storage_costs (provider_key p) = Ok (mc_storage (m p)).
Hypothesis Hadditional : forall p,
  get_num additional_services (provider_key p) = Ok (mc_additional (m p)).

(* Replace the six reads of the dictionaries by the costs in [m]. *)
Local Ltac read_costs :=
  repeat match goal with
  | H : forall p, get_num ?d (provider_key p) = _ |- _ =>
      pose proof (H aws); pose proof (H gcp); clear H
  end;
  cbn [provider_key] in *;
  repeat match goal with
  | H : get_num ?d ?k = Ok _ |- _ => rewrite H; clear H
  end;
  rewrite ?bind_Ok.

Lemma calculate_tco_raises :
  py_max (projected_tco aws (m aws) h) (projected_tco gcp (m gcp) h) == 0 ->
  calculate_tco compute_costs storage_costs additional_services h
    = Raise ZeroDivisionError.
Proof using Hcompute Hstorage Hadditional.
  intros Hz. unfold calculate_tco.
  read_costs.
  rewrite py_div_Raise by exact Hz. reflexivity.
Qed.

Lemma calculate_tco_Ok :
  ~ py_max (projected_tco aws (m aws) h) (projected_tco gcp (m gcp) h) == 0 ->
  exists r, calculate_tco compute_costs storage_costs additional_services h = Ok r /\
            tco_outcome m h r.
Proof using Hcompute Hstorage Hadditional.
  intros Hnz. unfold calculate_tco.
  read_costs.
  rewrite py_div_Ok by exact Hnz. rewrite bind_Ok.
  eexists. split; [reflexivity |].
  constructor; try reflexivity; intros []; reflexivity.
Qed.

End TcoCalculator.

(** ** What a returned result was computed from *)

Lemma compare_compute_Ok_inv (aws_data gcp_data wl : gmap string value) (a b : Q) :
  get_num aws_data "price_per_month" = Ok a ->
  get_num gcp_data "price_per_month" = Ok b ->
  forall r, compare_compute_instances aws_data gcp_data wl = Ok r ->
            ~ py_max a b == 0 /\ compute_outcome a b wl r.
Proof.
  intros Haws Hgcp r Hr. destruct (Qeq_dec (py_max a b) 0) as [Hz | Hnz].
  - rewrite (compare_compute_raises _ _ wl _ _ Haws Hgcp Hz) in Hr. discriminate Hr.
  - split; [exact Hnz |].
    destruct (compare_compute_Ok _ _ wl _ _ Haws Hgcp Hnz) as [r' [Hr' Ho]].
    rewrite Hr' in Hr. injection Hr as <-. exact Ho.
Qed.

Lemma compare_compute_reads (aws_data gcp_data wl : gmap string value)
    (r : compute_comparison) :
  compare_compute_instances aws_data gcp_data wl = Ok r ->
  exists a b,
    get_num aws_data "price_per_month" = Ok a /\
    get_num gcp_data "price_per_month" = Ok b /\
    ~ py_max a b == 0 /\ compute_outcome a b wl r.
Proof.
  intros Hr.
  destruct (get_num aws_data "price_per_month") as [a | e] eqn:Haws;
    [| unfold compare_compute_instances in Hr; rewrite Haws in Hr; discriminate Hr].
  destruct (get_num gcp_data "price_per_month") as [b | e] eqn:Hgcp;
    [| unfold compare_compute_instances in Hr; rewrite Haws, Hgcp in Hr; discriminate Hr].
  exists a, b. split; [reflexivity |]. split; [reflexivity |].
  exact (compare_compute_Ok_inv _ _ wl _ _ Haws Hgcp r Hr).
Qed.

Lemma compare_storage_Ok_inv (aws_data gcp_data : gmap string value) (a b : Q) :
  get_num aws_data "price_per_gb_month" = Ok a ->
  get_num gcp_data "price_per_gb_month" = Ok b ->
  forall r, compare_storage_options aws_data gcp_data = Ok r ->
            ~ py_max a b == 0 /\ storage_outcome aws_data gcp_data a b r.
Proof.
  intros Haws Hgcp r Hr. destruct (Qeq_dec (py_max a b) 0) as [Hz | Hnz].
  - rewrite (compare_storage_raises _ _ _ _ Haws Hgcp Hz) in Hr. discriminate Hr.
  - split; [exact Hnz |].
    destruct (compare_storage_Ok _ _ _ _ Haws Hgcp Hnz) as [r' [Hr' Ho]].
    rewrite Hr' in Hr. injection Hr as <-. exact Ho.
Qed.

Lemma calculate_tco_reads
    (compute_costs storage_costs additional_services : gmap string value)
    (h : Z) (r : tco_analysis) :
  calculate_tco compute_costs storage_costs additional_services h = Ok r ->
  exists m : provider -> monthly_costs,
    (forall p, get_num compute_costs (provider_key p) = Ok (mc_compute (m p))) /\
    (forall p, get_num storage_costs (provider_key p) = Ok (mc_storage (m p))) /\
    (forall p, get_num additional_services (provider_key p) = Ok (mc_additional (m p))) /\
    ~ py_max (projected_tco aws (m aws) h) (projected_tco gcp (m gcp) h) == 0 /\
    tco_outcome m h r.
Proof.
  intros Hr. pose proof Hr as Hr0. unfold calculate_tco in Hr0.
  destruct (get_num compute_costs "aws") as [ca | e] eqn:Hca; [| discriminate Hr0].
  destruct (get_num compute_costs "gcp") as [cg | e] eqn:Hcg; [| discriminate Hr0].
  destruct (get_num storage_costs "aws") as [sa | e] eqn:Hsa; [| discriminate Hr0].
  destruct (get_num storage_costs "gcp") as [sg | e] eqn:Hsg; [| discriminate Hr0].
  destruct (get_num additional_services "aws") as [aa | e] eqn:Haa; [| discriminate Hr0].
  destruct (get_num additional_services "gcp") as [ag | e] eqn:Hag; [| discriminate Hr0].
  clear Hr0.
  set (m := fun p => match p with
                     | aws => mk_monthly_costs ca sa aa
                     | gcp => mk_monthly_costs cg sg ag
                     end).
  assert (Hc : forall p, get_num compute_costs (provider_key p) = Ok (mc_compute (m p)))
    by (intros []; assumption).
  assert (Hs : forall p, get_num storage_costs (provider_key p) = Ok (mc_storage (m p)))
    by (intros []; assumption).
  assert (Ha : forall p,
             get_num additional_services (provider_key p) = Ok (mc_additional (m p)))
    by (intros []; assumption).
  exists m. split; [exact Hc |]. split; [exact Hs |]. split; [exact Ha |].
  destruct (Qeq_dec (py_max (projected_tco aws (m aws) h) (projected_tco gcp (m gcp) h)) 0)
    as [Hz | Hnz].
  - rewrite (calculate_tco_raises _ _ _ m h Hc Hs Ha Hz) in Hr. discriminate Hr.
  - split; [exact Hnz |].
    destruct (calculate_tco_Ok _ _ _ m h Hc Hs Ha Hnz) as [r' [Hr' Ho]].
    rewrite Hr' in Hr. injection Hr as <-. exact Ho.
Qed.

(** ** Savings percentage *)

(** Where the larger cost is not zero the compute comparator returns the
    savings percentage [|a - b| / max(a, b) * 100]. *)
Lemma compute_savings_percentage (aws_data gcp_data wl : gmap string value) (a b : Q) :
  get_num aws_data "price_per_month" = Ok a ->
  get_num gcp_data "price_per_month" = Ok b ->
  0 <= a -> 0 <= b -> ~ (a == 0 /\ b == 0) ->
  exists r, compare_compute_instances aws_data gcp_data wl = Ok r /\
            cc_cost_savings_percentage r == Qabs (a - b) / py_max a b * 100.
Proof.
  intros Haws Hgcp Ha Hb Hnz.
  assert (Hmax : ~ py_max a b == 0) by (rewrite py_max_nonneg_zero; assumption).
  destruct (compare_compute_Ok _ _ wl _ _ Haws Hgcp Hmax) as [r [Hr Ho]].
  exists r. split; [exact Hr |].
  rewrite (co_savings_percentage _ _ _ _ Ho).
  assert (Hpos : 0 < py_max a b).
  { destruct (py_max_cases a b) as [[Hlt Hm] | [Hle Hm]]; rewrite Hm in *; lra. }
  unfold Qdiv. rewrite Qabs_Qmult.
  rewrite (Qabs_pos (/ py_max a b)); [reflexivity |].
  apply Qlt_le_weak, Qinv_lt_0_compat, Hpos.
Qed.

(** The same for the storage comparator. *)
Lemma storage_savings_percentage (aws_data gcp_data : gmap string value) (a b : Q) :
  get_num aws_data "price_per_gb_month" = Ok a ->
  get_num gcp_data "price_per_gb_month" = Ok b ->
  0 <= a -> 0 <= b -> ~ (a == 0 /\ b == 0) ->
  exists r, compare_storage_options aws_data gcp_data = Ok r /\
            st_cost_savings_percentage r = Qabs (a - b) / py_max a b * 100.
Proof.
  intros Haws Hgcp Ha Hb Hnz.
  assert (Hmax : ~ py_max a b == 0) by (rewrite py_max_nonneg_zero; assumption).
  destruct (compare_storage_Ok _ _ _ _ Haws Hgcp Hmax) as [r [Hr Ho]].
  exists r. split; [exact Hr | apply (so_savings_percentage _ _ _ _ _ Ho)].
Qed.

(** C2. With both costs zero (quoted as 0, or absent and read as 0) neither
    comparator returns a savings percentage of 0: the division by
    [max(0, 0)] raises [ZeroDivisionError]. *)
Theorem zero_costs_savings_percentage_raises :
  compare_compute_instances
    {[ "price_per_month" := VNum 0 ]} {[ "price_per_month" := VNum 0 ]} ∅
    = Raise ZeroDivisionError /\
  compare_compute_instances ∅ ∅ ∅ = Raise ZeroDivisionError /\
  compare_storage_options
    {[ "price_per_gb_month" := VNum 0 ]} {[ "price_per_gb_month" := VNum 0 ]}
    = Raise ZeroDivisionError /\
  compare_storage_options ∅ ∅ = Raise ZeroDivisionError.
Proof.
  repeat split; vm_compute; reflexivity.
Qed.

(** ** Final score and winner *)

Lemma total_weight_one : total_weight == 1.
Proof. reflexivity. Qed.

(** C3. In a returned compute comparison the cost scores are those of
    [_calculate_cost_score] for the two monthly prices, the performance
    scores those of the workload type, and the scalability, reliability and
    maintenance scores the constants of the provider (9.5, 9.8, 8.5 for aws,
    9.3, 9.6, 9.2 for gcp); each provider's final score is the sum over the
    five criteria of the criterion's score times its weight, the weights
    being 0.35, 0.25, 0.20, 0.15 and 0.05 with sum 1; the winner is the
    provider with the strictly greater final score, and gcp when the two
    final scores are equal.  The comparison returns whenever the larger of
    the two costs is not zero. *)
Theorem final_score_and_winner :
  (forall (aws_data gcp_data wl : gmap string value) (a b : Q) (r : compute_comparison),
     get_num aws_data "price_per_month" = Ok a ->
     get_num gcp_data "price_per_month" = Ok b ->
     compare_compute_instances aws_data gcp_data wl = Ok r ->
     _calculate_cost_score a b
       = Ok (mk_scores (sc_cost (cc_scores r aws)) (sc_cost (cc_scores r gcp))) /\
     (forall p,
        sc_performance (cc_scores r p) = (_calculate_performance_score "aws" "gcp" wl).[p]) /\
     (sc_scalability (cc_scores r aws) = 9.5 /\ sc_scalability (cc_scores r gcp) = 9.3) /\
     (sc_reliability (cc_scores r aws) = 9.8 /\ sc_reliability (cc_scores r gcp) = 9.6) /\
     (sc_maintenance (cc_scores r aws) = 8.5 /\ sc_maintenance (cc_scores r gcp) = 9.2) /\
     (forall p,
        sc_final (cc_scores r p)
        == sc_cost (cc_scores r p) * 0.35 + sc_performance (cc_scores r p) * 0.25
           + sc_scalability (cc_scores r p) * 0.20 + sc_reliability (cc_scores r p) * 0.15
           + sc_maintenance (cc_scores r p) * 0.05) /\
     (forall p, sc_final (cc_scores r p) == weighted_sum (cc_scores r p)) /\
     (sc_final (cc_scores r gcp) < sc_final (cc_scores r aws) ->
        winner (cc_recommendation r) = aws) /\
     (sc_final (cc_scores r aws) < sc_final (cc_scores r gcp) ->
        winner (cc_recommendation r) = gcp) /\
     (sc_final (cc_scores r aws) == sc_final (cc_scores r gcp) ->
        winner (cc_recommendation r) = gcp)) /\
  map weights criteria = [0.35; 0.25; 0.20; 0.15; 0.05] /\
  total_weight == 1 /\
  (forall (aws_data gcp_data wl : gmap string value) (a b : Q),
     get_num aws_data "price_per_month" = Ok a ->
     get_num gcp_data "price_per_month" = Ok b ->
     ~ py_max a b == 0 ->
     returns (compare_compute_instances aws_data gcp_data wl)).
Proof.
  split; [| split; [reflexivity | split; [apply total_weight_one |]]].
  - intros aws_data gcp_data wl a b r Haws Hgcp Hr.
    destruct (compare_compute_Ok_inv _ _ wl _ _ Haws Hgcp r Hr) as [_ Ho].
    split; [exact (co_cost _ _ _ _ Ho) |].
    split; [exact (co_performance _ _ _ _ Ho) |].
    split; [split; rewrite (co_scalability _ _ _ _ Ho); reflexivity |].
    split; [split; rewrite (co_reliability _ _ _ _ Ho); reflexivity |].
    split; [split; rewrite (co_maintenance _ _ _ _ Ho); reflexivity |].
    split.
    { intros p. rewrite (co_final _ _ _ _ Ho). cbn [weights]. reflexivity. }
    split.
    { intros p. rewrite (co_final _ _ _ _ Ho).
      unfold weighted_sum. cbn [fold_right criteria criterion_score]. ring. }
    rewrite (co_winner _ _ _ _ Ho).
    case_Qltb (sc_final (cc_scores r gcp)) (sc_final (cc_scores r aws));
      repeat split; intros; trivial; lra.
  - intros aws_data gcp_data wl a b Haws Hgcp Hmax.
    destruct (compare_compute_Ok _ _ wl _ _ Haws Hgcp Hmax) as [r [Hr _]].
    exists r. exact Hr.
Qed.

Lemma final_score_and_winner_witness :
  exists r,
    compare_compute_instances
      {[ "price_per_month" := VNum 100 ]} {[ "price_per_month" := VNum 150 ]} ∅ = Ok r /\
    (sc_cost (cc_scores r aws) == 6 /\ sc_cost (cc_scores r gcp) == 4) /\
    (sc_performance (cc_scores r aws) = 8.8 /\ sc_performance (cc_scores r gcp) = 8.9) /\
    (sc_final (cc_scores r aws) == 8.095 /\ sc_final (cc_scores r gcp) == 7.385) /\
    winner (cc_recommendation r) = aws.
Proof.
  destruct final_score_and_winner as [Hscore [_ [_ Hreturns]]].
  destruct (Hreturns {[ "price_per_month" := VNum 100 ]}
                     {[ "price_per_month" := VNum 150 ]} ∅ 100 150) as [r Hr].
  - reflexivity.
  - reflexivity.
  - vm_compute. discriminate.
  - exists r. split; [exact Hr |].
    destruct (Hscore {[ "price_per_month" := VNum 100 ]}
                     {[ "price_per_month" := VNum 150 ]} ∅ 100 150 r)
      as [Hcost [Hperf [[Hsa Hsg] [[Hra Hrg] [[Hma Hmg] [Hfinal [_ [Haws _]]]]]]]];
      [reflexivity | reflexivity | exact Hr |].
    rewrite cost_score_share in Hcost by (intros H; discriminate H).
    injection Hcost as Hca Hcg.
    pose proof (Hperf aws) as Hpa. pose proof (Hperf gcp) as Hpg.
    cbn in Hpa, Hpg.
    pose proof (Hfinal aws) as Hfa. pose proof (Hfinal gcp) as Hfg.
    rewrite <- Hca, Hpa, Hsa, Hra, Hma in Hfa.
    rewrite <- Hcg, Hpg, Hsg, Hrg, Hmg in Hfg.
    assert (Hva : sc_final (cc_scores r aws) == 8.095) by (rewrite Hfa; reflexivity).
    assert (Hvg : sc_final (cc_scores r gcp) == 7.385) by (rewrite Hfg; reflexivity).
    split; [split; [rewrite <- Hca | rewrite <- Hcg]; reflexivity |].
    split; [split; assumption |].
    split; [split; assumption |].
    apply Haws. rewrite Hva, Hvg. reflexivity.
Defined.

(** The costs 351 and 349 tie in exact arithmetic, where both final scores
    are 7.74 and the winner is gcp; in binary64 the final scores are 7.74 and
    7.739999999999999 and the winner is aws.  For the costs 100 and 150 the
    winner is aws in both. *)
Example tie_351_349 :
  (exists r,
     compare_compute_instances
       {[ "price_per_month" := VNum 351 ]} {[ "price_per_month" := VNum 349 ]} ∅ = Ok r /\
     sc_final (cc_scores r aws) == sc_final (cc_scores r gcp) /\
     winner (cc_recommendation r) = gcp) /\
  Binary64.final_scores 351 349 ∅
  = (0x1.ef5c28f5c28f6p+2%float, 0x1.ef5c28f5c28f5p+2%float) /\
  Binary64.compute_winner 351 349 ∅ = aws /\
  Binary64.compute_winner 100 150 ∅ = aws.
Proof.
  split; [| vm_compute; repeat split].
  eexists. split; [vm_compute; reflexivity |].
  split; reflexivity.
Qed.

(** ** Total cost of ownership *)

(** C4. A returned TCO analysis keeps, for each provider, the compute,
    storage and additional monthly cost it read, charges 15% (aws) and 12%
    (gcp) of compute plus storage as operational monthly cost, adds the four
    to the monthly total, multiplies the total by the horizon, and reports
    the absolute difference of the two TCOs as savings and the side with the
    smaller TCO as savings provider.  The analysis returns whenever the
    larger of the two TCOs is not zero. *)
Theorem tco_spec :
  (forall (compute_costs storage_costs additional_services : gmap string value)
          (h : Z) (r : tco_analysis),
     calculate_tco compute_costs storage_costs additional_services h = Ok r ->
     (forall p,
        get_num compute_costs (provider_key p) = Ok (compute_monthly (breakdown r p)) /\
        get_num storage_costs (provider_key p) = Ok (storage_monthly (breakdown r p)) /\
        get_num additional_services (provider_key p)
          = Ok (additional_monthly (breakdown r p))) /\
     operational_monthly (breakdown r aws)
       = (compute_monthly (breakdown r aws) + storage_monthly (breakdown r aws)) * 0.15 /\
     operational_monthly (breakdown r gcp)
       = (compute_monthly (breakdown r gcp) + storage_monthly (breakdown r gcp)) * 0.12 /\
     (forall p, total_monthly (breakdown r p)
                = compute_monthly (breakdown r p) + storage_monthly (breakdown r p)
                  + additional_monthly (breakdown r p)
                  + operational_monthly (breakdown r p)) /\
     aws_tco r = total_monthly (breakdown r aws) * inject_Z h /\
     gcp_tco r = total_monthly (breakdown r gcp) * inject_Z h /\
     savings r = Qabs (aws_tco r - gcp_tco r) /\
     (aws_tco r < gcp_tco r -> savings_provider r = aws) /\
     (gcp_tco r < aws_tco r -> savings_provider r = gcp)) /\
  (forall (compute_costs storage_costs additional_services : gmap string value)
          (m : provider -> monthly_costs) (h : Z),
     (forall p, get_num compute_costs (provider_key p) = Ok (mc_compute (m p))) ->
     (forall p, get_num storage_costs (provider_key p) = Ok (mc_storage (m p))) ->
     (forall p, get_num additional_services (provider_key p) = Ok (mc_additional (m p))) ->
     ~ py_max (projected_tco aws (m aws) h) (projected_tco gcp (m gcp) h) == 0 ->
     returns (calculate_tco compute_costs storage_costs additional_services h)).
Proof.
  split.
  - intros compute_costs storage_costs additional_services h r Hr.
    destruct (calculate_tco_reads _ _ _ _ _ Hr) as [m [Hc [Hs [Ha [_ Ho]]]]].
    pose proof (to_compute _ _ _ Ho) as Hoc.
    pose proof (to_storage _ _ _ Ho) as Hos.
    pose proof (to_additional _ _ _ Ho) as Hoa.
    split.
    { intros p. rewrite Hoc, Hos, Hoa. auto. }
    split; [exact (to_operational _ _ _ Ho aws) |].
    split; [exact (to_operational _ _ _ Ho gcp) |].
    split; [exact (to_total _ _ _ Ho) |].
    split; [exact (to_tco _ _ _ Ho aws) |].
    split; [exact (to_tco _ _ _ Ho gcp) |].
    split; [exact (to_savings _ _ _ Ho) |].
    rewrite (to_savings_provider _ _ _ Ho).
    case_Qltb (aws_tco r) (gcp_tco r); split; intros; trivial; lra.
  - intros compute_costs storage_costs additional_services m h Hc Hs Ha Hmax.
    destruct (calculate_tco_Ok _ _ _ m h Hc Hs Ha Hmax) as [r [Hr _]].
    exists r. exact Hr.
Qed.

Lemma tco_spec_witness :
  exists r,
    calculate_tco {[ "aws" := VNum 100; "gcp" := VNum 150 ]}
                  {[ "aws" := VNum 23; "gcp" := VNum 20 ]} ∅ 36 = Ok r /\
    aws_tco r == 5092.2 /\ gcp_tco r == 6854.4 /\
    savings r == 1762.2 /\ savings_provider r = aws.
Proof.
  destruct tco_spec as [Hspec Hreturns].
  destruct (Hreturns {[ "aws" := VNum 100; "gcp" := VNum 150 ]}
                     {[ "aws" := VNum 23; "gcp" := VNum 20 ]} ∅
                     (fun p => match p with
                               | aws => mk_monthly_costs 100 23 0
                               | gcp => mk_monthly_costs 150 20 0
                               end) 36%Z) as [r Hr].
  - intros []; reflexivity.
  - intros []; reflexivity.
  - intros []; reflexivity.
  - vm_compute. discriminate.
  - exists r. split; [exact Hr |].
    destruct (Hspec _ _ _ _ _ Hr) as [_ [_ [_ [_ [_ [_ [_ [Hlt _]]]]]]]].
    assert (Hval : aws_tco r == 5092.2 /\ gcp_tco r == 6854.4 /\ savings r == 1762.2).
    { vm_compute in Hr. injection Hr as <-. split; [| split]; reflexivity. }
    destruct Hval as [Ha [Hg Hs]].
    split; [exact Ha |]. split; [exact Hg |]. split; [exact Hs |].
    apply Hlt. rewrite Ha, Hg. reflexivity.
Defined.

(** ** Confidence *)

Lemma performance_score_bounds (p1 p2 : string) (wl : gmap string value) (p : provider) :
  0 <= (_calculate_performance_score p1 p2 wl).[p] <= 10.
Proof.
  unfold _calculate_performance_score.
  destruct (value_is _ "compute_intensive"); [destruct p; cbn; lra |].
  destruct (value_is _ "data_intensive"); destruct p; cbn; lra.
Qed.

Lemma characteristics_bounds (p : provider) :
  0 <= scalability_score (provider_characteristics p) <= 10 /\
  0 <= reliability_score (provider_characteristics p) <= 10 /\
  0 <= maintenance_score (provider_characteristics p) <= 10.
Proof.
  destruct p; cbn; lra.
Qed.

(** C5. The confidence of a returned compute comparison is
    [|finalA - finalB| / 10]; for non-negative costs every per-criterion
    score and both final scores lie in [[0, 10]], hence the confidence lies
    in [[0, 1]].  The confidence of a returned storage comparison is
    [min(savings_percentage / 20, 1.0)], the savings percentage being
    [|a - b| / max(a, b) * 100] for the two prices [a] and [b] per GB: for
    non-negative costs it lies in [[0, 1]], is 1 from a savings percentage of
    20 on and [savings_percentage / 20] below.  Both comparisons return
    whenever the two non-negative costs are not both zero. *)
Theorem confidence_spec :
  (forall (aws_data gcp_data wl : gmap string value) (a b : Q) (r : compute_comparison),
     get_num aws_data "price_per_month" = Ok a ->
     get_num gcp_data "price_per_month" = Ok b ->
     0 <= a -> 0 <= b ->
     compare_compute_instances aws_data gcp_data wl = Ok r ->
     confidence (cc_recommendation r)
       = Qabs (sc_final (cc_scores r aws) - sc_final (cc_scores r gcp)) / 10 /\
     (forall p c, 0 <= criterion_score (cc_scores r p) c <= 10) /\
     (forall p, 0 <= sc_final (cc_scores r p) <= 10) /\
     0 <= confidence (cc_recommendation r) <= 1) /\
  (forall (aws_data gcp_data wl : gmap string value) (a b : Q),
     get_num aws_data "price_per_month" = Ok a ->
     get_num gcp_data "price_per_month" = Ok b ->
     0 <= a -> 0 <= b -> ~ (a == 0 /\ b == 0) ->
     returns (compare_compute_instances aws_data gcp_data wl)) /\
  (forall (aws_data gcp_data : gmap string value) (a b : Q) (r : storage_comparison),
     get_num aws_data "price_per_gb_month" = Ok a ->
     get_num gcp_data "price_per_gb_month" = Ok b ->
     0 <= a -> 0 <= b ->
     compare_storage_options aws_data gcp_data = Ok r ->
     st_cost_savings_percentage r = Qabs (a - b) / py_max a b * 100 /\
     st_confidence r = py_min (Qabs (a - b) / py_max a b * 100 / 20) 1.0 /\
     st_confidence r = py_min (st_cost_savings_percentage r / 20) 1.0 /\
     0 <= st_confidence r <= 1 /\
     (20 <= st_cost_savings_percentage r -> st_confidence r == 1) /\
     (st_cost_savings_percentage r < 20 ->
        st_confidence r = st_cost_savings_percentage r / 20)) /\
  (forall (aws_data gcp_data : gmap string value) (a b : Q),
     get_num aws_data "price_per_gb_month" = Ok a ->
     get_num gcp_data "price_per_gb_month" = Ok b ->
     0 <= a -> 0 <= b -> ~ (a == 0 /\ b == 0) ->
     returns (compare_storage_options aws_data gcp_data)).
Proof.
  split; [| split; [| split]].
  - intros aws_data gcp_data wl a b r Haws Hgcp Ha Hb Hr.
    destruct (compare_compute_Ok_inv _ _ wl _ _ Haws Hgcp r Hr) as [_ Ho].
    split; [exact (co_confidence _ _ _ _ Ho) |].
    assert (Hcrit : forall p c, 0 <= criterion_score (cc_scores r p) c <= 10).
    { intros p c. destruct c; cbn [criterion_score].
      - pose proof (cost_score_bounds a b _ p Ha Hb (co_cost _ _ _ _ Ho)) as Hc.
        destruct p; exact Hc.
      - rewrite (co_performance _ _ _ _ Ho). apply performance_score_bounds.
      - rewrite (co_scalability _ _ _ _ Ho). apply characteristics_bounds.
      - rewrite (co_reliability _ _ _ _ Ho). apply characteristics_bounds.
      - rewrite (co_maintenance _ _ _ _ Ho). apply characteristics_bounds. }
    assert (Hfinal : forall p, 0 <= sc_final (cc_scores r p) <= 10).
    { intros p. rewrite (co_final _ _ _ _ Ho). cbn [weights].
      pose proof (Hcrit p cost). pose proof (Hcrit p performance).
      pose proof (Hcrit p scalability). pose proof (Hcrit p reliability).
      pose proof (Hcrit p maintenance). cbn [criterion_score] in *. lra. }
    split; [exact Hcrit |]. split; [exact Hfinal |].
    rewrite (co_confidence _ _ _ _ Ho).
    pose proof (Hfinal aws) as Hfa. pose proof (Hfinal gcp) as Hfg.
    assert (Habs : 0 <= Qabs (sc_final (cc_scores r aws) - sc_final (cc_scores r gcp)) <= 10).
    { split; [apply Qabs_nonneg |]. apply Qabs_Qle_condition. lra. }
    split; [apply Qle_shift_div_l | apply Qle_shift_div_r]; lra.
  - intros aws_data gcp_data wl a b Haws Hgcp Ha Hb Hnz.
    assert (Hmax : ~ py_max a b == 0) by (rewrite py_max_nonneg_zero; assumption).
    destruct (compare_compute_Ok _ _ wl _ _ Haws Hgcp Hmax) as [r [Hr _]].
    exists r. exact Hr.
  - intros aws_data gcp_data a b r Haws Hgcp Ha Hb Hr.
    destruct (compare_storage_Ok_inv _ _ _ _ Haws Hgcp r Hr) as [Hmax Ho].
    split; [exact (so_savings_percentage _ _ _ _ _ Ho) |].
    split; [rewrite <- (so_savings_percentage _ _ _ _ _ Ho);
            exact (so_confidence _ _ _ _ _ Ho) |].
    split; [exact (so_confidence _ _ _ _ _ Ho) |].
    assert (Hpct : 0 <= st_cost_savings_percentage r).
    { rewrite (so_savings_percentage _ _ _ _ _ Ho).
      assert (Hpos : 0 < py_max a b).
      { destruct (py_max_cases a b) as [[Hlt Hm] | [Hle Hm]]; rewrite Hm in *; lra. }
      pose proof (Qabs_nonneg (a - b)) as Hd.
      assert (0 <= Qabs (a - b) / py_max a b) by (apply Qle_shift_div_l; lra).
      lra. }
    rewrite (so_confidence _ _ _ _ _ Ho).
    destruct (py_min_cases (st_cost_savings_percentage r / 20) 1.0)
      as [[Hlt ->] | [Hle ->]];
      change (st_cost_savings_percentage r / 20)
        with (st_cost_savings_percentage r * (1 # 20)) in *;
      repeat split; intros; try reflexivity; lra.
  - intros aws_data gcp_data a b Haws Hgcp Ha Hb Hnz.
    assert (Hmax : ~ py_max a b == 0) by (rewrite py_max_nonneg_zero; assumption).
    destruct (compare_storage_Ok _ _ _ _ Haws Hgcp Hmax) as [r [Hr _]].
    exists r. exact Hr.
Qed.

Lemma confidence_spec_witness :
  (exists r,
     compare_compute_instances
       {[ "price_per_month" := VNum 100 ]} {[ "price_per_month" := VNum 150 ]} ∅ = Ok r /\
     confidence (cc_recommendation r) == 0.071 /\
     0 <= confidence (cc_recommendation r) <= 1) /\
  (exists r,
     compare_storage_options
       {[ "price_per_gb_month" := VNum 0.023 ]} {[ "price_per_gb_month" := VNum 0.020 ]}
       = Ok r /\
     st_cost_savings_percentage r == 300 # 23 /\
     st_confidence r == 15 # 23 /\
     0 <= st_confidence r <= 1).
Proof.
  destruct confidence_spec as [Hcompute [Hcompute_returns [Hstorage Hstorage_returns]]].
  split.
  - destruct (Hcompute_returns {[ "price_per_month" := VNum 100 ]}
                               {[ "price_per_month" := VNum 150 ]} ∅ 100 150)
      as [r Hr].
    + reflexivity.
    + reflexivity.
    + lra.
    + lra.
    + intros [H _]. discriminate H.
    + exists r. split; [exact Hr |].
      destruct (Hcompute {[ "price_per_month" := VNum 100 ]}
                         {[ "price_per_month" := VNum 150 ]} ∅ 100 150 r)
        as [Hconf [_ [_ Hbounds]]];
        [reflexivity | reflexivity | lra | lra | exact Hr |].
      split; [| exact Hbounds].
      rewrite Hconf. vm_compute in Hr. injection Hr as <-. reflexivity.
  - destruct (Hstorage_returns {[ "price_per_gb_month" := VNum 0.023 ]}
                               {[ "price_per_gb_month" := VNum 0.020 ]} 0.023 0.020)
      as [r Hr].
    + reflexivity.
    + reflexivity.
    + lra.
    + lra.
    + intros [H _]. discriminate H.
    + exists r. split; [exact Hr |].
      destruct (Hstorage {[ "price_per_gb_month" := VNum 0.023 ]}
                         {[ "price_per_gb_month" := VNum 0.020 ]} 0.023 0.020 r)
        as [Hpct [Hconf [_ [Hbounds _]]]];
        [reflexivity | reflexivity | lra | lra | exact Hr |].
      split; [rewrite Hpct; reflexivity |].
      split; [rewrite Hconf; reflexivity | exact Hbounds].
Defined.

(** ** Performance score *)

Lemma value_is_true (v : value) (s : string) : value_is v s = true <-> v = VStr s.
Proof.
  destruct v as [q | t]; cbn.
  - split; discriminate.
  - rewrite String.eqb_eq. split; [intros -> | intros [= ->]]; reflexivity.
Qed.

Lemma value_is_false (v : value) (s : string) : value_is v s = false <-> v <> VStr s.
Proof.
  rewrite <- not_true_iff_false, value_is_true. reflexivity.
Qed.

(** C6. The performance score depends on the workload type alone, in three
    branches: 8.5 / 9.0 for ['compute_intensive'], 9.2 / 8.8 for
    ['data_intensive'], and 8.8 / 8.9 for every other value, a missing type
    included.  The function returns a score in every case. *)
Theorem performance_score_branches (provider1 provider2 : string)
    (workload_requirements : gmap string value) :
  let score := _calculate_performance_score provider1 provider2 workload_requirements in
  let workload_type := workload_requirements !! "type" in
  (workload_type = Some (VStr "compute_intensive") ->
     score = {| aws_score := 8.5; gcp_score := 9.0 |}) /\
  (workload_type = Some (VStr "data_intensive") ->
     score = {| aws_score := 9.2; gcp_score := 8.8 |}) /\
  (workload_type <> Some (VStr "compute_intensive") ->
   workload_type <> Some (VStr "data_intensive") ->
     score = {| aws_score := 8.8; gcp_score := 8.9 |}).
Proof.
  cbv zeta. unfold _calculate_performance_score, get_val.
  repeat split.
  - intros ->. reflexivity.
  - intros ->. reflexivity.
  - intros Hc Hd. destruct (workload_requirements !! "type") as [v |]; [| reflexivity].
    assert (Hvc : value_is v "compute_intensive" = false).
    { apply value_is_false. intros ->. apply Hc. reflexivity. }
    assert (Hvd : value_is v "data_intensive" = false).
    { apply value_is_false. intros ->. apply Hd. reflexivity. }
    rewrite Hvc, Hvd. reflexivity.
Qed.

Lemma performance_score_branches_witness :
  _calculate_performance_score "aws" "gcp" {[ "type" := VStr "compute_intensive" ]}
    = {| aws_score := 8.5; gcp_score := 9.0 |} /\
  _calculate_performance_score "aws" "gcp" {[ "type" := VStr "data_intensive" ]}
    = {| aws_score := 9.2; gcp_score := 8.8 |} /\
  _calculate_performance_score "aws" "gcp" {[ "type" := VStr "quantum" ]}
    = {| aws_score := 8.8; gcp_score := 8.9 |} /\
  _calculate_performance_score "aws" "gcp" ∅
    = {| aws_score := 8.8; gcp_score := 8.9 |}.
Proof.
  split; [| split; [| split]].
  - apply (performance_score_branches "aws" "gcp" {[ "type" := VStr "compute_intensive" ]}).
    reflexivity.
  - apply (performance_score_branches "aws" "gcp" {[ "type" := VStr "data_intensive" ]}).
    reflexivity.
  - apply (performance_score_branches "aws" "gcp" {[ "type" := VStr "quantum" ]});
      vm_compute; discriminate.
  - apply (performance_score_branches "aws" "gcp" ∅); vm_compute; discriminate.
Defined.

(** ** Primary reasons *)

Lemma reason_if_length (b : bool) (reason : string) : (length (reason_if b reason) <= 1)%nat.
Proof.
  destruct b; cbn; lia.
Qed.

(** The list built by [_get_primary_reasons], condition by condition. *)
Lemma get_primary_reasons_eq (winner : provider)
    (cost_score performance_score scalability_score : scores) :
  _get_primary_reasons winner cost_score performance_score scalability_score =
    (reason_if (Qltb cost_score.[other_provider winner] cost_score.[winner])
       "Melhor custo-benefício"
     ++ reason_if (Qltb performance_score.[other_provider winner] performance_score.[winner])
          "Superior performance"
     ++ reason_if (Qltb scalability_score.[other_provider winner] scalability_score.[winner])
          "Melhor escalabilidade")%list.
Proof.
  unfold _get_primary_reasons.
  destruct (Qltb cost_score.[other_provider winner] cost_score.[winner]);
    destruct (Qltb performance_score.[other_provider winner] performance_score.[winner]);
    destruct (Qltb scalability_score.[other_provider winner] scalability_score.[winner]);
    reflexivity.
Qed.

Lemma three_reasons_length (b1 b2 b3 : bool) (r1 r2 r3 : string) :
  (length (reason_if b1 r1 ++ reason_if b2 r2 ++ reason_if b3 r3) <= 3)%nat.
Proof.
  rewrite !length_app.
  pose proof (reason_if_length b1 r1). pose proof (reason_if_length b2 r2).
  pose proof (reason_if_length b3 r3). lia.
Qed.

(** C7. The reasons are listed in the order cost, performance, scalability:
    one fixed sentence for each of these criteria in which the winner's score
    is strictly greater than the loser's.  No other sentence occurs, so that
    reliability and maintenance contribute none, and the list has at most
    three entries.  This holds of the function and of the reasons of every
    returned compute comparison, read against the scores it reports. *)
Theorem primary_reasons_spec :
  (forall (winner : provider) (cost_score performance_score scalability_score : scores),
     let loser := other_provider winner in
     let reasons :=
       _get_primary_reasons winner cost_score performance_score scalability_score in
     exists by_cost by_performance by_scalability : bool,
       (by_cost = true <-> cost_score.[loser] < cost_score.[winner]) /\
       (by_performance = true <->
          performance_score.[loser] < performance_score.[winner]) /\
       (by_scalability = true <->
          scalability_score.[loser] < scalability_score.[winner]) /\
       reasons = (reason_if by_cost "Melhor custo-benefício"
                  ++ reason_if by_performance "Superior performance"
                  ++ reason_if by_scalability "Melhor escalabilidade")%list /\
       (length reasons <= 3)%nat) /\
  (forall (aws_data gcp_data wl : gmap string value) (r : compute_comparison),
     compare_compute_instances aws_data gcp_data wl = Ok r ->
     let won := cc_scores r (winner (cc_recommendation r)) in
     let lost := cc_scores r (other_provider (winner (cc_recommendation r))) in
     let reasons := primary_reasons (cc_recommendation r) in
     exists by_cost by_performance by_scalability : bool,
       (by_cost = true <-> sc_cost lost < sc_cost won) /\
       (by_performance = true <-> sc_performance lost < sc_performance won) /\
       (by_scalability = true <-> sc_scalability lost < sc_scalability won) /\
       reasons = (reason_if by_cost "Melhor custo-benefício"
                  ++ reason_if by_performance "Superior performance"
                  ++ reason_if by_scalability "Melhor escalabilidade")%list /\
       (length reasons <= 3)%nat).
Proof.
  split.
  - intros winner cost_score performance_score scalability_score. cbv zeta.
    rewrite get_primary_reasons_eq.
    do 3 eexists.
    split; [apply Qltb_lt |]. split; [apply Qltb_lt |]. split; [apply Qltb_lt |].
    split; [reflexivity | apply three_reasons_length].
  - intros aws_data gcp_data wl r Hr. cbv zeta.
    destruct (compare_compute_reads _ _ _ _ Hr) as [a [b [_ [_ [_ Ho]]]]].
    rewrite (co_reasons _ _ _ _ Ho), get_primary_reasons_eq.
    assert (Hcost : forall p,
              (mk_scores (sc_cost (cc_scores r aws)) (sc_cost (cc_scores r gcp))).[p]
              = sc_cost (cc_scores r p)) by (intros []; reflexivity).
    assert (Hscal : forall p,
              (_calculate_scalability_score "aws" "gcp").[p]
              = sc_scalability (cc_scores r p)).
    { intros p. rewrite (co_scalability _ _ _ _ Ho). destruct p; reflexivity. }
    rewrite !Hcost, !Hscal, <- !(co_performance _ _ _ _ Ho).
    do 3 eexists.
    split; [apply Qltb_lt |]. split; [apply Qltb_lt |]. split; [apply Qltb_lt |].
    split; [reflexivity | apply three_reasons_length].
Qed.

Lemma primary_reasons_spec_witness :
  exists r,
    compare_compute_instances
      {[ "price_per_month" := VNum 100 ]} {[ "price_per_month" := VNum 150 ]} ∅ = Ok r /\
    winner (cc_recommendation r) = aws /\
    primary_reasons (cc_recommendation r)
      = ["Melhor custo-benefício"; "Melhor escalabilidade"] /\
    (length (primary_reasons (cc_recommendation r)) <= 3)%nat.
Proof.
  destruct primary_reasons_spec as [_ Hreasons].
  destruct (compare_compute_Ok {[ "price_per_month" := VNum 100 ]}
                               {[ "price_per_month" := VNum 150 ]} ∅ 100 150)
    as [r [Hr _]].
  - reflexivity.
  - reflexivity.
  - vm_compute. discriminate.
  - exists r. split; [exact Hr |].
    destruct (Hreasons _ _ _ _ Hr) as [bc [bp [bs [_ [_ [_ [_ Hlen]]]]]]].
    assert (Hval : winner (cc_recommendation r) = aws /\
                   primary_reasons (cc_recommendation r)
                   = ["Melhor custo-benefício"; "Melhor escalabilidade"]).
    { vm_compute in Hr. injection Hr as <-. split; reflexivity. }
    destruct Hval as [Hw Hp]. split; [exact Hw |]. split; [exact Hp | exact Hlen].
Defined.

(** ** Storage characteristics *)

(** [str_gt] decides the lexicographic order. *)
Lemma str_gt_lex (a b : string) : str_gt a b = true <-> lex_gt a b.
Proof.
  revert b. induction a as [| x a IH]; intros b.
  - cbn. split; [discriminate | intros H; inversion H].
  - destruct b as [| y b]; cbn.
    + split; [intros _; constructor | reflexivity].
    + fold (code x) (code y).
      destruct (N.compare_spec (code x) (code y)) as [Heq | Hlt | Hgt].
      * apply (f_equal ascii_of_N) in Heq. unfold code in Heq.
        rewrite !ascii_N_embedding in Heq. subst y.
        rewrite IH. split; [apply lex_gt_tail |].
        intros H. inversion H; subst; [lia | assumption].
      * split; [discriminate |].
        intros H. inversion H; subst; [lia |]. lia.
      * split; [intros _; apply lex_gt_head; exact Hgt | reflexivity].
Qed.

Lemma unknown_storage_type (s : string) :
  s ∉ storage_types -> storage_characteristics !! s = None.
Proof.
  intros Hs. unfold storage_types in Hs. unfold storage_characteristics.
  repeat (rewrite lookup_insert_ne; [| intros <-; apply Hs; set_solver]).
  apply lookup_singleton_ne. intros <-. apply Hs. set_solver.
Qed.

Lemma availability_column (t : value) :
  availability (lookup_characteristics t) = availability_of t.
Proof.
  destruct t as [q | s]; [reflexivity |].
  unfold availability_of, lookup_characteristics.
  destruct (String.eqb_spec s "s3_standard") as [-> | H1]; [reflexivity |].
  destruct (String.eqb_spec s "s3_ia") as [-> | H2]; [reflexivity |].
  destruct (String.eqb_spec s "s3_glacier") as [-> | H3]; [reflexivity |].
  destruct (decide (s ∈ ["standard"; "nearline"; "coldline"; "archive"])) as [Hin | Hout].
  - rewrite (bool_decide_eq_true_2 _ Hin).
    repeat (apply elem_of_cons in Hin as [-> | Hin]; [reflexivity |]).
    apply elem_of_nil in Hin. contradiction.
  - rewrite (bool_decide_eq_false_2 _ Hout).
    rewrite unknown_storage_type; [reflexivity |].
    unfold storage_types. intros Hin.
    apply elem_of_cons in Hin as [-> | Hin]; [apply H1; reflexivity |].
    apply elem_of_cons in Hin as [-> | Hin]; [apply H2; reflexivity |].
    apply elem_of_cons in Hin as [-> | Hin]; [apply H3; reflexivity |].
    exact (Hout Hin).
Qed.

(** C8. A storage type gets the descriptor that the table holds for it, and
    the empty descriptor when it is not a key of the table; the seven keys
    have the durability 99.999999999% and the availability 99.99% (s3_standard),
    99.9% (s3_ia), N/A (s3_glacier) and 99.95% (the four GCP classes).  The
    verdict on availability is the lexicographic comparison of the two
    availability strings, each ['0%'] when the type has no descriptor: ['AWS
    superior'] exactly when the string of AWS is greater, ['GCP superior']
    otherwise. *)
Theorem storage_characteristics_spec (aws_type gcp_type : value) :
  let r := _analyze_storage_characteristics aws_type gcp_type in
  (forall s d, aws_type = VStr s -> storage_characteristics !! s = Some d ->
               aws_characteristics r = d) /\
  (forall s d, gcp_type = VStr s -> storage_characteristics !! s = Some d ->
               gcp_characteristics r = d) /\
  (forall s, aws_type = VStr s -> s ∉ storage_types -> aws_characteristics r = ∅) /\
  (forall s, gcp_type = VStr s -> s ∉ storage_types -> gcp_characteristics r = ∅) /\
  (forall s, s ∈ storage_types ->
             exists d, storage_characteristics !! s = Some d /\
                       d !! "durability" = Some "99.999999999%" /\
                       d !! "availability" = Some (availability_of (VStr s))) /\
  availability (aws_characteristics r) = availability_of aws_type /\
  availability (gcp_characteristics r) = availability_of gcp_type /\
  (comparison_availability r = "AWS superior" <->
     lex_gt (availability_of aws_type) (availability_of gcp_type)) /\
  (comparison_availability r = "GCP superior" <->
     ~ lex_gt (availability_of aws_type) (availability_of gcp_type)).
Proof.
  cbv zeta. unfold _analyze_storage_characteristics.
  cbn [aws_characteristics gcp_characteristics comparison_availability].
  split; [| split; [| split; [| split; [| split; [| split; [| split]]]]]].
  - intros s d -> Hd. cbn [lookup_characteristics]. rewrite Hd. reflexivity.
  - intros s d -> Hd. cbn [lookup_characteristics]. rewrite Hd. reflexivity.
  - intros s -> Hs. cbn. rewrite unknown_storage_type by exact Hs. reflexivity.
  - intros s -> Hs. cbn. rewrite unknown_storage_type by exact Hs. reflexivity.
  - intros s Hs. unfold storage_types in Hs.
    repeat (apply elem_of_cons in Hs as [-> | Hs];
            [eexists; split; [vm_compute; reflexivity | split; reflexivity] |]).
    apply elem_of_nil in Hs. contradiction.
  - apply availability_column.
  - apply availability_column.
  - fold (availability (lookup_characteristics aws_type)).
    fold (availability (lookup_characteristics gcp_type)).
    rewrite !availability_column, <- str_gt_lex.
    destruct (str_gt _ _); split; split; intros H; try reflexivity;
      try discriminate H; congruence.
Qed.

Lemma storage_characteristics_spec_witness :
  let r := _analyze_storage_characteristics (VStr "s3_standard") (VStr "standard") in
  aws_characteristics r = descriptor "99.999999999%" "99.99%" "Acesso frequente" /\
  gcp_characteristics r = descriptor "99.999999999%" "99.95%" "Acesso frequente" /\
  comparison_availability r = "AWS superior" /\
  aws_characteristics (_analyze_storage_characteristics (VStr "efs") (VStr "standard")) = ∅ /\
  comparison_availability (_analyze_storage_characteristics (VStr "efs") (VStr "standard"))
  = "GCP superior".
Proof.
  cbv zeta.
  destruct (storage_characteristics_spec (VStr "s3_standard") (VStr "standard"))
    as [Haws [Hgcp [_ [_ [_ [_ [_ [Hverdict _]]]]]]]].
  destruct (storage_characteristics_spec (VStr "efs") (VStr "standard"))
    as [_ [_ [Hunknown [_ [_ [_ [_ [_ Hother]]]]]]]].
  split; [apply (Haws "s3_standard"); [reflexivity | vm_compute; reflexivity] |].
  split; [apply (Hgcp "standard"); [reflexivity | vm_compute; reflexivity] |].
  split; [apply Hverdict; rewrite <- str_gt_lex; vm_compute; reflexivity |].
  split.
  - apply (Hunknown "efs"); [reflexivity |].
    intros H. apply list_elem_of_In in H. cbn in H. intuition discriminate.
  - apply Hother. rewrite <- str_gt_lex. vm_compute. discriminate.
Defined.

(** The order is that of the strings, not of the percentages: ['N/A'] is an
    availability greater than ['99.95%']. *)
Example glacier_availability :
  comparison_availability
    (_analyze_storage_characteristics (VStr "s3_glacier") (VStr "standard"))
  = "AWS superior".
Proof. vm_compute. reflexivity. Qed.

Example standard_availability :
  comparison_availability
    (_analyze_storage_characteristics (VStr "s3_standard") (VStr "standard"))
  = "AWS superior".
Proof. vm_compute. reflexivity. Qed.

(** ** Migration estimate *)

Example split_example :
  split "  move the   billing service to another cloud " =
  ["move"; "the"; "billing"; "service"; "to"; "another"; "cloud"].
Proof. vm_compute. reflexivity. Qed.

Lemma budget_factor_default (budget : string) :
  budget <> "tight" -> budget <> "moderate" -> budget <> "flexible" ->
  budget_multipliers !! budget = None.
Proof.
  intros Ht Hm Hf. unfold budget_multipliers.
  rewrite !lookup_insert_ne by congruence.
  apply lookup_singleton_ne. congruence.
Qed.

(** C9. With complexity [word_count / 10], the estimate is in the bucket
    Baixa (low) below 2, Média (medium) from 2 and below 5, Alta (high) from
    5 on, and its cost is the base cost of the bucket, 5000, 15000 or 35000,
    times the factor of the budget constraint: 0.7 for tight, 1.0 for
    moderate, 1.3 for flexible and 1.0 for any other value. *)
Theorem migration_estimate_spec
    (current_provider target_provider workload_description budget_constraints : string) :
  let complexity := inject_Z (Z.of_nat (word_count workload_description)) / 10 in
  let r := generate_migration_recommendation
             current_provider target_provider workload_description budget_constraints in
  exists factor : Q,
    (budget_constraints = "tight" -> factor = 0.7) /\
    (budget_constraints = "moderate" -> factor = 1.0) /\
    (budget_constraints = "flexible" -> factor = 1.3) /\
    (budget_constraints <> "tight" -> budget_constraints <> "moderate" ->
     budget_constraints <> "flexible" -> factor = 1.0) /\
    (complexity < 2 ->
       complexity_level r = "Baixa" /\ estimated_cost r = 5000 * factor) /\
    (2 <= complexity -> complexity < 5 ->
       complexity_level r = "Média" /\ estimated_cost r = 15000 * factor) /\
    (5 <= complexity ->
       complexity_level r = "Alta" /\ estimated_cost r = 35000 * factor).
Proof.
  cbv zeta. exists (default 1.0 (budget_multipliers !! budget_constraints)).
  split; [intros ->; reflexivity |].
  split; [intros ->; reflexivity |].
  split; [intros ->; reflexivity |].
  split.
  { intros Ht Hm Hf. rewrite budget_factor_default by assumption. reflexivity. }
  unfold generate_migration_recommendation. fold (word_count workload_description).
  set (complexity := inject_Z (Z.of_nat (word_count workload_description)) / 10).
  case_Qltb complexity 2; [| case_Qltb complexity 5].
  - split; [intros _; split; reflexivity |].
    split; intros; exfalso; lra.
  - split; [intros; exfalso; lra |].
    split; [intros _ _; split; reflexivity |].
    intros; exfalso; lra.
  - split; [intros; exfalso; lra |].
    split; [intros; exfalso; lra |].
    intros _; split; reflexivity.
Qed.

(** A description of 25 words on a tight budget: complexity 2.5, the medium
    bucket, and a cost of 15000 * 0.7. *)
Example migration_example :
  let r := generate_migration_recommendation "aws" "gcp"
             "a b c d e f g h i j k l m n o p q r s t u v w x y" "tight" in
  complexity_level r = "Média" /\ estimated_cost r == 10500.
Proof. vm_compute. split; reflexivity. Qed.

(** ** Equal costs *)

Lemma py_max_equal (a b : Q) : a == b -> py_max a b = a.
Proof.
  intros Hab. destruct (py_max_cases a b) as [[Hlt _] | [_ Hm]]; [lra | exact Hm].
Qed.

(** Where both providers quote the same non-zero cost, the comparators name
    gcp as the cheaper side, with a difference of 0. *)
Lemma compute_tie_names_gcp (aws_data gcp_data wl : gmap string value) (a b : Q) :
  get_num aws_data "price_per_month" = Ok a ->
  get_num gcp_data "price_per_month" = Ok b ->
  a == b -> ~ a == 0 ->
  exists r, compare_compute_instances aws_data gcp_data wl = Ok r /\
            cc_cost_savings_provider r = gcp /\ cc_cost_difference r == 0.
Proof.
  intros Haws Hgcp Hab Hnz.
  assert (Hmax : ~ py_max a b == 0) by (rewrite py_max_equal; assumption).
  destruct (compare_compute_Ok _ _ wl _ _ Haws Hgcp Hmax) as [r [Hr Ho]].
  exists r. split; [exact Hr |].
  rewrite (co_savings_provider _ _ _ _ Ho), (co_difference _ _ _ _ Ho).
  case_Qltb a b; [lra |]. split; [reflexivity |].
  apply Qabs_case; intros; lra.
Qed.

Lemma storage_tie_names_gcp (aws_data gcp_data : gmap string value) (a b : Q) :
  get_num aws_data "price_per_gb_month" = Ok a ->
  get_num gcp_data "price_per_gb_month" = Ok b ->
  a == b -> ~ a == 0 ->
  exists r, compare_storage_options aws_data gcp_data = Ok r /\
            st_cost_savings_provider r = gcp /\ st_cost_difference r == 0.
Proof.
  intros Haws Hgcp Hab Hnz.
  assert (Hmax : ~ py_max a b == 0) by (rewrite py_max_equal; assumption).
  destruct (compare_storage_Ok _ _ _ _ Haws Hgcp Hmax) as [r [Hr Ho]].
  exists r. split; [exact Hr |].
  rewrite (so_savings_provider _ _ _ _ _ Ho), (so_difference _ _ _ _ _ Ho).
  case_Qltb a b; [lra |]. split; [reflexivity |].
  apply Qabs_case; intros; lra.
Qed.

(** The same for two equal non-zero TCOs. *)
Lemma tco_tie_names_gcp
    (compute_costs storage_costs additional_services : gmap string value)
    (m : provider -> monthly_costs) (h : Z) :
  (forall p, get_num compute_costs (provider_key p) = Ok (mc_compute (m p))) ->
  (forall p, get_num storage_costs (provider_key p) = Ok (mc_storage (m p))) ->
  (forall p, get_num additional_services (provider_key p) = Ok (mc_additional (m p))) ->
  projected_tco aws (m aws) h == projected_tco gcp (m gcp) h ->
  ~ projected_tco aws (m aws) h == 0 ->
  exists r, calculate_tco compute_costs storage_costs additional_services h = Ok r /\
            savings_provider r = gcp /\ savings r == 0.
Proof.
  intros Hc Hs Ha Hab Hnz.
  assert (Hmax : ~ py_max (projected_tco aws (m aws) h) (projected_tco gcp (m gcp) h) == 0)
    by (rewrite py_max_equal; assumption).
  destruct (calculate_tco_Ok _ _ _ m h Hc Hs Ha Hmax) as [r [Hr Ho]].
  exists r. split; [exact Hr |].
  assert (Haws : aws_tco r = projected_tco aws (m aws) h).
  { change (aws_tco r) with (tco_of r aws).
    rewrite (to_tco _ _ _ Ho aws), (to_total _ _ _ Ho), (to_operational _ _ _ Ho),
      (to_compute _ _ _ Ho), (to_storage _ _ _ Ho), (to_additional _ _ _ Ho).
    reflexivity. }
  assert (Hgcp : gcp_tco r = projected_tco gcp (m gcp) h).
  { change (gcp_tco r) with (tco_of r gcp).
    rewrite (to_tco _ _ _ Ho gcp), (to_total _ _ _ Ho), (to_operational _ _ _ Ho),
      (to_compute _ _ _ Ho), (to_storage _ _ _ Ho), (to_additional _ _ _ Ho).
    reflexivity. }
  rewrite (to_savings_provider _ _ _ Ho), (to_savings _ _ _ Ho), Haws, Hgcp.
  case_Qltb (projected_tco aws (m aws) h) (projected_tco gcp (m gcp) h); [lra |].
  split; [reflexivity |]. apply Qabs_case; intros; lra.
Qed.

(** C10. With both costs zero no cheaper side is named: each of the three
    operations raises [ZeroDivisionError] at its savings percentage before it
    returns a result. *)
Theorem zero_tie_raises :
  compare_compute_instances
    {[ "price_per_month" := VNum 0 ]} {[ "price_per_month" := VNum 0 ]} ∅
    = Raise ZeroDivisionError /\
  compare_storage_options
    {[ "price_per_gb_month" := VNum 0 ]} {[ "price_per_gb_month" := VNum 0 ]}
    = Raise ZeroDivisionError /\
  calculate_tco {[ "aws" := VNum 0; "gcp" := VNum 0 ]}
                {[ "aws" := VNum 0; "gcp" := VNum 0 ]}
                {[ "aws" := VNum 0; "gcp" := VNum 0 ]} 36
    = Raise ZeroDivisionError.
Proof.
  split; [| split].
  - apply (compare_compute_raises _ _ _ 0 0); reflexivity.
  - apply (compare_storage_raises _ _ 0 0); reflexivity.
  - apply (calculate_tco_raises _ _ _ (fun _ => mk_monthly_costs 0 0 0) 36);
      try (intros []; reflexivity).
    reflexivity.
Qed.

(** * Further properties of the engine *)

(** ** Comparisons respect equality of numbers *)

Lemma Qltb_proper (a a' b b' : Q) : a == a' -> b == b' -> Qltb a b = Qltb a' b'.
Proof.
  intros Ha Hb. case_Qltb a b; symmetry.
  - apply Qltb_lt. rewrite <- Ha, <- Hb. assumption.
  - apply Qltb_ge. rewrite <- Ha, <- Hb. assumption.
Qed.


(** ** The cost score orders the providers by cost *)

Lemma share_lt (a b : Q) :
  0 < a + b -> (a / (a + b) * 10 < b / (a + b) * 10 <-> a < b).
Proof.
  intros Hpos.
  assert (Ht : 0 < / (a + b)) by (apply Qinv_lt_0_compat; exact Hpos).
  unfold Qdiv. split; intros H.
  - destruct (Qlt_le_dec a b) as [Hlt | Hle]; [exact Hlt | exfalso].
    assert (b * / (a + b) <= a * / (a + b)) by (apply Qmult_le_compat_r; lra).
    lra.
  - assert (a * / (a + b) < b * / (a + b)) by (apply Qmult_lt_compat_r; assumption).
    lra.
Qed.

(** X1. For two non-negative costs that are not both zero the cost score
    ranks the providers by cost: aws scores strictly higher exactly when aws
    is strictly cheaper, the scores are equal exactly when the costs are, and
    exchanging the two costs exchanges the two scores. *)
Theorem cost_score_favours_cheaper (a b : Q)
    (Ha : 0 <= a) (Hb : 0 <= b) (Hnz : ~ (a == 0 /\ b == 0)) :
  exists s s',
    _calculate_cost_score a b = Ok s /\
    _calculate_cost_score b a = Ok s' /\
    (s.[gcp] < s.[aws] <-> a < b) /\
    (s.[aws] < s.[gcp] <-> b < a) /\
    (s.[aws] == s.[gcp] <-> a == b) /\
    s'.[aws] == s.[gcp] /\ s'.[gcp] == s.[aws].
Proof.
  assert (Hsum : ~ a + b == 0) by (intros Hz; apply Hnz; split; lra).
  assert (Hsum' : ~ b + a == 0) by (intros Hz; apply Hnz; split; lra).
  assert (Hpos : 0 < a + b) by lra.
  assert (Hpos' : 0 < b + a) by lra.
  do 2 eexists.
  split; [apply cost_score_share; exact Hsum |].
  split; [apply cost_score_share; exact Hsum' |].
  cbn [score_at aws_score gcp_score].
  pose proof (share_lt a b Hpos) as Hab.
  pose proof (share_lt b a Hpos') as Hba.
  assert (Hcomm : a / (b + a) * 10 == a / (a + b) * 10) by (field; exact Hsum).
  assert (Hcomm' : b / (b + a) * 10 == b / (a + b) * 10) by (field; exact Hsum).
  rewrite Hcomm, Hcomm' in Hba.
  split; [exact Hab |]. split; [exact Hba |].
  split; [| split; [exact Hcomm | exact Hcomm']].
  split; intros Heq.
  - destruct (Qlt_le_dec a b) as [Hlt | Hle].
    + apply Hab in Hlt. lra.
    + destruct (Qlt_le_dec b a) as [Hlt' | Hle']; [apply Hba in Hlt'; lra | lra].
  - destruct (Qlt_le_dec (a / (a + b) * 10) (b / (a + b) * 10)) as [Hlt | Hle].
    + apply Hab in Hlt. lra.
    + destruct (Qlt_le_dec (b / (a + b) * 10) (a / (a + b) * 10)) as [Hlt' | Hle'];
        [apply Hba in Hlt'; lra | lra].
Qed.

Lemma cost_score_favours_cheaper_witness :
  exists s s',
    _calculate_cost_score 100 150 = Ok s /\
    _calculate_cost_score 150 100 = Ok s' /\
    s.[gcp] < s.[aws] /\ s'.[aws] == s.[gcp] /\ s'.[gcp] == s.[aws].
Proof.
  destruct (cost_score_favours_cheaper 100 150) as [s [s' [Hs [Hs' [Hlt [_ [_ [H1 H2]]]]]]]].
  - lra.
  - lra.
  - intros [H _]. discriminate H.
  - exists s, s'. split; [exact Hs |]. split; [exact Hs' |].
    split; [apply Hlt; reflexivity |]. split; [exact H1 | exact H2].
Defined.

(** ** Changing the unit of cost *)



Lemma Qltb_scale (k a b : Q) : 0 < k -> Qltb (k * a) (k * b) = Qltb a b.
Proof.
  intros Hk. case_Qltb a b.
  - apply Qltb_lt. rewrite !(Qmult_comm k). apply Qmult_lt_compat_r; assumption.
  - apply Qltb_ge. rewrite !(Qmult_comm k). apply Qmult_le_compat_r; lra.
Qed.




(** ** Who wins, and by how much *)

Lemma performance_score_cases (p1 p2 : string) (wl : gmap string value) :
  (wl !! "type" = Some (VStr "compute_intensive") /\
   _calculate_performance_score p1 p2 wl = {| aws_score := 8.5; gcp_score := 9.0 |}) \/
  (wl !! "type" = Some (VStr "data_intensive") /\
   _calculate_performance_score p1 p2 wl = {| aws_score := 9.2; gcp_score := 8.8 |}) \/
  (wl !! "type" <> Some (VStr "compute_intensive") /\
   wl !! "type" <> Some (VStr "data_intensive") /\
   _calculate_performance_score p1 p2 wl = {| aws_score := 8.8; gcp_score := 8.9 |}).
Proof.
  unfold _calculate_performance_score, get_val.
  destruct (wl !! "type") as [v |].
  - destruct (value_is v "compute_intensive") eqn:Hc.
    + apply value_is_true in Hc. subst v. left. split; reflexivity.
    + destruct (value_is v "data_intensive") eqn:Hd.
      * apply value_is_true in Hd. subst v. right. left. split; reflexivity.
      * apply value_is_false in Hc, Hd. right. right.
        repeat split; congruence.
  - right. right. repeat split; discriminate.
Qed.

(** The gap between the two final scores, in the cost and performance scores. *)
Lemma final_gap (a b : Q) (wl : gmap string value) (r : compute_comparison) :
  compute_outcome a b wl r ->
  sc_final (cc_scores r aws) - sc_final (cc_scores r gcp) ==
    0.35 * (sc_cost (cc_scores r aws) - sc_cost (cc_scores r gcp))
    + 0.25 * (sc_performance (cc_scores r aws) - sc_performance (cc_scores r gcp))
    + 0.035.
Proof.
  intros Ho. rewrite !(co_final _ _ _ _ Ho).
  rewrite !(co_scalability _ _ _ _ Ho), !(co_reliability _ _ _ _ Ho),
    !(co_maintenance _ _ _ _ Ho).
  cbn [weights provider_characteristics scalability_score reliability_score
       maintenance_score]. ring.
Qed.

Lemma winner_aws_iff (a b : Q) (wl : gmap string value) (r : compute_comparison) :
  compute_outcome a b wl r ->
  (winner (cc_recommendation r) = aws <->
   sc_final (cc_scores r gcp) < sc_final (cc_scores r aws)).
Proof.
  intros Ho. rewrite (co_winner _ _ _ _ Ho).
  case_Qltb (sc_final (cc_scores r gcp)) (sc_final (cc_scores r aws)).
  - split; [intros _; assumption | reflexivity].
  - split; [discriminate | intros H; lra].
Qed.

Lemma div_pos_iff (x d : Q) : 0 < d -> (0 < x / d <-> 0 < x).
Proof.
  intros Hd. split; intros H.
  - assert (Hx : x == x / d * d) by (field; lra).
    rewrite Hx. apply Qmult_lt_0_compat; assumption.
  - apply Qlt_shift_div_l; lra.
Qed.

(** In exact arithmetic the winner is decided by the ratio of the two costs
    alone, with a threshold for each workload type: aws wins exactly when
    [359 * aws < 341 * gcp] for compute-intensive work, when
    [673 * aws < 727 * gcp] for data-intensive work and when
    [349 * aws < 351 * gcp] for any other work; gcp wins otherwise.  On a
    threshold the two final scores tie, and binary64 rounding decides the
    program's answer (see [tie_351_349]). *)
Lemma winner_by_cost_exact (aws_data gcp_data wl : gmap string value) (a b : Q)
    (Haws : get_num aws_data "price_per_month" = Ok a)
    (Hgcp : get_num gcp_data "price_per_month" = Ok b)
    (Ha : 0 <= a) (Hb : 0 <= b) (Hnz : ~ (a == 0 /\ b == 0)) :
  exists r, compare_compute_instances aws_data gcp_data wl = Ok r /\
    (wl !! "type" = Some (VStr "compute_intensive") ->
       (winner (cc_recommendation r) = aws <-> 359 * a < 341 * b)) /\
    (wl !! "type" = Some (VStr "data_intensive") ->
       (winner (cc_recommendation r) = aws <-> 673 * a < 727 * b)) /\
    (wl !! "type" <> Some (VStr "compute_intensive") ->
     wl !! "type" <> Some (VStr "data_intensive") ->
       (winner (cc_recommendation r) = aws <-> 349 * a < 351 * b)) /\
    (winner (cc_recommendation r) <> aws -> winner (cc_recommendation r) = gcp).
Proof.
  assert (Hmax : ~ py_max a b == 0) by (rewrite py_max_nonneg_zero; assumption).
  destruct (compare_compute_Ok _ _ wl _ _ Haws Hgcp Hmax) as [r [Hr Ho]].
  exists r. split; [exact Hr |].
  assert (Hsum : ~ a + b == 0) by (intros Hz; apply Hnz; split; lra).
  assert (Hpos : 0 < a + b) by lra.
  pose proof (co_cost _ _ _ _ Ho) as Hcost.
  rewrite cost_score_share in Hcost by exact Hsum.
  injection Hcost as Hca Hcg.
  pose proof (final_gap _ _ _ _ Ho) as Hgap.
  rewrite <- Hca, <- Hcg, !(co_performance _ _ _ _ Ho) in Hgap.
  assert (Hother : winner (cc_recommendation r) <> aws ->
                   winner (cc_recommendation r) = gcp).
  { destruct (winner (cc_recommendation r)); [intros H; exfalso; apply H |]; reflexivity. }
  pose proof (winner_aws_iff _ _ _ _ Ho) as Hw.
  assert (Hlt : forall x,
            sc_final (cc_scores r aws) - sc_final (cc_scores r gcp) == x / (a + b) ->
            (sc_final (cc_scores r gcp) < sc_final (cc_scores r aws) <-> 0 < x)).
  { intros x Hx. rewrite <- (div_pos_iff x (a + b) Hpos), <- Hx. split; intros; lra. }
  destruct (performance_score_cases "aws" "gcp" wl)
    as [[Hty Hp] | [[Hty Hp] | [Hn1 [Hn2 Hp]]]];
    rewrite Hp in Hgap; cbn [score_at aws_score gcp_score] in Hgap.
  - assert (Hx : sc_final (cc_scores r aws) - sc_final (cc_scores r gcp)
                 == (3.41 * b - 3.59 * a) / (a + b)) by (rewrite Hgap; field; exact Hsum).
    apply Hlt in Hx.
    split; [intros _; rewrite Hw, Hx; split; intros; lra |].
    split; [intros Hd; rewrite Hty in Hd; discriminate Hd |].
    split; [intros Hc; contradiction |].
    exact Hother.
  - assert (Hx : sc_final (cc_scores r aws) - sc_final (cc_scores r gcp)
                 == (3.635 * b - 3.365 * a) / (a + b)) by (rewrite Hgap; field; exact Hsum).
    apply Hlt in Hx.
    split; [intros Hc; rewrite Hty in Hc; discriminate Hc |].
    split; [intros _; rewrite Hw, Hx; split; intros; lra |].
    split; [intros _ Hd; contradiction |].
    exact Hother.
  - assert (Hx : sc_final (cc_scores r aws) - sc_final (cc_scores r gcp)
                 == (3.51 * b - 3.49 * a) / (a + b)) by (rewrite Hgap; field; exact Hsum).
    apply Hlt in Hx.
    split; [intros Hc; contradiction |].
    split; [intros Hd; contradiction |].
    split; [intros _ _; rewrite Hw, Hx; split; intros; lra |].
    exact Hother.
Qed.

(** X3. For non-negative costs that are not both zero the winner of the
    compute comparison follows the ratio of the two costs, with a threshold
    for each workload type that lies near 95% (compute-intensive), 108%
    (data-intensive) and 100.6% (any other work) of the cost of gcp.  With a
    margin of one percent, far wider than the rounding of the scores:
    for compute-intensive work aws wins when its cost is at most 94% of
    gcp's and gcp wins from 96% on; for data-intensive work aws wins up to
    107% and gcp from 109% on; for any other work aws wins whenever it is
    not the dearer one and gcp from 101% on. *)
Theorem compute_winner_by_cost (aws_data gcp_data wl : gmap string value) (a b : Q)
    (Haws : get_num aws_data "price_per_month" = Ok a)
    (Hgcp : get_num gcp_data "price_per_month" = Ok b)
    (Ha : 0 <= a) (Hb : 0 <= b) (Hnz : ~ (a == 0 /\ b == 0)) :
  exists r, compare_compute_instances aws_data gcp_data wl = Ok r /\
    (wl !! "type" = Some (VStr "compute_intensive") ->
       (100 * a <= 94 * b -> winner (cc_recommendation r) = aws) /\
       (96 * b <= 100 * a -> winner (cc_recommendation r) = gcp)) /\
    (wl !! "type" = Some (VStr "data_intensive") ->
       (100 * a <= 107 * b -> winner (cc_recommendation r) = aws) /\
       (109 * b <= 100 * a -> winner (cc_recommendation r) = gcp)) /\
    (wl !! "type" <> Some (VStr "compute_intensive") ->
     wl !! "type" <> Some (VStr "data_intensive") ->
       (a <= b -> winner (cc_recommendation r) = aws) /\
       (101 * b <= 100 * a -> winner (cc_recommendation r) = gcp)).
Proof.
  destruct (winner_by_cost_exact _ _ wl _ _ Haws Hgcp Ha Hb Hnz)
    as [r [Hr [Hcompute [Hdata [Hgeneral Hother]]]]].
  exists r. split; [exact Hr |].
  assert (Hpos : 0 < a \/ 0 < b).
  { destruct (Qlt_le_dec 0 a) as [H | H]; [left; exact H |].
    destruct (Qlt_le_dec 0 b) as [H' | H']; [right; exact H' |].
    exfalso. apply Hnz. split; lra. }
  split; [| split].
  - intros Hty. specialize (Hcompute Hty). split; intros Hratio.
    + apply Hcompute. destruct Hpos; lra.
    + apply Hother. intros Hw. apply Hcompute in Hw. destruct Hpos; lra.
  - intros Hty. specialize (Hdata Hty). split; intros Hratio.
    + apply Hdata. destruct Hpos; lra.
    + apply Hother. intros Hw. apply Hdata in Hw. destruct Hpos; lra.
  - intros Hn1 Hn2. specialize (Hgeneral Hn1 Hn2). split; intros Hratio.
    + apply Hgeneral. destruct Hpos; lra.
    + apply Hother. intros Hw. apply Hgeneral in Hw. destruct Hpos; lra.
Qed.

Lemma compute_winner_by_cost_witness :
  exists r,
    compare_compute_instances
      {[ "price_per_month" := VNum 100 ]} {[ "price_per_month" := VNum 100 ]} ∅ = Ok r /\
    winner (cc_recommendation r) = aws.
Proof.
  destruct (compute_winner_by_cost
              {[ "price_per_month" := VNum 100 ]} {[ "price_per_month" := VNum 100 ]} ∅
              100 100) as [r [Hr [_ [_ Hgeneral]]]].
  - reflexivity.
  - reflexivity.
  - lra.
  - lra.
  - intros [H _]. discriminate H.
  - exists r. split; [exact Hr |].
    apply Hgeneral; [vm_compute; discriminate | vm_compute; discriminate | lra].
Defined.

(** In exact arithmetic the confidence of the compute comparison is at most
    0.3635, the value it takes for data-intensive work when aws is free and
    gcp is not (0.36350000000000005 in binary64, see [confidence_0_150]). *)
Lemma confidence_cap_exact :
  (forall (aws_data gcp_data wl : gmap string value) (a b : Q) (r : compute_comparison),
     get_num aws_data "price_per_month" = Ok a ->
     get_num gcp_data "price_per_month" = Ok b ->
     0 <= a -> 0 <= b ->
     compare_compute_instances aws_data gcp_data wl = Ok r ->
     confidence (cc_recommendation r) <= 0.3635) /\
  (forall (aws_data gcp_data wl : gmap string value) (b : Q),
     get_num aws_data "price_per_month" = Ok 0 ->
     get_num gcp_data "price_per_month" = Ok b ->
     0 < b ->
     wl !! "type" = Some (VStr "data_intensive") ->
     exists r, compare_compute_instances aws_data gcp_data wl = Ok r /\
               confidence (cc_recommendation r) == 0.3635).
Proof.
  split.
  - intros aws_data gcp_data wl a b r Haws Hgcp Ha Hb Hr.
    destruct (compare_compute_Ok_inv _ _ wl _ _ Haws Hgcp r Hr) as [_ Ho].
    pose proof (cost_score_bounds a b _ aws Ha Hb (co_cost _ _ _ _ Ho)) as Hca.
    pose proof (cost_score_bounds a b _ gcp Ha Hb (co_cost _ _ _ _ Ho)) as Hcg.
    cbn [score_at aws_score gcp_score] in Hca, Hcg.
    pose proof (final_gap _ _ _ _ Ho) as Hgap.
    rewrite !(co_performance _ _ _ _ Ho) in Hgap.
    rewrite (co_confidence _ _ _ _ Ho).
    apply Qle_shift_div_r; [lra |].
    apply Qabs_Qle_condition.
    destruct (performance_score_cases "aws" "gcp" wl)
      as [[_ Hp] | [[_ Hp] | [_ [_ Hp]]]];
      rewrite Hp in Hgap; cbn [score_at aws_score gcp_score] in Hgap; lra.
  - intros aws_data gcp_data wl b Haws Hgcp Hb Hty.
    assert (Hmax : ~ py_max 0 b == 0) by (rewrite py_max_nonneg_zero; lra).
    destruct (compare_compute_Ok _ _ wl _ _ Haws Hgcp Hmax) as [r [Hr Ho]].
    exists r. split; [exact Hr |].
    pose proof (co_cost _ _ _ _ Ho) as Hcost.
    rewrite cost_score_share in Hcost by lra.
    injection Hcost as Hca Hcg.
    pose proof (final_gap _ _ _ _ Ho) as Hgap.
    rewrite <- Hca, <- Hcg, !(co_performance _ _ _ _ Ho) in Hgap.
    destruct (performance_score_cases "aws" "gcp" wl)
      as [[Hty' _] | [[_ Hp] | [_ [Hn _]]]]; [congruence | | contradiction].
    rewrite Hp in Hgap. cbn [score_at aws_score gcp_score] in Hgap.
    assert (Hval : sc_final (cc_scores r aws) - sc_final (cc_scores r gcp) == 3.635)
      by (rewrite Hgap; field; lra).
    rewrite (co_confidence _ _ _ _ Ho), Hval. reflexivity.
Qed.

Example confidence_0_150 :
  Binary64.compute_confidence 0 150 {[ "type" := VStr "data_intensive" ]}
  = 0x1.74395810624dep-2%float.
Proof. vm_compute. reflexivity. Qed.

(** X4. The confidence of the compute comparison never comes near 1: for
    non-negative costs it stays below 0.364, and it is above 0.363 for
    data-intensive work when aws is free and gcp is not. *)
Theorem compute_confidence_cap :
  (forall (aws_data gcp_data wl : gmap string value) (a b : Q) (r : compute_comparison),
     get_num aws_data "price_per_month" = Ok a ->
     get_num gcp_data "price_per_month" = Ok b ->
     0 <= a -> 0 <= b ->
     compare_compute_instances aws_data gcp_data wl = Ok r ->
     confidence (cc_recommendation r) < 0.364) /\
  (forall (aws_data gcp_data wl : gmap string value) (b : Q),
     get_num aws_data "price_per_month" = Ok 0 ->
     get_num gcp_data "price_per_month" = Ok b ->
     0 < b ->
     wl !! "type" = Some (VStr "data_intensive") ->
     exists r, compare_compute_instances aws_data gcp_data wl = Ok r /\
               0.363 < confidence (cc_recommendation r)).
Proof.
  destruct confidence_cap_exact as [Hcap Hreached].
  split.
  - intros aws_data gcp_data wl a b r Haws Hgcp Ha Hb Hr.
    pose proof (Hcap _ _ _ _ _ _ Haws Hgcp Ha Hb Hr) as H. lra.
  - intros aws_data gcp_data wl b Haws Hgcp Hb Hty.
    destruct (Hreached _ _ _ _ Haws Hgcp Hb Hty) as [r [Hr Hval]].
    exists r. split; [exact Hr |]. rewrite Hval. reflexivity.
Qed.

Lemma compute_confidence_cap_witness :
  exists r,
    compare_compute_instances
      {[ "price_per_month" := VNum 0 ]} {[ "price_per_month" := VNum 150 ]}
      {[ "type" := VStr "data_intensive" ]} = Ok r /\
    0.363 < confidence (cc_recommendation r) < 0.364.
Proof.
  destruct compute_confidence_cap as [Hcap Hreached].
  destruct (Hreached {[ "price_per_month" := VNum 0 ]} {[ "price_per_month" := VNum 150 ]}
                     {[ "type" := VStr "data_intensive" ]} 150)
    as [r [Hr Hlow]]; [reflexivity | reflexivity | lra | reflexivity |].
  exists r. split; [exact Hr |]. split; [exact Hlow |].
  apply (Hcap {[ "price_per_month" := VNum 0 ]} {[ "price_per_month" := VNum 150 ]}
              {[ "type" := VStr "data_intensive" ]} 0 150 r);
    [reflexivity | reflexivity | lra | lra | exact Hr].
Defined.

(** ** The reasons of a returned comparison *)

(** X5. Every returned compute comparison gives at least one reason, and it
    gives the reason of scalability exactly when aws is the winner. *)
Theorem primary_reasons_nonempty (aws_data gcp_data wl : gmap string value)
    (r : compute_comparison)
    (Hr : compare_compute_instances aws_data gcp_data wl = Ok r) :
  primary_reasons (cc_recommendation r) <> [] /\
  ("Melhor escalabilidade" ∈ primary_reasons (cc_recommendation r) <->
   winner (cc_recommendation r) = aws).
Proof.
  destruct (compare_compute_reads _ _ _ _ Hr) as [a [b [_ [_ [_ Ho]]]]].
  pose proof (final_gap _ _ _ _ Ho) as Hgap.
  pose proof (winner_aws_iff _ _ _ _ Ho) as Hw.
  rewrite (co_reasons _ _ _ _ Ho), get_primary_reasons_eq.
  rewrite !(co_performance _ _ _ _ Ho) in Hgap.
  destruct (winner (cc_recommendation r)) eqn:Hwin;
    cbn [other_provider score_at aws_score gcp_score _calculate_scalability_score
         provider_characteristics scalability_score].
  - replace (Qltb 9.3 9.5) with true by reflexivity.
    split.
    + intros Hnil. apply app_eq_nil in Hnil as [_ Hnil].
      apply app_eq_nil in Hnil as [_ Hnil]. discriminate Hnil.
    + split; [reflexivity |]. intros _.
      apply elem_of_app. right. apply elem_of_app. right. apply list_elem_of_here.
  - replace (Qltb 9.5 9.3) with false by reflexivity.
    assert (Hle : sc_final (cc_scores r aws) <= sc_final (cc_scores r gcp)).
    { destruct (Qlt_le_dec (sc_final (cc_scores r gcp)) (sc_final (cc_scores r aws)))
        as [Hlt | Hle]; [apply Hw in Hlt; discriminate Hlt | exact Hle]. }
    split.
    + destruct (performance_score_cases "aws" "gcp" wl)
        as [[_ Hp] | [[_ Hp] | [_ [_ Hp]]]];
        rewrite Hp in *; cbn [score_at aws_score gcp_score] in *.
      * replace (Qltb 8.5 9.0) with true by reflexivity.
        intros Hnil. apply app_eq_nil in Hnil as [_ Hnil].
        apply app_eq_nil in Hnil as [Hnil _]. discriminate Hnil.
      * assert (Hcost : Qltb (sc_cost (cc_scores r aws)) (sc_cost (cc_scores r gcp)) = true)
          by (apply Qltb_lt; lra).
        rewrite Hcost. intros Hnil. apply app_eq_nil in Hnil as [Hnil _].
        discriminate Hnil.
      * replace (Qltb 8.8 8.9) with true by reflexivity.
        intros Hnil. apply app_eq_nil in Hnil as [_ Hnil].
        apply app_eq_nil in Hnil as [Hnil _]. discriminate Hnil.
    + split; [| discriminate].
      intros Hin. exfalso.
      repeat match type of Hin with
             | context [reason_if (Qltb ?x ?y) _] => destruct (Qltb x y)
             end;
        cbn in Hin;
        repeat (apply elem_of_cons in Hin as [Hin | Hin]; [discriminate Hin |]);
        apply elem_of_nil in Hin; exact Hin.
Qed.

Lemma primary_reasons_nonempty_witness :
  exists r,
    compare_compute_instances
      {[ "price_per_month" := VNum 150 ]} {[ "price_per_month" := VNum 100 ]}
      {[ "type" := VStr "data_intensive" ]} = Ok r /\
    winner (cc_recommendation r) = gcp /\
    primary_reasons (cc_recommendation r) <> [].
Proof.
  destruct (compare_compute_Ok {[ "price_per_month" := VNum 150 ]}
                               {[ "price_per_month" := VNum 100 ]}
                               {[ "type" := VStr "data_intensive" ]} 150 100)
    as [r [Hr _]]; [reflexivity | reflexivity | vm_compute; discriminate |].
  exists r. split; [exact Hr |].
  split.
  - vm_compute in Hr. injection Hr as <-. reflexivity.
  - apply (primary_reasons_nonempty _ _ _ r Hr).
Defined.

(** ** The savings percentage and the storage recommendation *)

Lemma Qabs_div_pos (x d : Q) : 0 < d -> Qabs (x / d) == Qabs x / d.
Proof.
  intros Hd. unfold Qdiv. rewrite Qabs_Qmult, (Qabs_pos (/ d)); [reflexivity |].
  apply Qlt_le_weak, Qinv_lt_0_compat, Hd.
Qed.

Lemma div_ge_iff (c x d : Q) : 0 < d -> (c <= x / d <-> c * d <= x).
Proof.
  intros Hd. assert (Hx : x == x / d * d) by (field; lra).
  split; intros H.
  - rewrite Hx. apply Qmult_le_compat_r; lra.
  - apply Qle_shift_div_l; assumption.
Qed.

Lemma div_le_iff (c x d : Q) : 0 < d -> (x / d <= c <-> x <= c * d).
Proof.
  intros Hd. assert (Hx : x == x / d * d) by (field; lra).
  split; intros H.
  - rewrite Hx. apply Qmult_le_compat_r; lra.
  - apply Qle_shift_div_r; assumption.
Qed.

(** A share [x / d] of a positive [d], as a percentage. *)
Lemma percentage_facts (x d : Q) :
  0 < d -> 0 <= x <= d ->
  0 <= x / d * 100 <= 100 /\
  (x / d * 100 == 0 <-> x == 0) /\
  (x / d * 100 == 100 <-> x == d) /\
  (20 <= x / d * 100 <-> d <= 5 * x).
Proof.
  intros Hd [Hx0 Hxd].
  pose proof (div_ge_iff 0 x d Hd) as H0.
  pose proof (div_le_iff 1 x d Hd) as H1.
  pose proof (div_le_iff 0 x d Hd) as H0'.
  pose proof (div_ge_iff 1 x d Hd) as H1'.
  pose proof (div_ge_iff (1 # 5) x d Hd) as H5.
  assert (0 <= x / d) by (apply H0; lra).
  assert (x / d <= 1) by (apply H1; lra).
  split; [lra |].
  split; [| split].
  - split; intros Hz.
    + assert (x / d <= 0) by lra. apply H0' in H3. lra.
    + assert (x / d <= 0) by (apply H0'; lra). lra.
  - split; intros Hz.
    + assert (1 <= x / d) by lra. apply H1' in H3. lra.
    + assert (1 <= x / d) by (apply H1'; lra). lra.
  - split; intros Hz.
    + assert ((1 # 5) <= x / d) by lra. apply H5 in H3. lra.
    + assert ((1 # 5) <= x / d) by (apply H5; lra). lra.
Qed.

(** The difference of two non-negative costs against the larger one. *)
Lemma difference_facts (a b : Q) :
  0 <= a -> 0 <= b ->
  0 <= Qabs (a - b) <= py_max a b /\
  (Qabs (a - b) == 0 <-> a == b) /\
  (Qabs (a - b) == py_max a b <-> a == 0 \/ b == 0) /\
  (a <= b -> (py_max a b <= 5 * Qabs (a - b) <-> 5 * a <= 4 * b)) /\
  (b <= a -> (py_max a b <= 5 * Qabs (a - b) <-> 5 * b <= 4 * a)).
Proof.
  intros Ha Hb.
  destruct (py_max_cases a b) as [[Hlt ->] | [Hle ->]].
  - assert (Habs : Qabs (a - b) == b - a) by (rewrite Qabs_neg; lra).
    rewrite Habs. repeat split; intros;
      try lra; try (left; lra);
      match goal with H : _ \/ _ |- _ => destruct H; lra end.
  - assert (Habs : Qabs (a - b) == a - b) by (rewrite Qabs_pos; lra).
    rewrite Habs. repeat split; intros;
      try lra; try (right; lra);
      match goal with H : _ \/ _ |- _ => destruct H; lra end.
Qed.

(** X6. For non-negative costs the savings percentage of a returned compute
    or storage comparison lies between 0 and 100; it is 0 exactly when the
    two costs are equal and 100 exactly when one of them is zero. *)
Theorem savings_percentage_bounds :
  (forall (aws_data gcp_data wl : gmap string value) (a b : Q) (r : compute_comparison),
     get_num aws_data "price_per_month" = Ok a ->
     get_num gcp_data "price_per_month" = Ok b ->
     0 <= a -> 0 <= b ->
     compare_compute_instances aws_data gcp_data wl = Ok r ->
     0 <= cc_cost_savings_percentage r <= 100 /\
     (cc_cost_savings_percentage r == 0 <-> a == b) /\
     (cc_cost_savings_percentage r == 100 <-> a == 0 \/ b == 0)) /\
  (forall (aws_data gcp_data : gmap string value) (a b : Q) (r : storage_comparison),
     get_num aws_data "price_per_gb_month" = Ok a ->
     get_num gcp_data "price_per_gb_month" = Ok b ->
     0 <= a -> 0 <= b ->
     compare_storage_options aws_data gcp_data = Ok r ->
     0 <= st_cost_savings_percentage r <= 100 /\
     (st_cost_savings_percentage r == 0 <-> a == b) /\
     (st_cost_savings_percentage r == 100 <-> a == 0 \/ b == 0)).
Proof.
  assert (Hfacts : forall a b, 0 <= a -> 0 <= b -> ~ py_max a b == 0 ->
            0 <= Qabs (a - b) / py_max a b * 100 <= 100 /\
            (Qabs (a - b) / py_max a b * 100 == 0 <-> a == b) /\
            (Qabs (a - b) / py_max a b * 100 == 100 <-> a == 0 \/ b == 0)).
  { intros a b Ha Hb Hnz.
    destruct (difference_facts a b Ha Hb) as [Hd [Hd0 [Hd1 _]]].
    assert (Hpos : 0 < py_max a b).
    { destruct (py_max_cases a b) as [[Hlt Hm] | [Hle Hm]]; rewrite Hm in *; lra. }
    destruct (percentage_facts _ _ Hpos Hd) as [Hp [Hp0 [Hp1 _]]].
    rewrite Hp0, Hp1, Hd0, Hd1. split; [exact Hp |]. split; reflexivity. }
  split.
  - intros aws_data gcp_data wl a b r Haws Hgcp Ha Hb Hr.
    destruct (compare_compute_Ok_inv _ _ wl _ _ Haws Hgcp r Hr) as [Hnz Ho].
    rewrite (co_savings_percentage _ _ _ _ Ho).
    assert (Hpos : 0 < py_max a b).
    { destruct (py_max_cases a b) as [[Hlt Hm] | [Hle Hm]]; rewrite Hm in *; lra. }
    rewrite (Qabs_div_pos _ _ Hpos). apply Hfacts; assumption.
  - intros aws_data gcp_data a b r Haws Hgcp Ha Hb Hr.
    destruct (compare_storage_Ok_inv _ _ _ _ Haws Hgcp r Hr) as [Hnz Ho].
    rewrite (so_savings_percentage _ _ _ _ _ Ho). apply Hfacts; assumption.
Qed.

Lemma savings_percentage_bounds_witness :
  exists r,
    compare_storage_options
      {[ "price_per_gb_month" := VNum 0.023 ]} {[ "price_per_gb_month" := VNum 0 ]} = Ok r /\
    st_cost_savings_percentage r == 100.
Proof.
  destruct savings_percentage_bounds as [_ Hstorage].
  destruct (compare_storage_Ok {[ "price_per_gb_month" := VNum 0.023 ]}
                               {[ "price_per_gb_month" := VNum 0 ]} 0.023 0)
    as [r [Hr _]]; [reflexivity | reflexivity | vm_compute; discriminate |].
  exists r. split; [exact Hr |].
  destruct (Hstorage {[ "price_per_gb_month" := VNum 0.023 ]}
                     {[ "price_per_gb_month" := VNum 0 ]} 0.023 0 r)
    as [_ [_ Hfull]]; [reflexivity | reflexivity | lra | lra | exact Hr |].
  apply Hfull. right. reflexivity.
Defined.

(** In exact arithmetic the confidence of a returned storage comparison is 1
    exactly when the cheaper cost is at most four fifths of the dearer one. *)
Lemma storage_recommendation_exact (aws_data gcp_data : gmap string value) (a b : Q)
    (r : storage_comparison)
    (Haws : get_num aws_data "price_per_gb_month" = Ok a)
    (Hgcp : get_num gcp_data "price_per_gb_month" = Ok b)
    (Ha : 0 <= a) (Hb : 0 <= b)
    (Hr : compare_storage_options aws_data gcp_data = Ok r) :
  (st_winner r = aws <-> a < b) /\
  (st_winner r = gcp <-> b <= a) /\
  (a <= b -> (st_confidence r == 1 <-> 5 * a <= 4 * b)) /\
  (b <= a -> (st_confidence r == 1 <-> 5 * b <= 4 * a)).
Proof.
  destruct (compare_storage_Ok_inv _ _ _ _ Haws Hgcp r Hr) as [Hnz Ho].
  rewrite (so_winner _ _ _ _ _ Ho), (so_savings_provider _ _ _ _ _ Ho).
  split; [| split].
  - case_Qltb a b; split; intros; trivial; try discriminate; lra.
  - case_Qltb a b; split; intros; trivial; try discriminate; lra.
  - destruct (difference_facts a b Ha Hb) as [Hd [_ [_ [Hab Hba]]]].
    assert (Hpos : 0 < py_max a b).
    { destruct (py_max_cases a b) as [[Hlt Hm] | [Hle Hm]]; rewrite Hm in *; lra. }
    destruct (percentage_facts _ _ Hpos Hd) as [Hp [_ [_ H20]]].
    rewrite <- (so_savings_percentage _ _ _ _ _ Ho) in Hp, H20.
    assert (Hconf : st_confidence r == 1 <-> 20 <= st_cost_savings_percentage r).
    { rewrite (so_confidence _ _ _ _ _ Ho).
      destruct (py_min_cases (st_cost_savings_percentage r / 20) 1.0)
        as [[Hlt ->] | [Hle ->]];
        change (st_cost_savings_percentage r / 20)
          with (st_cost_savings_percentage r * (1 # 20)) in *;
        split; intros; lra. }
    split; intros Hle; rewrite Hconf, H20; [apply Hab | apply Hba]; exact Hle.
Qed.

(** In binary64 the prices 0.8 and 1.0 give a saving of 19.999999999999996
    percent and the confidence 0.9999999999999998, and the prices 1.64 and
    2.05 the confidence 1.0. *)
Example storage_confidence_binary64 :
  Binary64.storage_savings_percentage 0.8 1.0 = Some 0x1.3ffffffffffffp+4%float /\
  Binary64.storage_confidence 0.8 1.0 = Some 0x1.ffffffffffffep-1%float /\
  Binary64.storage_confidence 1.64 2.05 = Some 1%float.
Proof. vm_compute. repeat split. Qed.

Lemma storage_confidence_gap (aws_data gcp_data : gmap string value) (a b : Q)
    (r : storage_comparison) :
  get_num aws_data "price_per_gb_month" = Ok a ->
  get_num gcp_data "price_per_gb_month" = Ok b ->
  0 <= a -> 0 <= b ->
  compare_storage_options aws_data gcp_data = Ok r ->
  100 * Qabs (a - b) <= 19 * py_max a b ->
  st_confidence r <= 0.95.
Proof.
  intros Haws Hgcp Ha Hb Hr Hgap.
  destruct (compare_storage_Ok_inv _ _ _ _ Haws Hgcp r Hr) as [Hnz Ho].
  assert (Hpos : 0 < py_max a b).
  { destruct (py_max_cases a b) as [[Hlt Hm] | [Hle Hm]]; rewrite Hm in *; lra. }
  assert (Hratio : Qabs (a - b) / py_max a b <= 19 # 100)
    by (apply Qle_shift_div_r; [exact Hpos | lra]).
  rewrite (so_confidence _ _ _ _ _ Ho), (so_savings_percentage _ _ _ _ _ Ho).
  destruct (py_min_cases (Qabs (a - b) / py_max a b * 100 / 20) 1.0)
    as [[Hlt ->] | [Hle ->]];
    change (Qabs (a - b) / py_max a b * 100 / 20)
      with (Qabs (a - b) / py_max a b * 100 * (1 # 20)) in *; lra.
Qed.

(** X7. A returned storage comparison recommends the strictly cheaper
    provider and gcp on equal costs.  For non-negative costs its confidence
    is full from a saving of one fifth on; with a margin of one percent,
    far wider than the rounding of the percentage: the confidence is 1
    when the cheaper cost is at most 79% of the dearer one, and below 1 when
    it is at least 81% of it. *)
Theorem storage_recommendation_spec (aws_data gcp_data : gmap string value) (a b : Q)
    (r : storage_comparison)
    (Haws : get_num aws_data "price_per_gb_month" = Ok a)
    (Hgcp : get_num gcp_data "price_per_gb_month" = Ok b)
    (Ha : 0 <= a) (Hb : 0 <= b)
    (Hr : compare_storage_options aws_data gcp_data = Ok r) :
  (st_winner r = aws <-> a < b) /\
  (st_winner r = gcp <-> b <= a) /\
  (a <= b -> 100 * a <= 79 * b -> st_confidence r == 1) /\
  (b <= a -> 100 * b <= 79 * a -> st_confidence r == 1) /\
  (a <= b -> 81 * b <= 100 * a -> st_confidence r < 1) /\
  (b <= a -> 81 * a <= 100 * b -> st_confidence r < 1).
Proof.
  destruct (storage_recommendation_exact _ _ _ _ r Haws Hgcp Ha Hb Hr)
    as [Hwa [Hwg [Hfa Hfb]]].
  split; [exact Hwa |]. split; [exact Hwg |].
  split; [intros Hle Hratio; apply (Hfa Hle); lra |].
  split; [intros Hle Hratio; apply (Hfb Hle); lra |].
  split; intros Hle Hratio;
    apply (Qle_lt_trans _ 0.95); [| reflexivity | | reflexivity];
    apply (storage_confidence_gap _ _ _ _ r Haws Hgcp Ha Hb Hr);
    destruct (py_max_cases a b) as [[Hlt ->] | [Hge ->]].
  - rewrite Qabs_neg by lra. lra.
  - rewrite Qabs_pos by lra. lra.
  - rewrite Qabs_neg by lra. lra.
  - rewrite Qabs_pos by lra. lra.
Qed.

Lemma storage_recommendation_spec_witness :
  exists r,
    compare_storage_options
      {[ "price_per_gb_month" := VNum 0.023 ]} {[ "price_per_gb_month" := VNum 0.010 ]}
      = Ok r /\
    st_winner r = gcp /\ st_confidence r == 1.
Proof.
  destruct (compare_storage_Ok {[ "price_per_gb_month" := VNum 0.023 ]}
                               {[ "price_per_gb_month" := VNum 0.010 ]} 0.023 0.010)
    as [r [Hr _]]; [reflexivity | reflexivity | vm_compute; discriminate |].
  exists r. split; [exact Hr |].
  destruct (storage_recommendation_spec
              {[ "price_per_gb_month" := VNum 0.023 ]}
              {[ "price_per_gb_month" := VNum 0.010 ]} 0.023 0.010 r)
    as [_ [Hgcp [_ [Hfull _]]]]; [reflexivity | reflexivity | lra | lra | exact Hr |].
  split; [apply Hgcp; lra | apply Hfull; lra].
Defined.

(** X8. A quote without a monthly price counts as free: compared with a
    quote of positive price it wins the cost score 10 to 0 and is named the
    cheaper side with savings of 100 percent. *)
Theorem missing_price_is_free (aws_data gcp_data wl : gmap string value) (b : Q)
    (Hmissing : aws_data !! "price_per_month" = None)
    (Hgcp : get_num gcp_data "price_per_month" = Ok b)
    (Hb : 0 < b) :
  exists r, compare_compute_instances aws_data gcp_data wl = Ok r /\
    aws_cost r = 0 /\
    cc_cost_difference r == b /\
    cc_cost_savings_provider r = aws /\
    cc_cost_savings_percentage r == 100 /\
    sc_cost (cc_scores r aws) == 10 /\
    sc_cost (cc_scores r gcp) == 0.
Proof.
  assert (Haws : get_num aws_data "price_per_month" = Ok 0)
    by (unfold get_num; rewrite Hmissing; reflexivity).
  assert (Hmax : py_max 0 b = b).
  { destruct (py_max_cases 0 b) as [[_ Hm] | [Hle _]]; [exact Hm | lra]. }
  assert (Hnz : ~ py_max 0 b == 0) by (rewrite Hmax; lra).
  destruct (compare_compute_Ok _ _ wl _ _ Haws Hgcp Hnz) as [r [Hr Ho]].
  exists r. split; [exact Hr |].
  split; [exact (co_aws_cost _ _ _ _ Ho) |].
  pose proof (co_cost _ _ _ _ Ho) as Hcost.
  rewrite cost_score_share in Hcost by lra.
  injection Hcost as Hca Hcg.
  rewrite (co_difference _ _ _ _ Ho), (co_savings_provider _ _ _ _ Ho),
    (co_savings_percentage _ _ _ _ Ho), Hmax, <- Hca, <- Hcg.
  assert (Hlt : Qltb 0 b = true) by (apply Qltb_lt; exact Hb).
  rewrite Hlt.
  assert (Hd : Qabs (0 - b) == b) by (rewrite Qabs_neg; lra).
  assert (Hq : (0 - b) / b == - (1)) by (field; lra).
  split; [exact Hd |]. split; [reflexivity |].
  split; [rewrite Hq; reflexivity |].
  split; field; lra.
Qed.

Lemma missing_price_is_free_witness :
  exists r,
    compare_compute_instances
      {[ "instance_type" := VStr "t3.micro" ]} {[ "price_per_month" := VNum 34.2 ]} ∅
      = Ok r /\
    aws_cost r = 0 /\ cc_cost_savings_percentage r == 100.
Proof.
  destruct (missing_price_is_free
              {[ "instance_type" := VStr "t3.micro" ]}
              {[ "price_per_month" := VNum 34.2 ]} ∅ 34.2)
    as [r [Hr [Hcost [_ [_ [Hpct _]]]]]]; [reflexivity | reflexivity | lra |].
  exists r. split; [exact Hr |]. split; [exact Hcost | exact Hpct].
Defined.

(** ** The horizon of a TCO analysis *)

Lemma inject_Z_pos (h : Z) : (0 < h)%Z -> 0 < inject_Z h.
Proof.
  intros Hh. unfold Qlt. cbn. lia.
Qed.


Lemma py_max_zero (a b : Q) : a == 0 -> b == 0 -> py_max a b == 0.
Proof.
  intros Ha Hb. destruct (py_max_cases a b) as [[_ ->] | [_ ->]]; assumption.
Qed.

(** The monthly total that [calculate_tco] multiplies by the horizon. *)
Lemma projected_tco_total (m : provider -> monthly_costs) (h : Z) (r : tco_analysis)
    (p : provider) :
  tco_outcome m h r ->
  projected_tco p (m p) h = total_monthly (breakdown r p) * inject_Z h.
Proof.
  intros Ho. unfold projected_tco.
  rewrite (to_total _ _ _ Ho), (to_operational _ _ _ Ho),
    (to_compute _ _ _ Ho), (to_storage _ _ _ Ho), (to_additional _ _ _ Ho).
  reflexivity.
Qed.

(** X9. With a horizon of 0 months the TCO analysis raises
    [ZeroDivisionError], whatever the costs: both TCOs are zero and the
    savings percentage divides by their maximum. *)
Theorem tco_zero_horizon_raises
    (compute_costs storage_costs additional_services : gmap string value)
    (m : provider -> monthly_costs)
    (Hcompute : forall p, get_num compute_costs (provider_key p) = Ok (mc_compute (m p)))
    (Hstorage : forall p, get_num storage_costs (provider_key p) = Ok (mc_storage (m p)))
    (Hadditional :
       forall p, get_num additional_services (provider_key p) = Ok (mc_additional (m p))) :
  calculate_tco compute_costs storage_costs additional_services 0 = Raise ZeroDivisionError.
Proof.
  apply (calculate_tco_raises _ _ _ m 0%Z Hcompute Hstorage Hadditional).
  apply py_max_zero; unfold projected_tco; cbn [inject_Z]; ring.
Qed.

Lemma tco_zero_horizon_raises_witness :
  calculate_tco {[ "aws" := VNum 100; "gcp" := VNum 150 ]}
                {[ "aws" := VNum 23; "gcp" := VNum 20 ]} ∅ 0
  = Raise ZeroDivisionError.
Proof.
  apply (tco_zero_horizon_raises _ _ _
           (fun p => match p with
                     | aws => mk_monthly_costs 100 23 0
                     | gcp => mk_monthly_costs 150 20 0
                     end)); intros []; reflexivity.
Defined.






(** X11. Equal monthly costs do not give equal TCOs: when both providers
    have the same compute, storage and additional cost, with compute plus
    storage positive, the analysis over a positive horizon names gcp as the
    savings provider, with savings of 3% of compute plus storage per month. *)
Theorem tco_identical_costs_favour_gcp
    (compute_costs storage_costs additional_services : gmap string value)
    (c s x : Q) (h : Z)
    (Hcompute : forall p, get_num compute_costs (provider_key p) = Ok c)
    (Hstorage : forall p, get_num storage_costs (provider_key p) = Ok s)
    (Hadditional : forall p, get_num additional_services (provider_key p) = Ok x)
    (Hinfra : 0 < c + s) (Hx : 0 <= x) (Hh : (0 < h)%Z) :
  exists r, calculate_tco compute_costs storage_costs additional_services h = Ok r /\
    savings_provider r = gcp /\
    savings r == 0.03 * (c + s) * inject_Z h /\
    0 < savings_percentage r.
Proof.
  pose (m := fun _ : provider => mk_monthly_costs c s x).
  pose proof (inject_Z_pos h Hh) as Hpos.
  assert (Hgap : projected_tco gcp (m gcp) h < projected_tco aws (m aws) h).
  { unfold projected_tco. cbn [m mc_compute mc_storage mc_additional operational_rate].
    apply Qmult_lt_compat_r; [exact Hpos | lra]. }
  assert (Hgcp_pos : 0 < projected_tco gcp (m gcp) h).
  { unfold projected_tco. cbn [m mc_compute mc_storage mc_additional operational_rate].
    apply Qmult_lt_0_compat; [lra | exact Hpos]. }
  assert (Hmax : py_max (projected_tco aws (m aws) h) (projected_tco gcp (m gcp) h)
                 = projected_tco aws (m aws) h).
  { destruct (py_max_cases (projected_tco aws (m aws) h) (projected_tco gcp (m gcp) h))
      as [[Hlt _] | [_ Hm]]; [lra | exact Hm]. }
  assert (Hnz : ~ py_max (projected_tco aws (m aws) h) (projected_tco gcp (m gcp) h) == 0)
    by (rewrite Hmax; lra).
  destruct (calculate_tco_Ok _ _ _ m h Hcompute Hstorage Hadditional Hnz) as [r [Hr Ho]].
  exists r. split; [exact Hr |].
  pose proof (to_tco _ _ _ Ho aws) as Ta. pose proof (to_tco _ _ _ Ho gcp) as Tg.
  cbn [tco_of] in Ta, Tg.
  rewrite <- (projected_tco_total _ _ _ aws Ho) in Ta.
  rewrite <- (projected_tco_total _ _ _ gcp Ho) in Tg.
  assert (Hsav : savings r == 0.03 * (c + s) * inject_Z h).
  { rewrite (to_savings _ _ _ Ho), Ta, Tg, Qabs_pos by lra.
    unfold projected_tco. cbn [m mc_compute mc_storage mc_additional operational_rate].
    ring. }
  split.
  { rewrite (to_savings_provider _ _ _ Ho), Ta, Tg.
    case_Qltb (projected_tco aws (m aws) h) (projected_tco gcp (m gcp) h);
      [lra | reflexivity]. }
  split; [exact Hsav |].
  rewrite (to_savings_percentage _ _ _ Ho), Ta, Tg, Hmax.
  assert (Hs0 : 0 < savings r).
  { rewrite Hsav. apply Qmult_lt_0_compat; [lra | exact Hpos]. }
  assert (0 < savings r / projected_tco aws (m aws) h)
    by (apply Qlt_shift_div_l; lra).
  lra.
Qed.

Lemma tco_identical_costs_favour_gcp_witness :
  exists r,
    calculate_tco {[ "aws" := VNum 100; "gcp" := VNum 100 ]}
                  {[ "aws" := VNum 20; "gcp" := VNum 20 ]}
                  {[ "aws" := VNum 0; "gcp" := VNum 0 ]} 36 = Ok r /\
    savings_provider r = gcp /\ savings r == 0.03 * (100 + 20) * 36.
Proof.
  destruct (tco_identical_costs_favour_gcp
              {[ "aws" := VNum 100; "gcp" := VNum 100 ]}
              {[ "aws" := VNum 20; "gcp" := VNum 20 ]}
              {[ "aws" := VNum 0; "gcp" := VNum 0 ]} 100 20 0 36)
    as [r [Hr [Hp [Hs _]]]];
    [intros []; reflexivity | intros []; reflexivity | intros []; reflexivity
    | lra | lra | lia |].
  exists r. split; [exact Hr |]. split; [exact Hp | exact Hs].
Defined.



(** * Further properties of the migration estimate *)

(** ** Words *)

Lemma append_empty (s : string) : (EmptyString ++ s)%string = s.
Proof. reflexivity. Qed.

Lemma append_String (x : ascii) (a b : string) :
  (String x a ++ b)%string = String x (a ++ b).
Proof. reflexivity. Qed.

Lemma append_empty_r (s : string) : (s ++ EmptyString)%string = s.
Proof.
  induction s as [| x s IH]; [reflexivity |].
  rewrite append_String, IH. reflexivity.
Qed.

Lemma append_snoc (a b : string) (c : ascii) :
  ((a ++ String c EmptyString) ++ b)%string = (a ++ String c b)%string.
Proof.
  induction a as [| x a IH]; [reflexivity |].
  rewrite !append_String, IH. reflexivity.
Qed.

Lemma all_chars_snoc (P : ascii -> bool) (s : string) (c : ascii) :
  all_chars P (s ++ String c EmptyString) = all_chars P s && P c.
Proof.
  induction s as [| x s IH].
  - rewrite append_empty. cbn [all_chars]. destruct (P c); reflexivity.
  - rewrite append_String. cbn [all_chars]. rewrite IH, andb_assoc. reflexivity.
Qed.

Lemma snoc_not_empty (s : string) (c : ascii) : s ++ String c EmptyString <> EmptyString.
Proof.
  destruct s; discriminate.
Qed.

Lemma split_from_words (s word w : string) :
  all_chars nonspace word = true ->
  w ∈ split_from word s ->
  w <> EmptyString /\ all_chars nonspace w = true.
Proof.
  revert word. induction s as [| c s IH]; intros word Hword Hin; cbn in Hin.
  - destruct word as [| x word]; [apply elem_of_nil in Hin; contradiction |].
    apply list_elem_of_singleton in Hin. subst w. split; [discriminate | exact Hword].
  - destruct (isspace c) eqn:Hc.
    + destruct word as [| x word]; [apply (IH EmptyString); [reflexivity | exact Hin] |].
      apply elem_of_cons in Hin as [-> | Hin]; [split; [discriminate | exact Hword] |].
      apply (IH EmptyString); [reflexivity | exact Hin].
    + apply (IH (word ++ String c EmptyString)); [| exact Hin].
      rewrite all_chars_snoc, Hword. unfold nonspace. rewrite Hc. reflexivity.
Qed.

(** X13. The words that [split] returns are not empty and contain no white
    space. *)
Theorem split_words_nonblank (s w : string) (Hin : w ∈ split s) :
  w <> EmptyString /\ all_chars nonspace w = true.
Proof.
  apply (split_from_words s EmptyString w); [reflexivity | exact Hin].
Qed.

Lemma split_words_nonblank_witness :
  "billing" <> EmptyString /\ all_chars nonspace "billing" = true.
Proof.
  apply (split_words_nonblank "  move the   billing service " "billing").
  vm_compute. do 2 apply list_elem_of_further. apply list_elem_of_here.
Defined.

Lemma split_from_app (a b word : string) (c : ascii) :
  isspace c = true ->
  split_from word (a ++ String c b) = (split_from word a ++ split b)%list.
Proof.
  intros Hc. revert word. induction a as [| x a IH]; intros word.
  - rewrite append_empty. cbn [split_from]. rewrite Hc. destruct word; reflexivity.
  - rewrite append_String. cbn [split_from]. destruct (isspace x).
    + destruct word; rewrite IH; reflexivity.
    + apply IH.
Qed.

Lemma split_from_nonspace (s word : string) :
  all_chars nonspace s = true ->
  split_from word s =
    match (word ++ s)%string with
    | EmptyString => []
    | _ => [(word ++ s)%string]
    end.
Proof.
  revert word. induction s as [| c s IH]; intros word Hs.
  - rewrite append_empty_r. destruct word; reflexivity.
  - cbn [all_chars] in Hs. apply andb_true_iff in Hs as [Hc Hs].
    unfold nonspace in Hc. apply negb_true_iff in Hc.
    cbn [split_from]. rewrite Hc, IH by exact Hs.
    rewrite append_snoc. reflexivity.
Qed.

(** X14. Splitting follows the white space of the text: two texts joined by
    a white-space character split into the words of the first followed by
    the words of the second, so that their word counts add up; a non-empty
    ASCII text without white space is one word, and the empty text has
    none.  (Beyond ASCII a text may hold white space that [isspace] does not
    know, which is why the second statement is made for ASCII text.) *)
Theorem split_joined :
  (forall (a b : string) (c : ascii),
     isspace c = true ->
     split (a ++ String c b) = (split a ++ split b)%list /\
     word_count (a ++ String c b) = (word_count a + word_count b)%nat) /\
  (forall (x : ascii) (s : string),
     all_chars is_ascii (String x s) = true ->
     all_chars nonspace (String x s) = true ->
     split (String x s) = [String x s] /\ word_count (String x s) = 1%nat) /\
  split EmptyString = [].
Proof.
  split; [| split].
  - intros a b c Hc.
    assert (Hsplit : split (a ++ String c b) = (split a ++ split b)%list)
      by (apply split_from_app; exact Hc).
    split; [exact Hsplit |].
    unfold word_count. rewrite Hsplit, length_app. reflexivity.
  - intros x s _ Hs. unfold word_count, split.
    rewrite split_from_nonspace by exact Hs. split; reflexivity.
  - reflexivity.
Qed.

Lemma split_joined_witness :
  split ("move the" ++ String " " "billing service")
  = ["move"; "the"; "billing"; "service"] /\
  word_count ("move the" ++ String " " "billing service") = 4%nat /\
  split "billing" = ["billing"].
Proof.
  destruct split_joined as [Hjoin [Hword _]].
  destruct (Hjoin "move the" "billing service" " "%char) as [Hs Hn]; [reflexivity |].
  split; [rewrite Hs; reflexivity |].
  split; [rewrite Hn; reflexivity |].
  apply (Hword "b"%char "illing"); reflexivity.
Defined.

(** ** Buckets in words *)

Lemma complexity_lt (n : nat) (k : Z) :
  inject_Z (Z.of_nat n) / 10 < inject_Z k <-> (Z.of_nat n < 10 * k)%Z.
Proof.
  unfold Qlt, Qdiv. cbn. lia.
Qed.

(** X15. The complexity bucket of a migration is decided by the number of
    words of the workload description, and fixes duration and effort: fewer
    than 20 words give Baixa, 2-4 semanas and Baixo; 20 to 49 words give
    Média, 1-3 meses and Médio; 50 words or more give Alta, 3-6 meses and
    Alto. *)
Theorem migration_buckets_by_words
    (current_provider target_provider workload_description budget_constraints : string) :
  let n := word_count workload_description in
  let r := generate_migration_recommendation
             current_provider target_provider workload_description budget_constraints in
  ((n < 20)%nat ->
     complexity_level r = "Baixa" /\ migration_time r = "2-4 semanas" /\
     effort_level r = "Baixo") /\
  ((20 <= n)%nat -> (n < 50)%nat ->
     complexity_level r = "Média" /\ migration_time r = "1-3 meses" /\
     effort_level r = "Médio") /\
  ((50 <= n)%nat ->
     complexity_level r = "Alta" /\ migration_time r = "3-6 meses" /\
     effort_level r = "Alto").
Proof.
  cbv zeta. unfold generate_migration_recommendation.
  fold (word_count workload_description).
  set (n := word_count workload_description).
  pose proof (complexity_lt n 2) as H2. pose proof (complexity_lt n 5) as H5.
  change (inject_Z 2) with 2 in H2. change (inject_Z 5) with 5 in H5.
  case_Qltb (inject_Z (Z.of_nat n) / 10) 2;
    [| case_Qltb (inject_Z (Z.of_nat n) / 10) 5].
  - apply H2 in Hlt.
    split; [intros _; repeat split |]. split; intros; lia.
  - assert (~ (Z.of_nat n < 10 * 2)%Z) by (rewrite <- H2; lra).
    apply H5 in Hlt0.
    split; [intros; lia |]. split; [intros _ _; repeat split | intros; lia].
  - assert (~ (Z.of_nat n < 10 * 5)%Z) by (rewrite <- H5; lra).
    split; [intros; lia |]. split; [intros; lia | intros _; repeat split].
Qed.

Lemma migration_buckets_by_words_witness :
  let r := generate_migration_recommendation "aws" "gcp"
             "a b c d e f g h i j k l m n o p q r s t" "flexible" in
  complexity_level r = "Média" /\ migration_time r = "1-3 meses" /\
  effort_level r = "Médio".
Proof.
  cbv zeta.
  apply (migration_buckets_by_words "aws" "gcp"
           "a b c d e f g h i j k l m n o p q r s t" "flexible");
    vm_compute; lia.
Defined.

(** ** The estimated cost *)

Lemma budget_factor_values (budget : string) :
  let factor := default 1.0 (budget_multipliers !! budget) in
  factor = 0.7 \/ factor = 1.0 \/ factor = 1.3.
Proof.
  cbv zeta.
  destruct (decide (budget = "tight")) as [-> | Ht]; [left; reflexivity |].
  destruct (decide (budget = "moderate")) as [-> | Hm]; [right; left; reflexivity |].
  destruct (decide (budget = "flexible")) as [-> | Hf]; [right; right; reflexivity |].
  rewrite budget_factor_default by assumption. right. left. reflexivity.
Qed.

Lemma estimated_cost_cases
    (current_provider target_provider workload_description budget_constraints : string) :
  let n := word_count workload_description in
  let r := generate_migration_recommendation
             current_provider target_provider workload_description budget_constraints in
  let factor := default 1.0 (budget_multipliers !! budget_constraints) in
  ((n < 20)%nat /\ estimated_cost r = 5000 * factor) \/
  ((20 <= n < 50)%nat /\ estimated_cost r = 15000 * factor) \/
  ((50 <= n)%nat /\ estimated_cost r = 35000 * factor).
Proof.
  cbv zeta. unfold generate_migration_recommendation.
  fold (word_count workload_description).
  set (n := word_count workload_description).
  pose proof (complexity_lt n 2) as H2. pose proof (complexity_lt n 5) as H5.
  change (inject_Z 2) with 2 in H2. change (inject_Z 5) with 5 in H5.
  case_Qltb (inject_Z (Z.of_nat n) / 10) 2;
    [| case_Qltb (inject_Z (Z.of_nat n) / 10) 5].
  - apply H2 in Hlt. left. split; [lia | reflexivity].
  - assert (~ (Z.of_nat n < 10 * 2)%Z) by (rewrite <- H2; lra).
    apply H5 in Hlt0. right. left. split; [lia | reflexivity].
  - assert (~ (Z.of_nat n < 10 * 5)%Z) by (rewrite <- H5; lra).
    right. right. split; [lia | reflexivity].
Qed.

(** X16. Under one budget constraint a longer workload description never
    lowers the estimated migration cost, and every estimate lies between
    3500 and 45500. *)
Theorem migration_cost_monotone
    (current1 target1 current2 target2 description1 description2 budget : string)
    (Hwords : (word_count description1 <= word_count description2)%nat) :
  let r1 := generate_migration_recommendation current1 target1 description1 budget in
  let r2 := generate_migration_recommendation current2 target2 description2 budget in
  estimated_cost r1 <= estimated_cost r2 /\
  3500 <= estimated_cost r1 <= 45500.
Proof.
  cbv zeta.
  pose proof (estimated_cost_cases current1 target1 description1 budget) as H1.
  pose proof (estimated_cost_cases current2 target2 description2 budget) as H2.
  pose proof (budget_factor_values budget) as Hf.
  cbv zeta in H1, H2, Hf.
  set (f := default 1.0 (budget_multipliers !! budget)) in *.
  assert (Hrange : (7 # 10) <= f <= (13 # 10)).
  { destruct Hf as [-> | [-> | ->]]; split; reflexivity || discriminate. }
  destruct H1 as [[Hn1 ->] | [[Hn1 ->] | [Hn1 ->]]];
    destruct H2 as [[Hn2 ->] | [[Hn2 ->] | [Hn2 ->]]];
    try lia; split; lra.
Qed.

Lemma migration_cost_monotone_witness :
  let r1 := generate_migration_recommendation "aws" "gcp" "one small service" "tight" in
  let r2 := generate_migration_recommendation "aws" "gcp"
              "a b c d e f g h i j k l m n o p q r s t u v w x y" "tight" in
  estimated_cost r1 <= estimated_cost r2 /\ 3500 <= estimated_cost r1 <= 45500.
Proof.
  cbv zeta.
  apply (migration_cost_monotone "aws" "gcp" "aws" "gcp" "one small service"
           "a b c d e f g h i j k l m n o p q r s t u v w x y" "tight").
  vm_compute. lia.
Defined.

(** * The fallback quotes and the engine *)

(** ** Fallback prices *)

Lemma default_lookup_pos (prices : gmap string Q) (fallback : Q) (key : string) :
  map_Forall (fun _ price => 0 < price) prices -> 0 < fallback ->
  0 < default fallback (prices !! key).
Proof.
  intros Hall Hf. destruct (prices !! key) as [price |] eqn:Hk; cbn.
  - exact (Hall key price Hk).
  - exact Hf.
Qed.

Ltac prices_positive :=
  repeat (apply map_Forall_insert_2; [reflexivity |]);
  apply map_Forall_empty.

Lemma aws_ec2_price_pos (instance_type region : string) :
  0 < AWSPricingClient.mock_ec2_price_per_hour instance_type region.
Proof.
  unfold AWSPricingClient.mock_ec2_price_per_hour.
  apply Qmult_lt_0_compat.
  - apply default_lookup_pos; [| reflexivity].
    unfold AWSPricingClient.mock_ec2_prices. prices_positive.
  - destruct (String.prefix "eu-" region); reflexivity.
Qed.

Lemma aws_storage_price_pos (storage_type region : string) :
  0 < AWSPricingClient.mock_storage_price_per_gb storage_type region.
Proof.
  unfold AWSPricingClient.mock_storage_price_per_gb.
  apply Qmult_lt_0_compat.
  - apply default_lookup_pos; [| reflexivity].
    unfold AWSPricingClient.mock_storage_prices. prices_positive.
  - destruct (String.prefix "eu-" region); reflexivity.
Qed.

Lemma gcp_compute_price_pos (machine_type region : string) :
  0 < GCPPricingClient.mock_compute_price_per_hour machine_type region.
Proof.
  unfold GCPPricingClient.mock_compute_price_per_hour.
  apply Qmult_lt_0_compat.
  - apply default_lookup_pos; [| reflexivity].
    unfold GCPPricingClient.mock_compute_prices. prices_positive.
  - destruct (String.prefix "europe-" region); reflexivity.
Qed.

Lemma gcp_storage_price_pos (storage_type region : string) :
  0 < GCPPricingClient.mock_storage_price_per_gb storage_type region.
Proof.
  unfold GCPPricingClient.mock_storage_price_per_gb.
  apply Qmult_lt_0_compat.
  - apply default_lookup_pos; [| reflexivity].
    unfold GCPPricingClient.mock_storage_prices. prices_positive.
  - destruct (String.prefix "europe-" region); reflexivity.
Qed.

(** ** Reading a fallback quote *)

Lemma aws_ec2_quote_price (instance_type region : string) :
  get_num (AWSPricingClient._get_mock_ec2_pricing instance_type region) "price_per_month"
  = Ok (AWSPricingClient.mock_ec2_price_per_hour instance_type region * 24 * 30).
Proof.
  unfold get_num, AWSPricingClient._get_mock_ec2_pricing. cbv zeta.
  rewrite !lookup_insert_ne by discriminate. rewrite lookup_insert_eq. reflexivity.
Qed.

Lemma aws_ec2_quote_name (instance_type region : string) :
  get_val (AWSPricingClient._get_mock_ec2_pricing instance_type region)
    "instance_type" (VStr "N/A") = VStr instance_type.
Proof.
  unfold get_val, AWSPricingClient._get_mock_ec2_pricing. cbv zeta.
  rewrite lookup_insert_eq. reflexivity.
Qed.

Lemma gcp_compute_quote_price (machine_type region : string) :
  get_num (GCPPricingClient._get_mock_compute_pricing machine_type region) "price_per_month"
  = Ok (GCPPricingClient.mock_compute_price_per_hour machine_type region * 24 * 30).
Proof.
  unfold get_num, GCPPricingClient._get_mock_compute_pricing. cbv zeta.
  rewrite !lookup_insert_ne by discriminate. rewrite lookup_insert_eq. reflexivity.
Qed.

Lemma gcp_compute_quote_name (machine_type region : string) :
  get_val (GCPPricingClient._get_mock_compute_pricing machine_type region)
    "machine_type" (VStr "N/A") = VStr machine_type.
Proof.
  unfold get_val, GCPPricingClient._get_mock_compute_pricing. cbv zeta.
  rewrite lookup_insert_eq. reflexivity.
Qed.

Lemma aws_storage_quote_price (storage_type region : string) :
  get_num (AWSPricingClient._get_mock_storage_pricing storage_type region)
    "price_per_gb_month"
  = Ok (AWSPricingClient.mock_storage_price_per_gb storage_type region).
Proof.
  unfold get_num, AWSPricingClient._get_mock_storage_pricing. cbv zeta.
  rewrite !lookup_insert_ne by discriminate. rewrite lookup_insert_eq. reflexivity.
Qed.

Lemma gcp_storage_quote_price (storage_type region : string) :
  get_num (GCPPricingClient._get_mock_storage_pricing storage_type region)
    "price_per_gb_month"
  = Ok (GCPPricingClient.mock_storage_price_per_gb storage_type region).
Proof.
  unfold get_num, GCPPricingClient._get_mock_storage_pricing. cbv zeta.
  rewrite !lookup_insert_ne by discriminate. rewrite lookup_insert_eq. reflexivity.
Qed.

Lemma aws_storage_quote_type (storage_type region : string) (fallback : value) :
  get_val (AWSPricingClient._get_mock_storage_pricing storage_type region)
    "storage_type" fallback = VStr storage_type.
Proof.
  unfold get_val, AWSPricingClient._get_mock_storage_pricing. cbv zeta.
  rewrite lookup_insert_eq. reflexivity.
Qed.

Lemma gcp_storage_quote_type (storage_type region : string) (fallback : value) :
  get_val (GCPPricingClient._get_mock_storage_pricing storage_type region)
    "storage_type" fallback = VStr storage_type.
Proof.
  unfold get_val, GCPPricingClient._get_mock_storage_pricing. cbv zeta.
  rewrite lookup_insert_eq. reflexivity.
Qed.

(** The names that a returned compute comparison reports. *)
Lemma compare_compute_names (aws_data gcp_data wl : gmap string value)
    (r : compute_comparison) :
  compare_compute_instances aws_data gcp_data wl = Ok r ->
  aws_instance r = get_val aws_data "instance_type" (VStr "N/A") /\
  gcp_instance r = get_val gcp_data "machine_type" (VStr "N/A").
Proof.
  intros Hr. unfold compare_compute_instances in Hr.
  destruct (get_num aws_data "price_per_month") as [a | e]; [| discriminate Hr].
  destruct (get_num gcp_data "price_per_month") as [b | e]; [| discriminate Hr].
  rewrite !bind_Ok in Hr.
  destruct (_calculate_cost_score a b) as [s | e]; [| discriminate Hr].
  rewrite bind_Ok in Hr.
  destruct (py_div (a - b) (py_max a b)) as [q | e]; [| discriminate Hr].
  rewrite bind_Ok in Hr. injection Hr as <-. split; reflexivity.
Qed.

(** The types that a returned storage comparison reports. *)
Lemma compare_storage_names (aws_data gcp_data : gmap string value)
    (r : storage_comparison) :
  compare_storage_options aws_data gcp_data = Ok r ->
  aws_storage r = get_val aws_data "storage_type" (VStr "N/A") /\
  gcp_storage r = get_val gcp_data "storage_type" (VStr "N/A").
Proof.
  intros Hr. unfold compare_storage_options in Hr.
  destruct (get_num aws_data "price_per_gb_month") as [a | e]; [| discriminate Hr].
  destruct (get_num gcp_data "price_per_gb_month") as [b | e]; [| discriminate Hr].
  rewrite !bind_Ok in Hr.
  destruct (py_div (Qabs (a - b)) (py_max a b)) as [q | e]; [| discriminate Hr].
  rewrite bind_Ok in Hr. injection Hr as <-. split; reflexivity.
Qed.

Lemma py_max_pos (a b : Q) : 0 < a -> 0 < b -> 0 < py_max a b.
Proof.
  intros Ha Hb. destruct (py_max_cases a b) as [[_ ->] | [_ ->]]; assumption.
Qed.

(** X17. The compute comparator accepts every pair of fallback quotes: for
    any instance type, machine type, regions and workload the comparison
    returns, names the two instances of the quotes, takes as monthly costs
    720 times their positive hourly prices, and reports savings below 100
    percent. *)
Theorem fallback_compute_quotes_compare
    (instance_type aws_region machine_type gcp_region : string)
    (wl : gmap string value) :
  exists r,
    compare_compute_instances
      (AWSPricingClient._get_mock_ec2_pricing instance_type aws_region)
      (GCPPricingClient._get_mock_compute_pricing machine_type gcp_region) wl = Ok r /\
    aws_instance r = VStr instance_type /\
    gcp_instance r = VStr machine_type /\
    aws_cost r == 720 * AWSPricingClient.mock_ec2_price_per_hour instance_type aws_region /\
    gcp_cost r == 720 * GCPPricingClient.mock_compute_price_per_hour machine_type gcp_region /\
    0 < aws_cost r /\ 0 < gcp_cost r /\
    cc_cost_savings_percentage r < 100.
Proof.
  pose proof (aws_ec2_price_pos instance_type aws_region) as Hpa.
  pose proof (gcp_compute_price_pos machine_type gcp_region) as Hpg.
  set (pa := AWSPricingClient.mock_ec2_price_per_hour instance_type aws_region) in *.
  set (pg := GCPPricingClient.mock_compute_price_per_hour machine_type gcp_region) in *.
  pose proof (aws_ec2_quote_price instance_type aws_region) as Haws.
  pose proof (gcp_compute_quote_price machine_type gcp_region) as Hgcp.
  fold pa in Haws. fold pg in Hgcp.
  assert (Ha : 0 < pa * 24 * 30) by lra.
  assert (Hb : 0 < pg * 24 * 30) by lra.
  assert (Hmax : 0 < py_max (pa * 24 * 30) (pg * 24 * 30)) by (apply py_max_pos; assumption).
  assert (Hnz : ~ py_max (pa * 24 * 30) (pg * 24 * 30) == 0) by lra.
  destruct (compare_compute_Ok _ _ wl _ _ Haws Hgcp Hnz) as [r [Hr Ho]].
  exists r. split; [exact Hr |].
  destruct (compare_compute_names _ _ _ _ Hr) as [Hna Hng].
  rewrite aws_ec2_quote_name in Hna. rewrite gcp_compute_quote_name in Hng.
  split; [exact Hna |]. split; [exact Hng |].
  rewrite (co_aws_cost _ _ _ _ Ho), (co_gcp_cost _ _ _ _ Ho).
  split; [ring |]. split; [ring |]. split; [exact Ha |]. split; [exact Hb |].
  rewrite (co_savings_percentage _ _ _ _ Ho), (Qabs_div_pos _ _ Hmax).
  destruct (difference_facts (pa * 24 * 30) (pg * 24 * 30)) as [Hd [_ [Hfull _]]];
    [lra | lra |].
  destruct (percentage_facts _ _ Hmax Hd) as [Hp [_ [H100 _]]].
  destruct (Qlt_le_dec (Qabs (pa * 24 * 30 - pg * 24 * 30)
                        / py_max (pa * 24 * 30) (pg * 24 * 30) * 100) 100)
    as [Hlt | Hge]; [exact Hlt | exfalso].
  assert (Heq : Qabs (pa * 24 * 30 - pg * 24 * 30)
                / py_max (pa * 24 * 30) (pg * 24 * 30) * 100 == 100) by lra.
  apply H100, Hfull in Heq. destruct Heq; lra.
Qed.

(** ** Lower case *)

Lemma lower_char_idempotent (c : ascii) : lower_char (lower_char c) = lower_char c.
Proof.
  destruct c as [[] [] [] [] [] [] [] []]; reflexivity.
Qed.

Lemma lower_idempotent (s : string) : lower (lower s) = lower s.
Proof.
  induction s as [| c s IH]; [reflexivity |].
  cbn [lower]. rewrite lower_char_idempotent, IH. reflexivity.
Qed.

Lemma storage_types_lower (s : string) : s ∈ storage_types -> lower s = s.
Proof.
  intros Hs. unfold storage_types in Hs.
  repeat (apply elem_of_cons in Hs as [-> | Hs]; [reflexivity |]).
  apply elem_of_nil in Hs. contradiction.
Qed.

(** X18. The storage comparator accepts every pair of fallback quotes: the
    comparison returns with the storage types and positive prices of the
    quotes and with savings below 100 percent.  The type of the gcp quote is
    priced without regard to case but described with regard to it: a type
    that is not written in lower case is priced like its lower-case form and
    gets an empty descriptor. *)
Theorem fallback_storage_quotes_compare
    (aws_type aws_region gcp_type gcp_region : string) :
  exists r,
    compare_storage_options
      (AWSPricingClient._get_mock_storage_pricing aws_type aws_region)
      (GCPPricingClient._get_mock_storage_pricing gcp_type gcp_region) = Ok r /\
    aws_storage r = VStr aws_type /\
    gcp_storage r = VStr gcp_type /\
    aws_cost_per_gb r = AWSPricingClient.mock_storage_price_per_gb aws_type aws_region /\
    gcp_cost_per_gb r = GCPPricingClient.mock_storage_price_per_gb gcp_type gcp_region /\
    0 < aws_cost_per_gb r /\ 0 < gcp_cost_per_gb r /\
    st_cost_savings_percentage r < 100 /\
    st_storage_analysis r
      = _analyze_storage_characteristics (VStr aws_type) (VStr gcp_type) /\
    (lower gcp_type <> gcp_type ->
       gcp_cost_per_gb r
         = GCPPricingClient.mock_storage_price_per_gb (lower gcp_type) gcp_region /\
       gcp_characteristics (st_storage_analysis r) = ∅).
Proof.
  pose proof (aws_storage_price_pos aws_type aws_region) as Hpa.
  pose proof (gcp_storage_price_pos gcp_type gcp_region) as Hpg.
  pose proof (aws_storage_quote_price aws_type aws_region) as Haws.
  pose proof (gcp_storage_quote_price gcp_type gcp_region) as Hgcp.
  set (pa := AWSPricingClient.mock_storage_price_per_gb aws_type aws_region) in *.
  set (pg := GCPPricingClient.mock_storage_price_per_gb gcp_type gcp_region) in *.
  assert (Hmax : 0 < py_max pa pg) by (apply py_max_pos; assumption).
  assert (Hnz : ~ py_max pa pg == 0) by lra.
  destruct (compare_storage_Ok _ _ _ _ Haws Hgcp Hnz) as [r [Hr Ho]].
  exists r. split; [exact Hr |].
  destruct (compare_storage_names _ _ _ Hr) as [Hna Hng].
  rewrite aws_storage_quote_type in Hna. rewrite gcp_storage_quote_type in Hng.
  pose proof (so_analysis _ _ _ _ _ Ho) as Han.
  rewrite aws_storage_quote_type, gcp_storage_quote_type in Han.
  split; [exact Hna |]. split; [exact Hng |].
  rewrite (so_aws_cost _ _ _ _ _ Ho), (so_gcp_cost _ _ _ _ _ Ho).
  split; [reflexivity |]. split; [reflexivity |].
  split; [exact Hpa |]. split; [exact Hpg |].
  split.
  { rewrite (so_savings_percentage _ _ _ _ _ Ho).
    destruct (difference_facts pa pg) as [Hd [_ [Hfull _]]]; [lra | lra |].
    destruct (percentage_facts _ _ Hmax Hd) as [Hp [_ [H100 _]]].
    destruct (Qlt_le_dec (Qabs (pa - pg) / py_max pa pg * 100) 100)
      as [Hlt | Hge]; [exact Hlt | exfalso].
    assert (Heq : Qabs (pa - pg) / py_max pa pg * 100 == 100) by lra.
    apply H100, Hfull in Heq. destruct Heq; lra. }
  split; [exact Han |].
  intros Hcase. split.
  - unfold pg, GCPPricingClient.mock_storage_price_per_gb.
    rewrite lower_idempotent. reflexivity.
  - rewrite Han. cbn [_analyze_storage_characteristics gcp_characteristics
                      lookup_characteristics].
    rewrite unknown_storage_type; [reflexivity |].
    intros Hin. apply Hcase, storage_types_lower, Hin.
Qed.

Lemma fallback_storage_quotes_compare_witness :
  exists r,
    compare_storage_options
      (AWSPricingClient._get_mock_storage_pricing "s3_standard" "us-east-1")
      (GCPPricingClient._get_mock_storage_pricing "Standard" "us-central1") = Ok r /\
    gcp_cost_per_gb r
      = GCPPricingClient.mock_storage_price_per_gb "standard" "us-central1" /\
    gcp_characteristics (st_storage_analysis r) = ∅.
Proof.
  destruct (fallback_storage_quotes_compare "s3_standard" "us-east-1" "Standard" "us-central1")
    as [r [Hr [_ [_ [_ [_ [_ [_ [_ [_ Hcase]]]]]]]]]].
  exists r. split; [exact Hr |].
  apply Hcase. vm_compute. discriminate.
Defined.

(** * The sustained-use discount *)

Lemma discount_Ok (p : Q) (h : Z) :
  ~ p * inject_Z h == 0 ->
  exists r, calculate_gcp_sustained_use_discount p h = Ok r /\
    usage_percentage r = py_min (inject_Z h / (24 * 30)) 1.0 /\
    discount_rate r =
      (if Qle_bool 0.25 (usage_percentage r)
       then py_min 0.30 (usage_percentage r * 0.30) else 0) /\
    original_cost r = p * inject_Z h /\
    discounted_cost r = original_cost r * (1 - discount_rate r) /\
    monthly_savings r = original_cost r - discounted_cost r /\
    annual_savings r = monthly_savings r * 12 /\
    discount_savings_percentage r = monthly_savings r / original_cost r * 100 /\
    below_threshold r = Qltb (usage_percentage r) 0.25.
Proof.
  intros Hnz. unfold calculate_gcp_sustained_use_discount.
  rewrite py_div_Ok by exact Hnz. rewrite bind_Ok.
  eexists. split; [reflexivity |]. cbn. repeat split.
Qed.

Lemma discount_Raise (p : Q) (h : Z) :
  p * inject_Z h == 0 ->
  calculate_gcp_sustained_use_discount p h = Raise ZeroDivisionError.
Proof.
  intros Hz. unfold calculate_gcp_sustained_use_discount.
  rewrite py_div_Raise by exact Hz. reflexivity.
Qed.

Lemma inject_Z_zero (h : Z) : inject_Z h == 0 <-> h = 0%Z.
Proof.
  unfold Qeq. cbn. lia.
Qed.

(** The rate as a function of the hours. *)
Lemma discount_rate_schedule (h : Z) :
  let usage := py_min (inject_Z h / (24 * 30)) 1.0 in
  let rate := if Qle_bool 0.25 usage then py_min 0.30 (usage * 0.30) else 0 in
  ((h < 180)%Z -> rate = 0 /\ Qltb usage 0.25 = true) /\
  ((180 <= h <= 720)%Z -> rate == inject_Z h / 2400 /\ Qltb usage 0.25 = false) /\
  ((720 <= h)%Z -> rate == 0.30 /\ Qltb usage 0.25 = false) /\
  0 <= rate <= 0.30.
Proof.
  cbv zeta.
  set (q := inject_Z h / (24 * 30)).
  assert (Hq : q * 720 == inject_Z h) by (unfold q; field).
  assert (H2400 : inject_Z h / 2400 * 2400 == inject_Z h) by field.
  assert (H180 : (h < 180)%Z <-> inject_Z h < 180) by (unfold Qlt; cbn; lia).
  assert (H720 : (h <= 720)%Z <-> inject_Z h <= 720) by (unfold Qle; cbn; lia).
  assert (H720' : (720 <= h)%Z <-> 720 <= inject_Z h) by (unfold Qle; cbn; lia).
  assert (H180' : (180 <= h)%Z <-> 180 <= inject_Z h) by (unfold Qle; cbn; lia).
  assert (Hcases : (1.0 < q /\ py_min q 1.0 = 1.0) \/
                   (0.25 <= q <= 1.0 /\ py_min q 1.0 = q) \/
                   (q < 0.25 /\ py_min q 1.0 = q)).
  { destruct (py_min_cases q 1.0) as [[Hu Hm] | [Hu Hm]]; [left; split; assumption |].
    destruct (Qlt_le_dec q 0.25); [right; right | right; left]; repeat split; assumption. }
  destruct Hcases as [[Hu ->] | [[[Hlo Hhi] ->] | [Hlt ->]]].
  - replace (Qle_bool 0.25 1.0) with true by reflexivity.
    replace (py_min 0.30 (1.0 * 0.30)) with 0.30 by reflexivity.
    replace (Qltb 1.0 0.25) with false by reflexivity.
    repeat split; intros;
      repeat match goal with
             | H : (_ <= _ <= _)%Z |- _ => destruct H
             | H : (h < 180)%Z |- _ => apply H180 in H
             | H : (180 <= h)%Z |- _ => apply H180' in H
             | H : (h <= 720)%Z |- _ => apply H720 in H
             | H : (720 <= h)%Z |- _ => apply H720' in H
             end;
      first [reflexivity | lra | exfalso; lra].
  - assert (Hle : Qle_bool 0.25 q = true) by (apply Qle_bool_iff; exact Hlo).
    assert (Hnote : Qltb q 0.25 = false) by (apply Qltb_ge; exact Hlo).
    rewrite Hle, Hnote.
    destruct (py_min_cases 0.30 (q * 0.30)) as [[Hm ->] | [Hm ->]];
      repeat split; intros;
      repeat match goal with
             | H : (_ <= _ <= _)%Z |- _ => destruct H
             | H : (h < 180)%Z |- _ => apply H180 in H
             | H : (180 <= h)%Z |- _ => apply H180' in H
             | H : (h <= 720)%Z |- _ => apply H720 in H
             | H : (720 <= h)%Z |- _ => apply H720' in H
             end;
      first [reflexivity | lra | exfalso; lra].
  - assert (Hle : Qle_bool 0.25 q = false).
    { apply not_true_iff_false. intros Hc. apply Qle_bool_iff in Hc. lra. }
    assert (Hnote : Qltb q 0.25 = true) by (apply Qltb_lt; exact Hlt).
    rewrite Hle, Hnote.
    repeat split; intros;
      repeat match goal with
             | H : (_ <= _ <= _)%Z |- _ => destruct H
             | H : (h < 180)%Z |- _ => apply H180 in H
             | H : (180 <= h)%Z |- _ => apply H180' in H
             | H : (h <= 720)%Z |- _ => apply H720 in H
             | H : (720 <= h)%Z |- _ => apply H720' in H
             end;
      first [reflexivity | lra | exfalso; lra].
Qed.

(** X19. For a positive hourly price and a positive number of hours the
    discount report is produced, with a rate of 0 below 180 hours (a quarter
    of a 720-hour month), of [hours / 2400] from 180 to 720 hours and of
    0.30 from 720 hours on; the rate never exceeds 0.30, the discounted cost
    is the original cost less that share of it, and the savings percentage
    is the rate times 100. *)
Theorem sustained_use_discount_schedule (p : Q) (h : Z)
    (Hp : 0 < p) (Hh : (0 < h)%Z) :
  exists r, calculate_gcp_sustained_use_discount p h = Ok r /\
    ((h < 180)%Z -> discount_rate r = 0 /\ below_threshold r = true) /\
    ((180 <= h <= 720)%Z ->
       discount_rate r == inject_Z h / 2400 /\ below_threshold r = false) /\
    ((720 <= h)%Z -> discount_rate r == 0.30 /\ below_threshold r = false) /\
    0 <= discount_rate r <= 0.30 /\
    original_cost r = p * inject_Z h /\
    monthly_savings r == original_cost r * discount_rate r /\
    discounted_cost r == original_cost r - monthly_savings r /\
    annual_savings r == 12 * monthly_savings r /\
    discount_savings_percentage r == discount_rate r * 100.
Proof.
  pose proof (inject_Z_pos h Hh) as Hpos.
  assert (Hcost : 0 < p * inject_Z h) by (apply Qmult_lt_0_compat; assumption).
  assert (Hnz : ~ p * inject_Z h == 0) by lra.
  destruct (discount_Ok p h Hnz)
    as [r [Hr [Hu [Hrate [Ho [Hd [Hs [Ha [Hpct Hnote]]]]]]]]].
  exists r. split; [exact Hr |].
  pose proof (discount_rate_schedule h) as Hsched. cbv zeta in Hsched.
  rewrite <- Hu, <- Hrate, <- Hnote in Hsched.
  destruct Hsched as [Hlow [Hmid [Hhigh Hrange]]].
  split; [exact Hlow |]. split; [exact Hmid |]. split; [exact Hhigh |].
  split; [exact Hrange |]. split; [exact Ho |].
  assert (Hsav : monthly_savings r == original_cost r * discount_rate r)
    by (rewrite Hs, Hd; ring).
  split; [exact Hsav |].
  split; [rewrite Hs; ring |].
  split; [rewrite Ha; ring |].
  rewrite Hpct, Hsav. field. rewrite Ho. exact Hnz.
Qed.

Lemma sustained_use_discount_schedule_witness :
  exists r,
    calculate_gcp_sustained_use_discount
      (GCPPricingClient.mock_compute_price_per_hour "n1-standard-1" "us-central1") 360 = Ok r /\
    discount_rate r == 0.15 /\ discount_savings_percentage r == 15.
Proof.
  destruct (sustained_use_discount_schedule
              (GCPPricingClient.mock_compute_price_per_hour "n1-standard-1" "us-central1")
              360)
    as [r [Hr [_ [Hmid [_ [_ [_ [_ [_ [_ Hpct]]]]]]]]]];
    [apply gcp_compute_price_pos | lia |].
  exists r. split; [exact Hr |].
  destruct Hmid as [Hrate _]; [lia |].
  split; [rewrite Hrate; reflexivity | rewrite Hpct, Hrate; reflexivity].
Defined.

(** X20. The discount report fails exactly when the original cost is zero:
    with 0 hours, or with a price of zero, the savings percentage divides by
    zero and the tool answers with its error message; in every other case a
    report is produced. *)
Theorem sustained_use_discount_zero_hours (p : Q) (h : Z) :
  (calculate_gcp_sustained_use_discount p h = Raise ZeroDivisionError <->
   p == 0 \/ h = 0%Z) /\
  (returns (calculate_gcp_sustained_use_discount p h) <-> ~ p == 0 /\ h <> 0%Z).
Proof.
  assert (Hzero : p * inject_Z h == 0 <-> p == 0 \/ h = 0%Z).
  { rewrite <- inject_Z_zero. split.
    - apply Qmult_integral.
    - intros [Hz | Hz]; rewrite Hz; ring. }
  destruct (Qeq_dec (p * inject_Z h) 0) as [Hz | Hnz].
  - pose proof (discount_Raise p h Hz) as Hr. rewrite Hr.
    split.
    + split; [intros _; apply Hzero; exact Hz | reflexivity].
    + split.
      * intros [r Hc]. discriminate Hc.
      * intros [Hp Hh]. exfalso. apply Hzero in Hz. destruct Hz; contradiction.
  - destruct (discount_Ok p h Hnz) as [r [Hr _]]. rewrite Hr.
    split.
    + split; [discriminate | intros Hc; exfalso; apply Hnz, Hzero, Hc].
    + split.
      * intros _. split; [intros Hp | intros Hh]; apply Hnz, Hzero; auto.
      * intros _. exists r. reflexivity.
Qed.

(** X21. The discounted cost is not monotone in the hours: for a positive
    price, any use from 167 to 179 hours costs more than 180 hours, where
    the discount sets in. *)
Theorem sustained_use_discount_threshold (p : Q) (h : Z)
    (Hp : 0 < p) (Hh : (167 <= h < 180)%Z) :
  exists r r',
    calculate_gcp_sustained_use_discount p h = Ok r /\
    calculate_gcp_sustained_use_discount p 180 = Ok r' /\
    discounted_cost r' < discounted_cost r.
Proof.
  assert (Hpos : 0 < inject_Z h) by (apply inject_Z_pos; lia).
  assert (Hnz : ~ p * inject_Z h == 0).
  { assert (0 < p * inject_Z h) by (apply Qmult_lt_0_compat; assumption). lra. }
  assert (Hnz' : ~ p * inject_Z 180 == 0).
  { assert (0 < p * inject_Z 180) by (apply Qmult_lt_0_compat; [assumption | reflexivity]).
    lra. }
  destruct (discount_Ok p h Hnz) as [r [Hr [Hu [Hrate [Ho [Hd _]]]]]].
  destruct (discount_Ok p 180 Hnz') as [r' [Hr' [Hu' [Hrate' [Ho' [Hd' _]]]]]].
  exists r, r'. split; [exact Hr |]. split; [exact Hr' |].
  pose proof (discount_rate_schedule h) as Hs. cbv zeta in Hs.
  rewrite <- Hu, <- Hrate in Hs. destruct Hs as [Hlow _].
  destruct Hlow as [Hzero _]; [lia |].
  pose proof (discount_rate_schedule 180) as Hs'. cbv zeta in Hs'.
  rewrite <- Hu', <- Hrate' in Hs'. destruct Hs' as [_ [Hmid _]].
  destruct Hmid as [Hrate180 _]; [lia |].
  rewrite Hd, Hd', Ho, Ho', Hzero, Hrate180.
  assert (Hge : 167 <= inject_Z h) by (unfold Qle; cbn; lia).
  assert (Hval : p * inject_Z 180 * (1 - inject_Z 180 / 2400) == p * (333 # 2))
    by (cbn; field).
  rewrite Hval.
  assert (p * (333 # 2) < p * inject_Z h).
  { rewrite !(Qmult_comm p). apply Qmult_lt_compat_r; [exact Hp | lra]. }
  lra.
Qed.

Lemma sustained_use_discount_threshold_witness :
  exists r r',
    calculate_gcp_sustained_use_discount 0.0475 179 = Ok r /\
    calculate_gcp_sustained_use_discount 0.0475 180 = Ok r' /\
    discounted_cost r' < discounted_cost r.
Proof.
  apply (sustained_use_discount_threshold 0.0475 179); [reflexivity | lia].
Defined.

(** * The price tables of [compare_aws_instances] and [compare_gcp_instances] *)

(** ** Pieces of a comma-separated list *)

Lemma split_on_cons (sep : ascii) (s : string) :
  exists piece pieces, split_on sep s = piece :: pieces.
Proof.
  destruct s as [| c s]; cbn [split_on]; [eauto |].
  destruct (Ascii.eqb c sep); [eauto |].
  destruct (split_on sep s); eauto.
Qed.

Lemma join_on_cons (sep : ascii) (piece piece' : string) (rest : list string) :
  join_on sep (piece :: piece' :: rest)
  = (piece ++ String sep (join_on sep (piece' :: rest)))%string.
Proof. reflexivity. Qed.

(** X22. Splitting at a separator loses nothing: joining the pieces with
    the separator gives the text back, there is one piece more than there
    are separators in the text, and no piece contains the separator. *)
Theorem split_on_join (sep : ascii) (s : string) :
  join_on sep (split_on sep s) = s /\
  length (split_on sep s) = S (count_char sep s) /\
  Forall (fun piece => count_char sep piece = 0%nat) (split_on sep s).
Proof.
  induction s as [| c s [IHjoin [IHlen IHall]]].
  - repeat split. repeat constructor.
  - cbn [split_on count_char]. destruct (Ascii.eqb c sep) eqn:Hc.
    + apply Ascii.eqb_eq in Hc. subst c. split; [| split].
      * destruct (split_on_cons sep s) as [piece [pieces Hs]].
        rewrite Hs in *. rewrite join_on_cons, append_empty, IHjoin. reflexivity.
      * cbn [length]. rewrite IHlen. reflexivity.
      * constructor; [reflexivity | exact IHall].
    + destruct (split_on_cons sep s) as [piece [pieces Hs]].
      rewrite Hs in *. split; [| split].
      * destruct pieces as [| piece' pieces].
        -- cbn [join_on] in *. rewrite IHjoin. reflexivity.
        -- rewrite join_on_cons in *. rewrite append_String, IHjoin. reflexivity.
      * cbn [length] in *. rewrite IHlen. reflexivity.
      * inversion IHall as [| ? ? Hpiece Hrest]; subst.
        constructor; [| exact Hrest].
        cbn [count_char]. rewrite Hc, Hpiece. reflexivity.
Qed.

(** ** Sorting the quotes *)

Lemma insert_quote_perm (x : instance_quote) (l : list instance_quote) :
  insert_quote x l ≡ₚ x :: l.
Proof.
  induction l as [| y l IH]; cbn [insert_quote]; [reflexivity |].
  destruct (Qle_bool _ _); [reflexivity |].
  rewrite IH. apply perm_swap.
Qed.

Lemma sort_quotes_perm (l : list instance_quote) : sort_quotes l ≡ₚ l.
Proof.
  induction l as [| x l IH]; [reflexivity |].
  change (sort_quotes (x :: l)) with (insert_quote x (sort_quotes l)).
  rewrite insert_quote_perm, IH. reflexivity.
Qed.

Lemma insert_quote_sorted (x : instance_quote) (l : list instance_quote) :
  StronglySorted not_dearer l -> StronglySorted not_dearer (insert_quote x l).
Proof.
  induction 1 as [| y l Hl IH Hy]; cbn [insert_quote].
  - repeat constructor.
  - destruct (Qle_bool (iq_price_per_hour x) (iq_price_per_hour y)) eqn:Hxy.
    + apply Qle_bool_iff in Hxy.
      constructor; [constructor; assumption |].
      constructor; [exact Hxy |].
      apply (Forall_impl _ _ _ Hy). intros z Hz. unfold not_dearer in *. lra.
    + constructor; [exact IH |].
      rewrite insert_quote_perm. constructor; [| exact Hy].
      unfold not_dearer.
      destruct (Qlt_le_dec (iq_price_per_hour y) (iq_price_per_hour x)) as [Hlt | Hle];
        [lra |].
      apply Qle_bool_iff in Hle. congruence.
Qed.

Lemma sort_quotes_sorted (l : list instance_quote) :
  StronglySorted not_dearer (sort_quotes l).
Proof.
  induction l as [| x l IH]; [constructor |].
  change (sort_quotes (x :: l)) with (insert_quote x (sort_quotes l)).
  apply insert_quote_sorted, IH.
Qed.

(** The sort is stable: among the quotes of one price it changes nothing. *)
Lemma priced_at_insert (v : Q) (x : instance_quote) (l : list instance_quote) :
  priced_at v (insert_quote x l) = priced_at v (x :: l).
Proof.
  induction l as [| y l IH]; [reflexivity |].
  cbn [insert_quote].
  destruct (Qle_bool (iq_price_per_hour x) (iq_price_per_hour y)) eqn:Hxy;
    [reflexivity |].
  unfold priced_at in *. cbn [List.filter] in *. rewrite IH.
  case_Qeq (iq_price_per_hour y) v; case_Qeq (iq_price_per_hour x) v; try reflexivity.
  exfalso.
  assert (Hle : iq_price_per_hour x <= iq_price_per_hour y) by lra.
  apply Qle_bool_iff in Hle. congruence.
Qed.

Lemma priced_at_sort (v : Q) (l : list instance_quote) :
  priced_at v (sort_quotes l) = priced_at v l.
Proof.
  induction l as [| x l IH]; [reflexivity |].
  change (sort_quotes (x :: l)) with (insert_quote x (sort_quotes l)).
  rewrite priced_at_insert. unfold priced_at in *. cbn [List.filter].
  rewrite IH. reflexivity.
Qed.

(** ** The greatest price *)

Lemma fold_max_spec (l : list instance_quote) (m : Q) :
  m <= fold_left (fun m y => py_max m (iq_price_per_hour y)) l m /\
  Forall (fun y => iq_price_per_hour y
                   <= fold_left (fun m y => py_max m (iq_price_per_hour y)) l m) l /\
  (fold_left (fun m y => py_max m (iq_price_per_hour y)) l m = m \/
   Exists (fun y => fold_left (fun m y => py_max m (iq_price_per_hour y)) l m
                    = iq_price_per_hour y) l).
Proof.
  revert m. induction l as [| x l IH]; intros m; cbn [fold_left].
  - split; [lra |]. split; [constructor | left; reflexivity].
  - destruct (IH (py_max m (iq_price_per_hour x))) as [Hm [Hall Hex]].
    destruct (py_max_cases m (iq_price_per_hour x)) as [[Hlt Hmax] | [Hle Hmax]];
      rewrite Hmax in *.
    + split; [lra |]. split; [constructor; assumption |].
      right. destruct Hex as [Hex | Hex].
      * apply Exists_cons_hd. exact Hex.
      * apply Exists_cons_tl. exact Hex.
    + split; [exact Hm |]. split; [constructor; [lra | exact Hall] |].
      destruct Hex as [Hex | Hex]; [left; exact Hex |].
      right. apply Exists_cons_tl. exact Hex.
Qed.

Lemma max_price_spec (x : instance_quote) (l : list instance_quote) :
  Forall (fun y => iq_price_per_hour y <= max_price (x :: l)) (x :: l) /\
  Exists (fun y => max_price (x :: l) = iq_price_per_hour y) (x :: l).
Proof.
  unfold max_price.
  destruct (fold_max_spec l (iq_price_per_hour x)) as [Hm [Hall Hex]].
  split; [constructor; assumption |].
  destruct Hex as [Hex | Hex].
  - apply Exists_cons_hd. exact Hex.
  - apply Exists_cons_tl. exact Hex.
Qed.

(** ** The lines of the table *)

Lemma insert_quote_cons (x : instance_quote) (l : list instance_quote) :
  exists y l', insert_quote x l = y :: l'.
Proof.
  destruct l as [| y l]; cbn [insert_quote]; [eauto |].
  destruct (Qle_bool _ _); eauto.
Qed.

Lemma requested_quotes_cons (price : string -> Q) (instance_types : string) :
  exists x l,
    sort_quotes (map (get_quote price) (map strip (split_on "," instance_types)))
    = x :: l.
Proof.
  destruct (split_on_cons "," instance_types) as [piece [pieces ->]].
  cbn [map]. apply insert_quote_cons.
Qed.

Lemma quotes_from_client (price : string -> Q) (requested : list string) :
  Forall (fun q => iq_price_per_hour q = price (iq_type q))
         (sort_quotes (map (get_quote price) requested)).
Proof.
  rewrite sort_quotes_perm. apply Forall_map, Forall_forall. reflexivity.
Qed.

Lemma table_row_Ok (highest : Q) (data : instance_quote) :
  ~ highest == 0 ->
  table_row highest data
  = Ok {| row_type := iq_type data;
          row_price_per_hour := iq_price_per_hour data;
          row_price_per_month := iq_price_per_hour data * 24 * 30;
          row_savings := (highest - iq_price_per_hour data) / highest * 100 |}.
Proof.
  intros Hh. unfold table_row. rewrite (py_div_Ok _ _ Hh). reflexivity.
Qed.

Lemma table_row_Raise (highest : Q) (data : instance_quote) :
  highest == 0 -> table_row highest data = Raise ZeroDivisionError.
Proof.
  intros Hh. unfold table_row. rewrite (py_div_Raise _ _ Hh). reflexivity.
Qed.

Lemma table_rows_Ok (highest : Q) (l : list instance_quote) :
  ~ highest == 0 ->
  exists rows,
    mapM (table_row highest) l = Ok rows /\
    map row_quote rows = l /\
    Forall (fun row =>
              row_price_per_month row = row_price_per_hour row * 24 * 30 /\
              row_savings row = (highest - row_price_per_hour row) / highest * 100)
           rows.
Proof.
  intros Hh. induction l as [| [t p] l [rows [IH [Hq Hrows]]]].
  - exists []. repeat split. constructor.
  - eexists. cbn [mapM].
    rewrite (table_row_Ok _ _ Hh), bind_Ok, IH, bind_Ok.
    split; [reflexivity |]. cbn [map row_quote row_type row_price_per_hour iq_type
                                   iq_price_per_hour].
    split; [rewrite Hq; reflexivity |].
    constructor; [split; reflexivity | exact Hrows].
Qed.

Lemma table_rows_Raise (highest : Q) (x : instance_quote) (l : list instance_quote) :
  highest == 0 -> mapM (table_row highest) (x :: l) = Raise ZeroDivisionError.
Proof.
  intros Hh. cbn [mapM]. rewrite (table_row_Raise _ _ Hh). reflexivity.
Qed.

Lemma compare_instances_Raise (price : string -> Q) (instance_types : string) :
  max_price (sort_quotes (map (get_quote price)
                              (map strip (split_on "," instance_types)))) == 0 ->
  compare_instances price instance_types = Raise ZeroDivisionError.
Proof.
  intros Hh. unfold compare_instances. cbv zeta.
  destruct (requested_quotes_cons price instance_types) as [x [l Hdata]].
  rewrite Hdata in *. rewrite (table_rows_Raise _ _ _ Hh). reflexivity.
Qed.

Lemma compare_instances_Ok (price : string -> Q) (instance_types : string) :
  ~ max_price (sort_quotes (map (get_quote price)
                                (map strip (split_on "," instance_types)))) == 0 ->
  exists c first rest,
    compare_instances price instance_types = Ok c /\
    sort_quotes (map (get_quote price) (map strip (split_on "," instance_types)))
    = first :: rest /\
    map row_quote (ic_rows c) = first :: rest /\
    Forall (fun row =>
              row_price_per_month row = row_price_per_hour row * 24 * 30 /\
              row_savings row
              = (max_price (first :: rest) - row_price_per_hour row)
                / max_price (first :: rest) * 100)
           (ic_rows c) /\
    ic_cheapest c = Some first /\
    ic_most_expensive c = last (first :: rest) /\
    ic_max_savings c
    = (max_price (first :: rest) - iq_price_per_hour first)
      / max_price (first :: rest) * 100.
Proof.
  intros Hh. unfold compare_instances. cbv zeta.
  destruct (requested_quotes_cons price instance_types) as [x [l Hdata]].
  rewrite Hdata in *.
  destruct (table_rows_Ok _ (x :: l) Hh) as [rows [Hrows [Hq Hall]]].
  rewrite Hrows, bind_Ok. cbn [head default].
  rewrite (py_div_Ok _ _ Hh), bind_Ok.
  eexists _, x, l. split; [reflexivity |].
  cbn [ic_rows ic_cheapest ic_most_expensive ic_max_savings].
  repeat split; assumption.
Qed.

Lemma compare_instances_Ok_inv (price : string -> Q) (instance_types : string)
    (c : instance_comparison) :
  compare_instances price instance_types = Ok c ->
  ~ max_price (sort_quotes (map (get_quote price)
                                (map strip (split_on "," instance_types)))) == 0.
Proof.
  intros Hc Hh. rewrite (compare_instances_Raise _ _ Hh) in Hc. discriminate.
Qed.

Lemma last_map {A B : Type} (f : A -> B) (l : list A) :
  last (map f l) = option_map f (last l).
Proof.
  induction l as [| x [| y l] IH]; [reflexivity | reflexivity |].
  exact IH.
Qed.

Lemma sorted_map {A B : Type} (R : B -> B -> Prop) (f : A -> B) (l : list A) :
  StronglySorted R (map f l) -> StronglySorted (fun x y => R (f x) (f y)) l.
Proof.
  induction l as [| x l IH]; intros H; [constructor |].
  cbn [map] in H. apply StronglySorted_inv in H. destruct H as [Hl Hx].
  constructor; [apply IH, Hl |].
  exact (proj1 (Forall_map f (R (f x)) l) Hx).
Qed.

Lemma sorted_last (l : list instance_quote) (q : instance_quote) :
  StronglySorted not_dearer l -> last l = Some q ->
  Forall (fun y => not_dearer y q) l.
Proof.
  induction 1 as [| x l Hl IH Hx]; intros Hlast; [constructor |].
  destruct l as [| y l].
  - injection Hlast as <-. constructor; [unfold not_dearer; lra | constructor].
  - change (last (x :: y :: l)) with (last (y :: l)) in Hlast.
    specialize (IH Hlast). constructor; [| exact IH].
    inversion Hx as [| ? ? Hxy _]; subst. inversion IH as [| ? ? Hyq _]; subst.
    unfold not_dearer in *. lra.
Qed.

(** With positive prices the greatest price is positive. *)
Lemma max_price_pos (price : string -> Q) (requested : list string)
    (x : instance_quote) (l : list instance_quote) :
  (forall t, 0 < price t) ->
  sort_quotes (map (get_quote price) requested) = x :: l ->
  0 < max_price (x :: l).
Proof.
  intros Hpos Hdata.
  destruct (max_price_spec x l) as [_ Hex].
  apply Exists_exists in Hex. destruct Hex as [y [Hin ->]].
  pose proof (quotes_from_client price requested) as Hq.
  rewrite Hdata in Hq. rewrite Forall_forall in Hq.
  rewrite (Hq y Hin). apply Hpos.
Qed.

Lemma requested_types (price : string -> Q) (requested : list string) :
  map iq_type (map (get_quote price) requested) = requested.
Proof.
  induction requested as [| t l IH]; [reflexivity |].
  cbn [map get_quote iq_type]. f_equal. exact IH.
Qed.

Lemma row_types (rows : list price_row) :
  map row_type rows = map iq_type (map row_quote rows).
Proof.
  induction rows as [| row rows IH]; [reflexivity |].
  cbn [map row_quote iq_type]. f_equal. exact IH.
Qed.

Lemma table_length (price : string -> Q) (instance_types : string)
    (rows : list price_row) :
  map row_quote rows
  = sort_quotes (map (get_quote price) (map strip (split_on "," instance_types))) ->
  length rows = S (count_char "," instance_types).
Proof.
  intros Hq.
  rewrite <- (length_map row_quote rows), Hq, (Permutation_length (sort_quotes_perm _)).
  rewrite !length_map. apply split_on_join.
Qed.

Lemma positive_prices_return (price : string -> Q) (instance_types : string) :
  (forall t, 0 < price t) ->
  0 < max_price (sort_quotes (map (get_quote price)
                                  (map strip (split_on "," instance_types)))).
Proof.
  intros Hpos.
  destruct (requested_quotes_cons price instance_types) as [x [l Hdata]].
  rewrite Hdata. exact (max_price_pos price _ x l Hpos Hdata).
Qed.

(** X23. With positive prices both tools, after the check of the region,
    answer with a table: its lines are the requested types, each stripped
    of the white space around it, in some order and as often as they were
    requested, one line more than there are commas in the request; the lines
    are in ascending order of the hourly price; every line shows the hourly
    price of its type and 24 times 30 times that price as the monthly
    price. *)
Theorem instance_table_sorted (price : string -> Q) (instance_types : string)
    (Hpos : forall t, 0 < price t) :
  exists c,
    compare_instances price instance_types = Ok c /\
    map row_type (ic_rows c) ≡ₚ map strip (split_on "," instance_types) /\
    length (ic_rows c) = S (count_char "," instance_types) /\
    StronglySorted (fun r1 r2 => row_price_per_hour r1 <= row_price_per_hour r2)
                   (ic_rows c) /\
    Forall (fun row =>
              row_price_per_hour row = price (row_type row) /\
              row_price_per_month row = price (row_type row) * 24 * 30)
           (ic_rows c).
Proof.
  pose proof (positive_prices_return price instance_types Hpos) as Hh.
  destruct (compare_instances_Ok price instance_types)
    as [c [first [rest [Hc [Hd [Hq [Hall _]]]]]]]; [lra |].
  rewrite <- Hd in Hq. clear Hd Hh.
  exists c. split; [exact Hc |].
  split; [| split; [| split]].
  - rewrite row_types, Hq.
    rewrite <- (requested_types price (map strip (split_on "," instance_types))) at 2.
    apply Permutation_map, sort_quotes_perm.
  - exact (table_length price instance_types _ Hq).
  - apply (sorted_map not_dearer row_quote). rewrite Hq. apply sort_quotes_sorted.
  - pose proof (quotes_from_client price (map strip (split_on "," instance_types))) as Hp.
    rewrite <- Hq in Hp.
    pose proof (proj1 (Forall_map row_quote _ (ic_rows c)) Hp) as Hp'.
    rewrite Forall_forall in *. intros row Hin.
    destruct (Hall row Hin) as [Hmonth _]. specialize (Hp' row Hin).
    cbn [row_quote iq_type iq_price_per_hour] in Hp'.
    rewrite Hmonth, Hp'. split; reflexivity.
Qed.

Lemma instance_table_sorted_witness :
  exists c,
    compare_instances (fun t => AWSPricingClient.mock_ec2_price_per_hour t "us-east-1")
                      "m5.large, t3.micro" = Ok c /\
    map row_type (ic_rows c) ≡ₚ ["m5.large"; "t3.micro"] /\
    length (ic_rows c) = 2%nat.
Proof.
  destruct (instance_table_sorted
              (fun t => AWSPricingClient.mock_ec2_price_per_hour t "us-east-1")
              "m5.large, t3.micro")
    as [c [Hc [Hperm [Hlen _]]]].
  - intros t. apply aws_ec2_price_pos.
  - exists c. split; [exact Hc |]. split; [exact Hperm | exact Hlen].
Defined.

Lemma savings_monotone (highest p p' : Q) :
  0 < highest -> p <= p' ->
  (highest - p') / highest * 100 <= (highest - p) / highest * 100.
Proof.
  intros Hh Hp.
  assert (Ht : 0 < / highest) by (apply Qinv_lt_0_compat; exact Hh).
  unfold Qdiv. apply Qmult_le_compat_r; [| lra].
  apply Qmult_le_compat_r; lra.
Qed.

(** X24. With positive prices the recommendations under the table are
    read off its first and last line: the cheapest instance is the first
    line and the most expensive the last one, every line's price lies between
    theirs, every line's saving against the greatest price is at least 0,
    below 100 and at most the maximal saving, the last line saves 0 and the
    maximal saving is that of the first line. *)
Theorem instance_table_savings (price : string -> Q) (instance_types : string)
    (Hpos : forall t, 0 < price t) :
  exists c cheapest dearest,
    compare_instances price instance_types = Ok c /\
    head (ic_rows c) = Some cheapest /\
    last (ic_rows c) = Some dearest /\
    ic_cheapest c = Some (row_quote cheapest) /\
    ic_most_expensive c = Some (row_quote dearest) /\
    Forall (fun row =>
              row_price_per_hour cheapest <= row_price_per_hour row
                <= row_price_per_hour dearest /\
              0 <= row_savings row < 100 /\
              row_savings row <= ic_max_savings c)
           (ic_rows c) /\
    row_savings dearest == 0 /\
    ic_max_savings c = row_savings cheapest.
Proof.
  pose proof (positive_prices_return price instance_types Hpos) as Hh.
  pose proof (quotes_from_client price (map strip (split_on "," instance_types))) as Hclient.
  pose proof (sort_quotes_sorted
                (map (get_quote price) (map strip (split_on "," instance_types)))) as Hsorted.
  destruct (compare_instances_Ok price instance_types)
    as [c [first [rest [Hc [Hd [Hq [Hall [Hch [Hme Hms]]]]]]]]]; [lra |].
  rewrite Hd in Hh, Hclient, Hsorted. clear Hd.
  destruct (max_price_spec first rest) as [Hmax Hattained].
  set (highest := max_price (first :: rest)) in *.
  destruct (ic_rows c) as [| cheapest rows] eqn:Hrows; [discriminate |].
  destruct (last (cheapest :: rows)) as [dearest |] eqn:Hlast;
    [| apply last_None in Hlast; discriminate].
  pose proof (last_map row_quote (cheapest :: rows)) as Hlastq.
  rewrite Hq, Hlast in Hlastq. cbn [option_map] in Hlastq.
  pose proof (sorted_last _ _ Hsorted Hlastq) as Hbelow.
  apply StronglySorted_inv in Hsorted. destruct Hsorted as [_ Habove].
  assert (Hfirst : row_quote cheapest = first) by (injection Hq as H _; exact H).
  assert (Hpfirst : iq_price_per_hour first = row_price_per_hour cheapest)
    by (rewrite <- Hfirst; reflexivity).
  assert (Habove' : Forall (not_dearer first) (first :: rest))
    by (constructor; [unfold not_dearer; lra | exact Habove]).
  assert (Htop : highest == row_price_per_hour dearest).
  { apply Qle_antisym.
    - apply Exists_exists in Hattained. destruct Hattained as [y [Hin ->]].
      rewrite Forall_forall in Hbelow. exact (Hbelow y Hin).
    - rewrite Forall_forall in Hmax. apply (Hmax (row_quote dearest)).
      apply last_Some_elem_of. exact Hlastq. }
  rewrite <- Hq in Hclient, Hmax, Hbelow, Habove'.
  pose proof (proj1 (Forall_map row_quote _ _) Hclient) as Hclient'.
  pose proof (proj1 (Forall_map row_quote _ _) Hmax) as Hmax'.
  pose proof (proj1 (Forall_map row_quote _ _) Hbelow) as Hbelow'.
  pose proof (proj1 (Forall_map row_quote _ _) Habove') as Habove''.
  exists c, cheapest, dearest. rewrite Hrows.
  split; [exact Hc |]. split; [reflexivity |]. split; [exact Hlast |].
  split; [rewrite Hch, Hfirst; reflexivity |].
  split; [rewrite Hme, Hlastq; reflexivity |].
  assert (Hsavings : forall row, row ∈ cheapest :: rows ->
            row_savings row = (highest - row_price_per_hour row) / highest * 100).
  { intros row Hin. rewrite Forall_forall in Hall. apply (Hall row Hin). }
  split; [| split].
  - rewrite Forall_forall in *. intros row Hin.
    specialize (Hclient' row Hin). specialize (Hmax' row Hin).
    specialize (Hbelow' row Hin). specialize (Habove'' row Hin).
    unfold not_dearer in Hbelow', Habove''.
    cbn [row_quote iq_type iq_price_per_hour] in Hclient', Hmax', Hbelow', Habove''.
    pose proof (Hpos (row_type row)) as Hprice. rewrite <- Hclient' in Hprice.
    split; [rewrite <- Hpfirst; split; assumption |].
    rewrite (Hsavings row Hin), Hms.
    destruct (percentage_facts (highest - row_price_per_hour row) highest Hh)
      as [Hbounds [_ [Hfull _]]]; [lra |].
    split.
    + split; [apply Hbounds |].
      destruct (Qlt_le_dec ((highest - row_price_per_hour row) / highest * 100) 100)
        as [Hlt | Hge]; [exact Hlt | exfalso].
      assert (Heq : (highest - row_price_per_hour row) / highest * 100 == 100)
        by (apply Qle_antisym; [apply Hbounds | exact Hge]).
      apply Hfull in Heq. lra.
    + apply savings_monotone; [exact Hh | exact Habove''].
  - rewrite (Hsavings dearest) by (apply last_Some_elem_of; exact Hlast).
    destruct (percentage_facts (highest - row_price_per_hour dearest) highest Hh)
      as [_ [Hzero _]]; [lra |].
    apply Hzero. lra.
  - rewrite Hms, Hpfirst. symmetry. apply Hsavings. apply list_elem_of_here.
Qed.

Lemma instance_table_savings_witness :
  exists c cheapest dearest,
    compare_instances (fun t => GCPPricingClient.mock_compute_price_per_hour t "us-central1")
                      "n1-standard-1,e2-micro" = Ok c /\
    head (ic_rows c) = Some cheapest /\
    last (ic_rows c) = Some dearest /\
    row_savings dearest == 0 /\
    ic_max_savings c = row_savings cheapest.
Proof.
  destruct (instance_table_savings
              (fun t => GCPPricingClient.mock_compute_price_per_hour t "us-central1")
              "n1-standard-1,e2-micro")
    as [c [cheapest [dearest [Hc [Hhead [Hlast [_ [_ [_ [Hzero Hmax]]]]]]]]]].
  - intros t. apply gcp_compute_price_pos.
  - exists c, cheapest, dearest. repeat split; assumption.
Defined.

(** X25. The table keeps the order of the request among equal prices:
    in every returned comparison the lines at any one hourly price are the
    requested types of that price in the order in which they were
    requested. *)
Theorem instance_table_stable (price : string -> Q) (instance_types : string)
    (c : instance_comparison) (v : Q)
    (Hc : compare_instances price instance_types = Ok c) :
  priced_at v (map row_quote (ic_rows c))
  = priced_at v (map (get_quote price) (map strip (split_on "," instance_types))).
Proof.
  pose proof (compare_instances_Ok_inv _ _ _ Hc) as Hh.
  destruct (compare_instances_Ok price instance_types Hh)
    as [c' [first [rest [Hc' [Hd [Hq _]]]]]].
  rewrite Hc in Hc'. injection Hc' as <-.
  rewrite Hq, <- Hd. apply priced_at_sort.
Qed.

Lemma instance_table_stable_witness :
  exists c,
    compare_instances (fun t => AWSPricingClient.mock_ec2_price_per_hour t "us-east-1")
                      "zz,t3.micro,yy" = Ok c /\
    map iq_type (priced_at 0.1 (map row_quote (ic_rows c))) = ["zz"; "yy"].
Proof.
  destruct (compare_instances_Ok
              (fun t => AWSPricingClient.mock_ec2_price_per_hour t "us-east-1")
              "zz,t3.micro,yy")
    as [c [_ [_ [Hc _]]]]; [vm_compute; discriminate |].
  exists c. split; [exact Hc |].
  rewrite (instance_table_stable _ _ c 0.1 Hc). reflexivity.
Defined.

(** X26. Without credentials both tools answer every request for a
    supported region with a table, whatever the requested types are: the
    table has one line more than the request has commas.  For any other
    region the answer is that the region is not supported, whatever the
    client and the request. *)
Theorem fallback_instance_tables (instance_types region : string) :
  (region ∈ AWS_REGIONS ->
   exists c,
     compare_aws_instances AWSPricingClient.mock_ec2_price_per_hour instance_types region
     = Some (Ok c) /\
     length (ic_rows c) = S (count_char "," instance_types)) /\
  (region ∈ GCP_REGIONS ->
   exists c,
     compare_gcp_instances GCPPricingClient.mock_compute_price_per_hour instance_types region
     = Some (Ok c) /\
     length (ic_rows c) = S (count_char "," instance_types)) /\
  (region ∉ AWS_REGIONS ->
   forall client, compare_aws_instances client instance_types region = None) /\
  (region ∉ GCP_REGIONS ->
   forall client, compare_gcp_instances client instance_types region = None).
Proof.
  split; [| split; [| split]].
  - intros Hregion. unfold compare_aws_instances.
    rewrite (bool_decide_eq_true_2 _ Hregion).
    pose proof (positive_prices_return
                  (fun t => AWSPricingClient.mock_ec2_price_per_hour t region)
                  instance_types (fun t => aws_ec2_price_pos t region)) as Hh.
    destruct (compare_instances_Ok _ instance_types (Qnot_eq_sym _ _ (Qlt_not_eq _ _ Hh)))
      as [c [first [rest [Hc [Hd [Hq _]]]]]].
    exists c. split; [rewrite Hc; reflexivity |].
    rewrite <- Hd in Hq. exact (table_length _ _ _ Hq).
  - intros Hregion. unfold compare_gcp_instances.
    rewrite (bool_decide_eq_true_2 _ Hregion).
    pose proof (positive_prices_return
                  (fun t => GCPPricingClient.mock_compute_price_per_hour t region)
                  instance_types (fun t => gcp_compute_price_pos t region)) as Hh.
    destruct (compare_instances_Ok _ instance_types (Qnot_eq_sym _ _ (Qlt_not_eq _ _ Hh)))
      as [c [first [rest [Hc [Hd [Hq _]]]]]].
    exists c. split; [rewrite Hc; reflexivity |].
    rewrite <- Hd in Hq. exact (table_length _ _ _ Hq).
  - intros Hregion client. unfold compare_aws_instances.
    rewrite (bool_decide_eq_false_2 _ Hregion). reflexivity.
  - intros Hregion client. unfold compare_gcp_instances.
    rewrite (bool_decide_eq_false_2 _ Hregion). reflexivity.
Qed.

(** X27. Free instances break the comparison: when none of the requested
    types has a positive hourly price and one of them costs nothing, the
    greatest price is zero and both tools, for a supported region, end in
    the division by zero of the savings instead of a table. *)
Theorem free_instances_raise (client : string -> string -> Q)
    (instance_types region : string)
    (Hnone : Forall (fun t => client t region <= 0)
                    (map strip (split_on "," instance_types)))
    (Hfree : Exists (fun t => client t region == 0)
                    (map strip (split_on "," instance_types))) :
  (region ∈ AWS_REGIONS ->
   compare_aws_instances client instance_types region = Some (Raise ZeroDivisionError)) /\
  (region ∈ GCP_REGIONS ->
   compare_gcp_instances client instance_types region = Some (Raise ZeroDivisionError)).
Proof.
  assert (Hraise : compare_instances (fun t => client t region) instance_types
                   = Raise ZeroDivisionError).
  { apply compare_instances_Raise.
    set (price := fun t => client t region).
    set (requested := map strip (split_on "," instance_types)) in *.
    assert (Hnone' : Forall (fun q => iq_price_per_hour q <= 0)
                            (sort_quotes (map (get_quote price) requested))).
    { rewrite sort_quotes_perm. apply Forall_map. exact Hnone. }
    assert (Hfree' : Exists (fun q => iq_price_per_hour q == 0)
                            (sort_quotes (map (get_quote price) requested))).
    { rewrite sort_quotes_perm. apply Exists_map. exact Hfree. }
    destruct (requested_quotes_cons price instance_types) as [x [l Hdata]].
    fold requested in Hdata. rewrite Hdata in *.
    destruct (max_price_spec x l) as [Hmax Hattained].
    apply Qle_antisym.
    - apply Exists_exists in Hattained. destruct Hattained as [y [Hin ->]].
      rewrite Forall_forall in Hnone'. exact (Hnone' y Hin).
    - apply Exists_exists in Hfree'. destruct Hfree' as [y [Hin Hy]].
      rewrite Forall_forall in Hmax. rewrite <- Hy. exact (Hmax y Hin). }
  split; intros Hregion.
  - unfold compare_aws_instances.
    rewrite (bool_decide_eq_true_2 _ Hregion), Hraise. reflexivity.
  - unfold compare_gcp_instances.
    rewrite (bool_decide_eq_true_2 _ Hregion), Hraise. reflexivity.
Qed.

Lemma free_instances_raise_witness :
  compare_aws_instances (fun _ _ => 0) "t3.micro, t3.small" "us-east-1"
  = Some (Raise ZeroDivisionError).
Proof.
  apply (free_instances_raise (fun _ _ => 0) "t3.micro, t3.small" "us-east-1").
  - change (map strip (split_on "," "t3.micro, t3.small")) with ["t3.micro"; "t3.small"].
    repeat constructor; discriminate.
  - change (map strip (split_on "," "t3.micro, t3.small")) with ["t3.micro"; "t3.small"].
    apply Exists_cons_hd. reflexivity.
  - apply (bool_decide_unpack _). vm_compute. exact I.
Defined.

(** ** White space around the requested types *)

Lemma lstrip_spec (s : string) :
  (exists pre, s = (pre ++ lstrip s)%string /\ all_chars isspace pre = true) /\
  (forall c rest, lstrip s = String c rest -> isspace c = false).
Proof.
  induction s as [| x s [[pre [Hs Hpre]] IH]].
  - split; [exists EmptyString; split; reflexivity | discriminate].
  - cbn [lstrip]. destruct (isspace x) eqn:Hx.
    + split; [| exact IH].
      exists (String x pre). rewrite append_String, <- Hs.
      split; [reflexivity |]. cbn [all_chars]. rewrite Hx, Hpre. reflexivity.
    + split; [exists EmptyString; split; reflexivity |].
      intros c rest Hc. injection Hc as <- _. exact Hx.
Qed.

Lemma snoc_single (a : string) (c d : ascii) :
  (a ++ String c EmptyString)%string = String d EmptyString ->
  a = EmptyString /\ c = d.
Proof.
  destruct a as [| x a]; intros H.
  - rewrite append_empty in H. injection H as <-. split; reflexivity.
  - rewrite append_String in H. injection H as _ H.
    exfalso. exact (snoc_not_empty _ _ H).
Qed.

Lemma rstrip_spec (s : string) :
  (exists post, s = (rstrip s ++ post)%string /\ all_chars isspace post = true) /\
  (forall rest c, rstrip s = (rest ++ String c EmptyString)%string -> isspace c = false).
Proof.
  induction s as [| x s [[post [Hs Hpost]] IH]].
  - split; [exists EmptyString; split; reflexivity |].
    intros rest c H. symmetry in H. exfalso. exact (snoc_not_empty _ _ H).
  - cbn [rstrip]. destruct (rstrip s) as [| d r] eqn:Hr.
    + rewrite append_empty in Hs. subst post.
      destruct (isspace x) eqn:Hx.
      * split.
        -- exists (String x s). split; [reflexivity |].
           cbn [all_chars]. rewrite Hx, Hpost. reflexivity.
        -- intros rest c H. symmetry in H. exfalso. exact (snoc_not_empty _ _ H).
      * split.
        -- exists s. split; [reflexivity | exact Hpost].
        -- intros rest c H. symmetry in H.
           destruct (snoc_single _ _ _ H) as [_ ->]. exact Hx.
    + split.
      * exists post. rewrite append_String, <- Hs. split; [reflexivity | exact Hpost].
      * intros rest c H. destruct rest as [| y rest].
        -- rewrite append_empty in H. discriminate.
        -- rewrite append_String in H. injection H as _ H. exact (IH rest c H).
Qed.

Lemma rstrip_first (c : ascii) (s : string) :
  isspace c = false -> exists rest, rstrip (String c s) = String c rest.
Proof.
  intros Hc. cbn [rstrip]. destruct (rstrip s); [rewrite Hc |]; eauto.
Qed.

Lemma rstrip_cons (x : ascii) (s : string) :
  rstrip (String x s)
  = match rstrip s with
    | EmptyString => if isspace x then EmptyString else String x EmptyString
    | String d r => String x (String d r)
    end.
Proof. reflexivity. Qed.

Lemma rstrip_idempotent (s : string) : rstrip (rstrip s) = rstrip s.
Proof.
  induction s as [| x s IH]; [reflexivity |].
  rewrite rstrip_cons. destruct (rstrip s) as [| d r] eqn:Hr.
  - destruct (isspace x) eqn:Hx; [reflexivity |].
    rewrite rstrip_cons, Hx. reflexivity.
  - rewrite rstrip_cons, IH. reflexivity.
Qed.

Lemma strip_first (s : string) (c : ascii) (rest : string) :
  strip s = String c rest -> isspace c = false.
Proof.
  unfold strip. destruct (lstrip_spec s) as [_ Hfirst].
  destruct (lstrip s) as [| d u] eqn:Hl; [discriminate |].
  pose proof (Hfirst d u eq_refl) as Hd.
  destruct (rstrip_first d u Hd) as [r ->].
  intros H. injection H as <- _. exact Hd.
Qed.

Lemma strip_idempotent (s : string) : strip (strip s) = strip s.
Proof.
  unfold strip at 1.
  assert (Hl : lstrip (strip s) = strip s).
  { destruct (strip s) as [| c rest] eqn:Hs; [reflexivity |].
    cbn [lstrip]. rewrite (strip_first s c rest Hs). reflexivity. }
  rewrite Hl. unfold strip. apply rstrip_idempotent.
Qed.

(** X28. The types of the table carry no white space around them: every
    line's type of a returned comparison neither begins nor ends with a
    white-space character and stripping it again changes nothing; and each
    requested piece that is ASCII text is its stripped form with white space
    before and after it.  (Beyond ASCII a piece may begin or end with white
    space that [isspace] does not know, which is why the second statement is
    made for ASCII pieces.) *)
Theorem instance_table_types_stripped (price : string -> Q) (instance_types : string)
    (c : instance_comparison)
    (Hc : compare_instances price instance_types = Ok c) :
  Forall (fun row =>
            strip (row_type row) = row_type row /\
            (forall ch rest, row_type row = String ch rest -> isspace ch = false) /\
            (forall rest ch, row_type row = (rest ++ String ch EmptyString)%string ->
                             isspace ch = false))
         (ic_rows c) /\
  Forall (fun piece =>
            all_chars is_ascii piece = true ->
            exists pre post,
              piece = (pre ++ strip piece ++ post)%string /\
              all_chars isspace pre = true /\ all_chars isspace post = true)
         (split_on "," instance_types).
Proof.
  split.
  - pose proof (compare_instances_Ok_inv _ _ _ Hc) as Hh.
    destruct (compare_instances_Ok price instance_types Hh)
      as [c' [first [rest [Hc' [Hd [Hq _]]]]]].
    rewrite Hc in Hc'. injection Hc' as <-.
    assert (Htypes : map row_type (ic_rows c)
                     ≡ₚ map strip (split_on "," instance_types)).
    { rewrite row_types, Hq, <- Hd.
      rewrite <- (requested_types price (map strip (split_on "," instance_types))) at 2.
      apply Permutation_map, sort_quotes_perm. }
    apply (Forall_map row_type
             (fun t => strip t = t /\
                       (forall ch rest, t = String ch rest -> isspace ch = false) /\
                       (forall rest ch, t = (rest ++ String ch EmptyString)%string ->
                                        isspace ch = false))).
    rewrite Htypes. apply Forall_map, Forall_forall. intros piece _.
    split; [apply strip_idempotent |]. split.
    + apply strip_first.
    + unfold strip. apply rstrip_spec.
  - apply Forall_forall. intros piece _ _.
    destruct (lstrip_spec piece) as [[pre [Hpre Hspace]] _].
    destruct (rstrip_spec (lstrip piece)) as [[post [Hpost Hspace']] _].
    exists pre, post. unfold strip. rewrite <- Hpost, <- Hpre.
    repeat split; assumption.
Qed.

Lemma instance_table_types_stripped_witness :
  exists c,
    compare_instances (fun t => AWSPricingClient.mock_ec2_price_per_hour t "us-east-1")
                      " m5.large ,t3.micro" = Ok c /\
    Forall (fun row => strip (row_type row) = row_type row) (ic_rows c).
Proof.
  destruct (compare_instances_Ok
              (fun t => AWSPricingClient.mock_ec2_price_per_hour t "us-east-1")
              " m5.large ,t3.micro")
    as [c [_ [_ [Hc _]]]]; [vm_compute; discriminate |].
  exists c. split; [exact Hc |].
  destruct (instance_table_types_stripped _ _ c Hc) as [Hrows _].
  apply (Forall_impl _ _ _ Hrows). intros row [Hrow _]. exact Hrow.
Defined.

(** ** The unit of the prices *)

Lemma Qle_bool_scale (k a b a' b' : Q) :
  0 < k -> a' == k * a -> b' == k * b -> Qle_bool a' b' = Qle_bool a b.
Proof.
  intros Hk Ha Hb.
  destruct (Qle_bool a b) eqn:Hab.
  - apply Qle_bool_iff. apply Qle_bool_iff in Hab.
    rewrite Ha, Hb. apply Qmult_le_l; assumption.
  - apply not_true_iff_false. apply not_true_iff_false in Hab.
    intros H. apply Hab. apply Qle_bool_iff. apply Qle_bool_iff in H.
    rewrite Ha, Hb in H. apply (Qmult_le_l _ _ k Hk). exact H.
Qed.

Lemma insert_quote_scaled (k : Q) (x x' : instance_quote) (l l' : list instance_quote) :
  0 < k -> scaled k x x' -> Forall2 (scaled k) l l' ->
  Forall2 (scaled k) (insert_quote x l) (insert_quote x' l').
Proof.
  intros Hk Hx Hl. induction Hl as [| y y' l l' Hy Hl IH]; cbn [insert_quote].
  - constructor; [exact Hx | constructor].
  - rewrite (Qle_bool_scale k (iq_price_per_hour x) (iq_price_per_hour y)
                            _ _ Hk (proj2 Hx) (proj2 Hy)).
    destruct (Qle_bool (iq_price_per_hour x) (iq_price_per_hour y)).
    + constructor; [exact Hx |]. constructor; assumption.
    + constructor; assumption.
Qed.

Lemma sort_quotes_scaled (k : Q) (l l' : list instance_quote) :
  0 < k -> Forall2 (scaled k) l l' ->
  Forall2 (scaled k) (sort_quotes l) (sort_quotes l').
Proof.
  intros Hk Hl. induction Hl as [| x x' l l' Hx Hl IH]; [constructor |].
  change (sort_quotes (x :: l)) with (insert_quote x (sort_quotes l)).
  change (sort_quotes (x' :: l')) with (insert_quote x' (sort_quotes l')).
  apply insert_quote_scaled; assumption.
Qed.

Lemma py_max_scaled (k m y m' y' : Q) :
  0 < k -> m' == k * m -> y' == k * y -> py_max m' y' == k * py_max m y.
Proof.
  intros Hk Hm Hy. unfold py_max.
  rewrite (Qltb_proper m' (k * m) y' (k * y) Hm Hy), (Qltb_scale k m y Hk).
  destruct (Qltb m y); assumption.
Qed.

Lemma max_price_scaled (k : Q) (l l' : list instance_quote) :
  0 < k -> Forall2 (scaled k) l l' -> max_price l' == k * max_price l.
Proof.
  intros Hk Hl. destruct Hl as [| x x' l l' Hx Hl]; [cbn [max_price]; ring |].
  cbn [max_price]. destruct Hx as [_ Hx].
  revert Hx. generalize (iq_price_per_hour x) (iq_price_per_hour x').
  induction Hl as [| y y' l l' Hy Hl IH]; intros m m' Hm; cbn [fold_left].
  - exact Hm.
  - apply IH. apply py_max_scaled; [exact Hk | exact Hm | apply Hy].
Qed.

Lemma requested_quotes_scaled (k : Q) (price price' : string -> Q)
    (requested : list string) :
  (forall t, price' t == k * price t) ->
  Forall2 (scaled k) (map (get_quote price) requested) (map (get_quote price') requested).
Proof.
  intros Hscale. induction requested as [| t l IH]; [constructor |].
  cbn [map]. constructor; [| exact IH].
  split; [reflexivity | apply Hscale].
Qed.

Lemma scaled_types (k : Q) (l l' : list instance_quote) :
  Forall2 (scaled k) l l' -> map iq_type l' = map iq_type l.
Proof.
  induction 1 as [| x x' l l' [Hx _] Hl IH]; [reflexivity |].
  cbn [map]. rewrite Hx, IH. reflexivity.
Qed.

Lemma rows_related (R : instance_quote -> instance_quote -> Prop)
    (P P' : price_row -> Prop) (rows rows' : list price_row) :
  Forall2 R (map row_quote rows) (map row_quote rows') ->
  Forall P rows -> Forall P' rows' ->
  Forall2 (fun r r' => R (row_quote r) (row_quote r') /\ P r /\ P' r') rows rows'.
Proof.
  revert rows'. induction rows as [| r rows IH]; intros [| r' rows'] HR HP HP';
    cbn [map] in HR; inversion HR; subst; [constructor |].
  inversion HP; subst. inversion HP'; subst.
  constructor; [repeat split; assumption |].
  apply IH; assumption.
Qed.

Lemma savings_scaled (k highest p highest' p' : Q) :
  0 < k -> ~ highest == 0 -> highest' == k * highest -> p' == k * p ->
  (highest' - p') / highest' * 100 == (highest - p) / highest * 100.
Proof.
  intros Hk Hh Hh' Hp'. rewrite Hh', Hp'. field. split; [exact Hh | lra].
Qed.

(** X29. The table does not depend on the unit of the prices: when every
    hourly price is multiplied by one positive factor, as the fallback
    quotes of a European region are against those of the other regions, the
    comparison returns exactly when it returned before, with the same types
    in the same order, the same savings in every line, the same maximal
    saving and the same cheapest and most expensive type; an exception
    stays the same exception. *)
Theorem instance_table_scale_invariant (price price' : string -> Q) (k : Q)
    (instance_types : string)
    (Hk : 0 < k)
    (Hscale : forall t, price' t == k * price t) :
  (forall c,
     compare_instances price instance_types = Ok c ->
     exists c',
       compare_instances price' instance_types = Ok c' /\
       map row_type (ic_rows c') = map row_type (ic_rows c) /\
       Forall2 (fun r r' =>
                  row_price_per_hour r' == k * row_price_per_hour r /\
                  row_savings r' == row_savings r)
               (ic_rows c) (ic_rows c') /\
       ic_max_savings c' == ic_max_savings c /\
       option_map iq_type (ic_cheapest c') = option_map iq_type (ic_cheapest c) /\
       option_map iq_type (ic_most_expensive c')
       = option_map iq_type (ic_most_expensive c)) /\
  (forall e,
     compare_instances price instance_types = Raise e ->
     compare_instances price' instance_types = Raise e).
Proof.
  pose proof (sort_quotes_scaled k _ _ Hk
                (requested_quotes_scaled k price price'
                   (map strip (split_on "," instance_types)) Hscale)) as Hdata.
  pose proof (max_price_scaled k _ _ Hk Hdata) as Hmax.
  split.
  - intros c Hc.
    pose proof (compare_instances_Ok_inv _ _ _ Hc) as Hh.
    assert (Hh' : ~ max_price
                      (sort_quotes (map (get_quote price')
                                        (map strip (split_on "," instance_types)))) == 0).
    { rewrite Hmax. intros H. apply Hh.
      destruct (Qmult_integral _ _ H) as [H0 | H0]; [lra | exact H0]. }
    destruct (compare_instances_Ok price instance_types Hh)
      as [c0 [first [rest [Hc0 [Hd [Hq [Hall [Hch [Hme Hms]]]]]]]]].
    rewrite Hc in Hc0. injection Hc0 as <-.
    destruct (compare_instances_Ok price' instance_types Hh')
      as [c' [first' [rest' [Hc' [Hd' [Hq' [Hall' [Hch' [Hme' Hms']]]]]]]]].
    rewrite Hd, Hd' in Hdata, Hmax. rewrite Hd in Hh. clear Hd Hd' Hh'.
    exists c'. split; [exact Hc' |].
    split; [| split; [| split; [| split]]].
    + rewrite !row_types, Hq, Hq'. exact (scaled_types k _ _ Hdata).
    + rewrite <- Hq, <- Hq' in Hdata.
      pose proof (rows_related _ _ _ _ _ Hdata Hall Hall') as Hrows.
      apply (Forall2_impl _ _ _ _ Hrows).
      intros r r' [[_ Hp] [[_ Hs] [_ Hs']]].
      cbn [row_quote iq_price_per_hour] in Hp.
      split; [exact Hp |].
      rewrite Hs, Hs'. exact (savings_scaled k _ _ _ _ Hk Hh Hmax Hp).
    + rewrite Hms, Hms'. inversion Hdata as [| ? ? ? ? [_ Hp] _]; subst.
      exact (savings_scaled k _ _ _ _ Hk Hh Hmax Hp).
    + rewrite Hch, Hch'. inversion Hdata as [| ? ? ? ? [Ht _] _]; subst.
      cbn [option_map]. rewrite Ht. reflexivity.
    + rewrite Hme, Hme', <- !last_map, (scaled_types k _ _ Hdata). reflexivity.
  - intros e He.
    destruct (Qeq_dec (max_price
                         (sort_quotes (map (get_quote price)
                                           (map strip (split_on "," instance_types))))) 0)
      as [Hh | Hh].
    + rewrite (compare_instances_Raise _ _ Hh) in He. injection He as <-.
      apply compare_instances_Raise. rewrite Hmax, Hh. ring.
    + destruct (compare_instances_Ok price instance_types Hh) as [c [_ [_ [Hc _]]]].
      rewrite Hc in He. discriminate.
Qed.

Lemma instance_table_scale_invariant_witness :
  exists c c',
    compare_aws_instances AWSPricingClient.mock_ec2_price_per_hour
                          "m5.large, t3.micro,zz" "us-east-1" = Some (Ok c) /\
    compare_aws_instances AWSPricingClient.mock_ec2_price_per_hour
                          "m5.large, t3.micro,zz" "eu-west-1" = Some (Ok c') /\
    map row_type (ic_rows c') = map row_type (ic_rows c) /\
    ic_max_savings c' == ic_max_savings c.
Proof.
  destruct (compare_instances_Ok
              (fun t => AWSPricingClient.mock_ec2_price_per_hour t "us-east-1")
              "m5.large, t3.micro,zz")
    as [c [_ [_ [Hc _]]]]; [vm_compute; discriminate |].
  destruct (instance_table_scale_invariant
              (fun t => AWSPricingClient.mock_ec2_price_per_hour t "us-east-1")
              (fun t => AWSPricingClient.mock_ec2_price_per_hour t "eu-west-1")
              1.2 "m5.large, t3.micro,zz")
    as [Hreturns _].
  - lra.
  - intros t. cbv beta. unfold AWSPricingClient.mock_ec2_price_per_hour. cbv zeta.
    change (String.prefix "eu-" "us-east-1") with false.
    change (String.prefix "eu-" "eu-west-1") with true. cbv iota.
    generalize (default 0.1 (AWSPricingClient.mock_ec2_prices !! t)). intros b. lra.
  - destruct (Hreturns c Hc) as [c' [Hc' [Htypes [_ [Hmax _]]]]].
    exists c, c'. unfold compare_aws_instances.
    rewrite Hc, Hc'. repeat split; assumption.
Defined.

(** ** Regions and location names *)

Lemma mapped_region_supported (region : string) :
  is_Some (region_mapping !! region) -> region ∈ AWS_REGIONS.
Proof.
  unfold region_mapping, AWS_REGIONS. intros H.
  repeat (apply lookup_insert_is_Some in H as [<- | [_ H]];
          [repeat (first [apply list_elem_of_here | apply list_elem_of_further]) |]).
  destruct H as [name H]. apply lookup_singleton_Some in H as [<- _].
  repeat (first [apply list_elem_of_here | apply list_elem_of_further]).
Qed.

(** X30. The table of location names covers exactly the supported
    regions: a region has an entry if and only if the tools accept it, two
    supported regions never share a location name, and any other region is
    given the location of us-east-1. *)
Theorem location_names_cover_regions :
  (forall region, region ∈ AWS_REGIONS <-> is_Some (region_mapping !! region)) /\
  (forall r1 r2, r1 ∈ AWS_REGIONS -> r2 ∈ AWS_REGIONS ->
                 _get_location_name r1 = _get_location_name r2 -> r1 = r2) /\
  (forall region, region ∉ AWS_REGIONS ->
                  _get_location_name region = _get_location_name "us-east-1").
Proof.
  split; [| split].
  - intros region. split; [| apply mapped_region_supported].
    intros H. unfold AWS_REGIONS in H.
    repeat (apply elem_of_cons in H as [-> | H]; [eexists; vm_compute; reflexivity |]).
    apply elem_of_nil in H. contradiction.
  - intros r1 r2 H1 H2. unfold AWS_REGIONS in H1, H2.
    repeat (apply elem_of_cons in H1 as [-> | H1];
            [repeat (apply elem_of_cons in H2 as [-> | H2];
                     [intros H; first [reflexivity | vm_compute in H; discriminate] |]);
             apply elem_of_nil in H2; contradiction |]).
    apply elem_of_nil in H1. contradiction.
  - intros region Hregion. unfold _get_location_name.
    destruct (region_mapping !! region) as [name |] eqn:Hname; [| reflexivity].
    exfalso. apply Hregion, mapped_region_supported. rewrite Hname. eauto.
Qed.
